(** * The radio recorder [00-live.py]: a shallow embedding and its properties

    The program records a list of network radio stations in overlapping
    chunks inside a daily window and prints which stations are online.
    Python integers are [Z], strings are [string] (bytes of the UTF-8
    text), the dictionary [station_status] is an association list in
    insertion order, the files of the two directories are a finite map from
    path to size, and the statements of the program run in a small
    state-and-exception monad over a record [World].

    The clock of the model is exact: [time.sleep] takes as long as its
    argument and every other statement takes no time.  Threads are
    recorded when they are started; a run of the whole script is a
    sequence of statements of [main] and of steps of the threads started
    so far, and a status update is one step because the script makes it
    under [status_lock].  [load_stations]
    (reading the station file, retrying until it is well formed) stands
    outside: [main] is taken from the list it returned. *)

From Stdlib Require Import ZArith Lia String Ascii List Permutation.
From stdpp Require Import base list gmap strings pretty.

Local Open Scope string_scope.
Local Open Scope list_scope.
Local Open Scope Z_scope.

(** ** Configuration section of the script *)

Record Config := mkConfig {
  RECORD_DURATION : Z;   (* seconds per chunk *)
  OVERLAP_START : Z;     (* seconds between two chunk starts *)
  START_HOUR : Z;
  END_HOUR : Z;          (* 0 stands for midnight (24:00) *)
  REPORT_INTERVAL : Z
}.

(** The values written in the script. *)
Definition configured : Config :=
  {| RECORD_DURATION := 15 * 60;
     OVERLAP_START := 14 * 60;
     START_HOUR := 5;
     END_HOUR := 0;
     REPORT_INTERVAL := 60 |}.

Definition STREAM_LIST_FILE : string := "00-streamlist.txt".
Definition LIVE_DIR : string := "00-live".
Definition REC_DIR : string := "01-recordings".

(** ** Wall-clock timestamps ([datetime] in the zone [TIMEZONE]) *)

Record datetime := mkdatetime {
  year : Z; month : Z; day : Z;
  hour : Z; minute : Z; second : Z; microsecond : Z
}.

Definition MINYEAR : Z := 1.
Definition MAXYEAR : Z := 9999.

Definition is_leap (y : Z) : bool :=
  (y mod 4 =? 0) && (negb (y mod 100 =? 0) || (y mod 400 =? 0)).

Definition days_in_month (y m : Z) : Z :=
  if (m =? 2) && is_leap y then 29
  else match m with
       | 1 => 31 | 2 => 28 | 3 => 31 | 4 => 30 | 5 => 31 | 6 => 30
       | 7 => 31 | 8 => 31 | 9 => 30 | 10 => 31 | 11 => 30 | 12 => 31
       | _ => 0
       end.

Definition days_before_year (y : Z) : Z :=
  let y1 := y - 1 in y1 * 365 + y1 / 4 - y1 / 100 + y1 / 400.

Definition days_before_month (y m : Z) : Z :=
  match m with
  | 1 => 0 | 2 => 31 | 3 => 59 | 4 => 90 | 5 => 120 | 6 => 151
  | 7 => 181 | 8 => 212 | 9 => 243 | 10 => 273 | 11 => 304 | 12 => 334
  | _ => 0
  end + (if (2 <? m) && is_leap y then 1 else 0).

(** [datetime.toordinal]: the day number, 1 for 0001-01-01. *)
Definition toordinal (t : datetime) : Z :=
  days_before_year (year t) + days_before_month (year t) (month t) + day t.

Definition valid_date (y m d : Z) : Prop :=
  MINYEAR <= y <= MAXYEAR /\ 1 <= m <= 12 /\ 1 <= d <= days_in_month y m.

Definition valid_time (h mi s us : Z) : Prop :=
  0 <= h < 24 /\ 0 <= mi < 60 /\ 0 <= s < 60 /\ 0 <= us < 1000000.

(** The values a [datetime] object can hold. *)
Definition valid_datetime (t : datetime) : Prop :=
  valid_date (year t) (month t) (day t) /\
  valid_time (hour t) (minute t) (second t) (microsecond t).

(** The dates and times of the calendar, whatever the year (the clock of
    the model is not cut off at [MAXYEAR]). *)
Definition on_calendar (t : datetime) : Prop :=
  1 <= month t <= 12 /\ 1 <= day t <= days_in_month (year t) (month t) /\
  valid_time (hour t) (minute t) (second t) (microsecond t).

(** The calendar day after the day of [t], at the same time of day. *)
Definition tomorrow (t : datetime) : datetime :=
  let '(y, m, d) :=
    if day t <? days_in_month (year t) (month t) then (year t, month t, day t + 1)
    else if month t <? 12 then (year t, month t + 1, 1)
    else (year t + 1, 1, 1) in
  mkdatetime y m d (hour t) (minute t) (second t) (microsecond t).

Definition US_PER_SECOND : Z := 1000000.
Definition US_PER_DAY : Z := 86400 * US_PER_SECOND.

Definition us_of_day (t : datetime) : Z :=
  ((hour t * 60 + minute t) * 60 + second t) * US_PER_SECOND + microsecond t.

(** Microseconds since the start of day 0; [a - b] on two timestamps of the
    same zone is the difference of these, which is how the library
    computes it (from [toordinal] and the time fields). *)
Definition timestamp_us (t : datetime) : Z :=
  toordinal t * US_PER_DAY + us_of_day t.

Definition sub_us (a b : datetime) : Z := timestamp_us a - timestamp_us b.

(** The wall clock [us] microseconds ([0 <= us]) after [t]. *)
Definition add_us (t : datetime) (us : Z) : datetime :=
  let total := us_of_day t + us in
  let r := total mod US_PER_DAY in
  let d := Nat.iter (Z.to_nat (total / US_PER_DAY)) tomorrow t in
  mkdatetime (year d) (month d) (day d)
             (r / (3600 * US_PER_SECOND))
             ((r / (60 * US_PER_SECOND)) mod 60)
             ((r / US_PER_SECOND) mod 60)
             (r mod US_PER_SECOND).

(** ** Exceptions *)

Inductive Exn :=
| ValueError (msg : string)
| OverflowError (msg : string)
| FileNotFoundError (msg : string)
| OSError (msg : string).

(** [str(e)] *)
Definition str_exn (e : Exn) : string :=
  match e with
  | ValueError m | OverflowError m | FileNotFoundError m | OSError m => m
  end.

(** [t + timedelta(days=1)]: the library goes through the day number,
    [fromordinal (toordinal t + 1)], and raises when the result is after
    year [MAXYEAR]; [tomorrow] is that day (lemma [toordinal_tomorrow]). *)
Definition add_one_day (t : datetime) : Exn + datetime :=
  let t' := tomorrow t in
  if year t' <=? MAXYEAR then inr t'
  else inl (OverflowError "date value out of range").

(** [t.replace(hour=h, minute=mi, second=s, microsecond=us)] *)
Definition replace_time (t : datetime) (h mi s us : Z) : Exn + datetime :=
  if negb ((0 <=? h) && (h <? 24)) then inl (ValueError "hour must be in 0..23")
  else if negb ((0 <=? mi) && (mi <? 60)) then inl (ValueError "minute must be in 0..59")
  else if negb ((0 <=? s) && (s <? 60)) then inl (ValueError "second must be in 0..59")
  else if negb ((0 <=? us) && (us <? 1000000))
       then inl (ValueError "microsecond must be in 0..999999")
  else inr (mkdatetime (year t) (month t) (day t) h mi s us).

(** ** Formatting *)

Definition digit_char (d : Z) : ascii := ascii_of_N (48 + Z.to_N d).

(** The [k] low decimal digits of [n], most significant first: what
    ["%02d"], [%m], [%H] ... and (for [k = 4]) [%Y] print for a field in its
    range. *)
Fixpoint fmt_digits (k : nat) (n : Z) : string :=
  match k with
  | O => ""
  | S k' => fmt_digits k' (n / 10) +:+ String (digit_char (n mod 10)) ""
  end.

(** [now.strftime("%Y-%m-%d")] *)
Definition strftime_date (t : datetime) : string :=
  fmt_digits 4 (year t) +:+ "-" +:+ fmt_digits 2 (month t) +:+ "-" +:+
  fmt_digits 2 (day t).

(** [now.strftime("%H-%M-%S")] and [now.strftime("%H:%M:%S")] *)
Definition strftime_time (sep : string) (t : datetime) : string :=
  fmt_digits 2 (hour t) +:+ sep +:+ fmt_digits 2 (minute t) +:+ sep +:+
  fmt_digits 2 (second t).

(** [str(timedelta(seconds=n))] for an integer [n] *)
Definition str_timedelta_seconds (n : Z) : string :=
  let days := n / 86400 in
  let secs := n mod 86400 in
  let s := pretty (secs / 3600) +:+ ":" +:+ fmt_digits 2 ((secs / 60) mod 60)
           +:+ ":" +:+ fmt_digits 2 (secs mod 60) in
  if days =? 0 then s
  else pretty days +:+ " day" +:+ (if Z.abs days =? 1 then "" else "s") +:+ ", " +:+ s.

(** The nine characters that [generate_filename] replaces; the fourth is
    the double quote (code 34). *)
Definition UNSAFE_CHARS : list ascii :=
  ["<"; ">"; ":"; "034"; "/"; "\"; "|"; "?"; "*"]%char.

Definition is_unsafe (c : ascii) : bool :=
  existsb (Ascii.eqb c) UNSAFE_CHARS.

Fixpoint map_string (f : ascii -> ascii) (s : string) : string :=
  match s with
  | EmptyString => EmptyString
  | String c s' => String (f c) (map_string f s')
  end.

Definition safe_name (station_name : string) : string :=
  map_string (fun c => if negb (is_unsafe c) then c else "_"%char) station_name.

Fixpoint string_forallb (p : ascii -> bool) (s : string) : bool :=
  match s with
  | EmptyString => true
  | String c s' => p c && string_forallb p s'
  end.

Definition is_safe (c : ascii) : bool := negb (is_unsafe c).

(** [generate_filename] once [now] has been read from the clock *)
Definition filename_at (station_name : string) (now : datetime) : string :=
  let date_str := strftime_date now in
  let time_str := strftime_time "-" now in
  "[" +:+ date_str +:+ "]-[" +:+ time_str +:+ "]-" +:+ safe_name station_name
      +:+ ".mp3".

(** [Path(dir) / name], for a [name] of one component as
    [generate_filename] makes them; an absolute [name] replaces [dir]. *)
Definition path_join (dir name : string) : string :=
  match name with
  | String "/" _ => name
  | _ => dir +:+ "/" +:+ name
  end.

(** ** The dictionary [station_status] *)

(** Python dictionaries keep their keys in insertion order and
    [print_status_report] lists the names in that order. *)
Abbreviation dict := (list (string * bool)).

(** [d[k] = v] *)
Fixpoint dict_set (k : string) (v : bool) (d : dict) : dict :=
  match d with
  | [] => [(k, v)]
  | (k', v') :: d' =>
      if String.eqb k' k then (k', v) :: d' else (k', v') :: dict_set k v d'
  end.

(** [d.get(k)] *)
Fixpoint dict_get (k : string) (d : dict) : option bool :=
  match d with
  | [] => None
  | (k', v') :: d' => if String.eqb k' k then Some v' else dict_get k d'
  end.

Definition dict_keys (d : dict) : list string := map fst d.

(** ** The world the script runs in *)

Inductive Target :=
| T_reporting_loop
| T_record_station (station_name station_url : string)
| T_record_chunk_ffmpeg (station_name station_url filename : string) (duration : Z).

(** A started thread: what it runs and when [start()] was called. *)
Record Thread := mkThread { target : Target; started : datetime }.

Record World := mkWorld {
  clock : datetime;               (* wall clock in TIMEZONE *)
  fs : gmap string N;             (* path of each file and its size *)
  station_status : dict;
  stdout : list string;           (* one entry per print() *)
  threads : list Thread           (* in the order they were started *)
}.

Definition with_clock (t : datetime) (w : World) : World :=
  mkWorld t (fs w) (station_status w) (stdout w) (threads w).
Definition with_fs (f : gmap string N) (w : World) : World :=
  mkWorld (clock w) f (station_status w) (stdout w) (threads w).
Definition with_station_status (d : dict) (w : World) : World :=
  mkWorld (clock w) (fs w) d (stdout w) (threads w).
Definition with_stdout (o : list string) (w : World) : World :=
  mkWorld (clock w) (fs w) (station_status w) o (threads w).
Definition with_threads (l : list Thread) (w : World) : World :=
  mkWorld (clock w) (fs w) (station_status w) (stdout w) l.

(** What the script cannot decide itself.  [run_process cmd files] is the
    run of an external command: [None] when it cannot be started
    ([subprocess.run] raises), otherwise the files it leaves behind.
    [move_fault src dst files] is [Some (e, files')] when [shutil.move]
    fails with [e], leaving the files in any state [files']. *)
Record Env := mkEnv {
  run_process : list string -> gmap string N -> option (gmap string N);
  move_fault : string -> string -> gmap string N -> option (Exn * gmap string N)
}.

(** ** Statements: state, exceptions, loops cut off by fuel *)

Inductive Outcome (A : Type) :=
| Returned (a : A)
| Raised (e : Exn)
| Running.          (* the loop was still going when the fuel ran out *)
Arguments Returned {A} a.
Arguments Raised {A} e.
Arguments Running {A}.

Definition M (A : Type) : Type := World -> Outcome A * World.

Definition ret {A} (a : A) : M A := fun w => (Returned a, w).
Definition raise {A} (e : Exn) : M A := fun w => (Raised e, w).
Definition running {A} : M A := fun w => (Running, w).

Definition bind {A B} (m : M A) (k : A -> M B) : M B :=
  fun w => match m w with
           | (Returned a, w') => k a w'
           | (Raised e, w') => (Raised e, w')
           | (Running, w') => (Running, w')
           end.

(** [try: m  except Exception as e: h e] *)
Definition try_except {A} (m : M A) (h : Exn -> M A) : M A :=
  fun w => match m w with
           | (Raised e, w') => h e w'
           | r => r
           end.

Definition lift {A} (r : Exn + A) : M A :=
  match r with inl e => raise e | inr a => ret a end.

Notation "'let*' x ':=' m 'in' k" := (bind m (fun x => k))
  (at level 10, x name, m at level 100, k at level 200).
Notation "m '>>' k" := (bind m (fun _ => k))
  (at level 90, right associativity).

Fixpoint for_each {A} (l : list A) (body : A -> M unit) : M unit :=
  match l with
  | [] => ret tt
  | x :: l' => body x >> for_each l' body
  end.

(** *** Primitive statements *)

(** [datetime.now(TIMEZONE)] *)
Definition datetime_now : M datetime := fun w => (Returned (clock w), w).

(** [time.sleep(us / 1e6)]; nothing else moves the clock of the model. *)
Definition time_sleep (us : Z) : M unit :=
  fun w => if us <? 0 then (Raised (ValueError "sleep length must be non-negative"), w)
           else (Returned tt, with_clock (add_us (clock w) us) w).

Definition print (line : string) : M unit :=
  fun w => (Returned tt, with_stdout (stdout w ++ [line]) w).

(** [threading.Thread(target=..., daemon=True).start()] *)
Definition thread_start (tg : Target) : M unit :=
  fun w => (Returned tt, with_threads (threads w ++ [mkThread tg (clock w)]) w).

(** [p.exists()] *)
Definition path_exists (p : string) : M bool :=
  fun w => (Returned (bool_decide (is_Some (fs w !! p))), w).

(** [p.stat().st_size] *)
Definition stat_size (p : string) : M N :=
  fun w => match fs w !! p with
           | Some n => (Returned n, w)
           | None => (Raised (FileNotFoundError p), w)
           end.

(** [os.remove(p)]: the file is gone afterwards; a missing file raises. *)
Definition os_remove (p : string) : M unit :=
  fun w => match fs w !! p with
           | Some _ => (Returned tt, with_fs (delete p (fs w)) w)
           | None => (Raised (FileNotFoundError p), w)
           end.

(** ** The functions of the script *)

Section Program.
Variable cfg : Config.
Variable env : Env.

(** [subprocess.run(cmd, stdout=PIPE, stderr=PIPE)] *)
Definition subprocess_run (cmd : list string) : M unit :=
  fun w => match run_process env cmd (fs w) with
           | Some files => (Returned tt, with_fs files w)
           | None => (Raised (FileNotFoundError "ffmpeg"), w)
           end.

(** [shutil.move(src, dst)]: unless the environment makes it fail, the
    file is at [dst] afterwards and no longer at [src]. *)
Definition shutil_move (src dst : string) : M unit :=
  fun w => match move_fault env src dst (fs w) with
           | Some (e, files) => (Raised e, with_fs files w)
           | None =>
               match fs w !! src with
               | Some n => (Returned tt, with_fs (<[dst := n]> (delete src (fs w))) w)
               | None => (Raised (FileNotFoundError src), w)
               end
           end.

Definition current_time_str : M string :=
  let* now := datetime_now in
  ret (strftime_time ":" now).

Definition within_recording_window (now : datetime) : bool :=
  let hour := hour now in
  (START_HOUR cfg <=? hour) &&
  (if END_HOUR cfg =? 0 then hour <? 24 else hour <? END_HOUR cfg).

(** The value [wait_until_start] gives to its variable [next_start]. *)
Definition next_start (now : datetime) : Exn + datetime :=
  if hour now <? START_HOUR cfg then
    replace_time now (START_HOUR cfg) 0 0 0
  else
    match add_one_day now with
    | inl e => inl e
    | inr t => replace_time t (START_HOUR cfg) 0 0 0
    end.

Fixpoint wait_until_start (fuel : nat) : M unit :=
  match fuel with
  | O => running
  | S fuel' =>
      let* now := datetime_now in
      if within_recording_window now then ret tt
      else
        let* next_start := lift (next_start now) in
        let wait_us := sub_us next_start now in
        let wait_str := str_timedelta_seconds (Z.quot wait_us US_PER_SECOND) in
        print ("Outside recording window. Waiting " +:+ wait_str +:+ " until "
                +:+ pretty (START_HOUR cfg) +:+ ":00.") >>
        time_sleep wait_us >>
        wait_until_start fuel'
  end.

Definition generate_filename (station_name : string) : M string :=
  let* now := datetime_now in
  ret (filename_at station_name now).

(** One statement of the model: the script holds [status_lock] around the
    assignment. *)
Definition update_station_status (station_name : string) (is_online : bool) : M unit :=
  fun w => (Returned tt,
            with_station_status (dict_set station_name is_online (station_status w)) w).

Definition ffmpeg_command (station_url : string) (duration : Z) (live_path : string)
  : list string :=
  ["ffmpeg"; "-y"; "-reconnect"; "1"; "-reconnect_streamed"; "1";
   "-reconnect_delay_max"; "10"; "-i"; station_url; "-t"; pretty duration;
   "-acodec"; "libmp3lame"; "-f"; "mp3"; live_path].

Definition record_chunk_ffmpeg (station_name station_url filename : string)
           (duration : Z) : M unit :=
  let live_path := path_join LIVE_DIR filename in
  let rec_path := path_join REC_DIR filename in
  subprocess_run (ffmpeg_command station_url duration live_path) >>
  let* has_data :=
    (let* e := path_exists live_path in
     if e then (let* size := stat_size live_path in ret (0 <? size)%N)
     else ret false) in
  if has_data then
    update_station_status station_name true >>
    try_except
      (shutil_move live_path rec_path)
      (fun e => print ("[" +:+ station_name +:+ "]: Error moving file: "
                         +:+ str_exn e))
  else
    update_station_status station_name false >>
    let* e := path_exists live_path in
    if e then os_remove live_path else ret tt.

(** The loop of [record_station]; [fuel] bounds its passes and [wfuel]
    those of each call of [wait_until_start]. *)
Fixpoint record_station_loop (wfuel fuel : nat) (station_name station_url : string)
  : M unit :=
  match fuel with
  | O => running
  | S fuel' =>
      let* now := datetime_now in
      let* now :=
        (if negb (within_recording_window now)
         then wait_until_start wfuel >> datetime_now
         else ret now) in
      let* filename := generate_filename station_name in
      thread_start (T_record_chunk_ffmpeg station_name station_url filename
                                          (RECORD_DURATION cfg)) >>
      time_sleep (OVERLAP_START cfg * US_PER_SECOND) >>
      record_station_loop wfuel fuel' station_name station_url
  end.

Definition record_station (wfuel fuel : nat) (station_name station_url : string)
  : M unit :=
  update_station_status station_name false >>
  record_station_loop wfuel fuel station_name station_url.

(** Reading the global [station_status] *)
Definition read_station_status : M dict :=
  fun w => (Returned (station_status w), w).

Definition print_status_report : M unit :=
  let* station_status := read_station_status in
  let total := length station_status in
  let online_names := map fst (filter (fun kv => snd kv = true) station_status) in
  let offline_names := map fst (filter (fun kv => snd kv = false) station_status) in
  let online_count := length online_names in
  let offline_count := length offline_names in
  print "===" >>
  print ("Online Radios: " +:+ pretty online_count +:+ "/" +:+ pretty total) >>
  for_each online_names print >>
  print "" >>
  print ("Offline Radios: " +:+ pretty offline_count +:+ "/" +:+ pretty total) >>
  for_each offline_names print.

Fixpoint reporting_loop (fuel : nat) : M unit :=
  match fuel with
  | O => running
  | S fuel' =>
      print_status_report >>
      time_sleep (REPORT_INTERVAL cfg * US_PER_SECOND) >>
      reporting_loop fuel'
  end.

(** The statements of [main] in the order the script runs them, from the
    list that [load_stations] returned up to the idle loop at its end: one
    assignment [station_status[station_name] = False] per station, the
    start of the reporter, then per station the start of its supervisor and
    the line printed after it.  The two [mkdir] calls create no file.  A
    thread runs from its start on, so the threads already started can run
    between any two of these statements. *)
Definition main_statements (stations : list (string * string)) : list (M unit) :=
  map (fun st => update_station_status (fst st) false) stations ++
  thread_start T_reporting_loop ::
  flat_map (fun st =>
    [thread_start (T_record_station (fst st) (snd st));
     print ("[" +:+ fst st +:+ "]: Recording thread started.")]) stations.

(** [main], run without a step of another thread in between. *)
Definition main (stations : list (string * string)) : M unit :=
  for_each (main_statements stations) (fun statement => statement).
End Program.

(** The script starts with an empty dictionary, nothing printed and no
    thread. *)
Definition initial_world (now : datetime) (files : gmap string N) : World :=
  mkWorld now files [] [] [].

(** *** Sample environments *)

(** The external command writes [size] bytes to its last argument; every
    move fails with [e] when [e] is given, leaving the files in place. *)
Definition env_capture (size : N) (e : option Exn) : Env :=
  mkEnv (fun cmd files => Some (<[List.last cmd "" := size]> files))
        (fun _ _ files => match e with Some e => Some (e, files) | None => None end).

(** ** Schedules, threads and runs of the whole script *)

(** The capture started by a thread is taken to be active from the start
    of the thread for the duration it was given. *)
Definition chunk_duration (th : Thread) : Z :=
  match target th with
  | T_record_chunk_ffmpeg _ _ _ duration => duration
  | _ => 0
  end.

Definition active_from (th : Thread) : Z := timestamp_us (started th).

Definition active_until (th : Thread) : Z :=
  active_from th + chunk_duration th * US_PER_SECOND.

(** Length in microseconds of the time both captures are active. *)
Definition overlap_us (a b : Thread) : Z :=
  Z.max 0 (Z.min (active_until a) (active_until b)
           - Z.max (active_from a) (active_from b)).

(** The thread that a pass of [record_station] starts at [t]. *)
Definition capture (cfg : Config) (station_name station_url : string) (t : datetime)
  : Thread :=
  mkThread (T_record_chunk_ffmpeg station_name station_url
              (filename_at station_name t) (RECORD_DURATION cfg)) t.

(** The threads that the loop of [record_station] starts when its next
    pass begins at [t]: a capture starts at once if [t] is in the window,
    and the pass after it begins [OVERLAP_START] seconds after that
    start. *)
Inductive scheduled (cfg : Config) (station_name station_url : string)
  : datetime -> list Thread -> Prop :=
| scheduled_nil (t : datetime) : scheduled cfg station_name station_url t []
| scheduled_cons (t : datetime) (c : Thread) (l : list Thread) :
    c = capture cfg station_name station_url (started c) ->
    on_calendar (started c) ->
    (within_recording_window cfg t = true -> started c = t) ->
    scheduled cfg station_name station_url
              (add_us (started c) (OVERLAP_START cfg * US_PER_SECOND)) l ->
    scheduled cfg station_name station_url t (c :: l).

(** The station a thread works for. *)
Definition thread_station (tg : Target) : option string :=
  match tg with
  | T_reporting_loop => None
  | T_record_station station_name _ => Some station_name
  | T_record_chunk_ffmpeg station_name _ _ _ => Some station_name
  end.

(** What a started thread runs. *)
Definition run_target (cfg : Config) (env : Env) (wfuel fuel : nat) (tg : Target)
  : M unit :=
  match tg with
  | T_reporting_loop => reporting_loop cfg fuel
  | T_record_station station_name station_url =>
      record_station cfg wfuel fuel station_name station_url
  | T_record_chunk_ffmpeg station_name station_url filename duration =>
      record_chunk_ffmpeg env station_name station_url filename duration
  end.

(** One step of the running script: a started thread runs (from its start,
    as far as the fuel goes), or a thread of a station stores a status,
    which it does under [status_lock], so in one piece. *)
Inductive step (cfg : Config) (env : Env) : World -> World -> Prop :=
| step_run (th : Thread) (wfuel fuel : nat) (w : World) :
    th ∈ threads w ->
    step cfg env w (snd (run_target cfg env wfuel fuel (target th) w))
| step_update (th : Thread) (station_name : string) (is_online : bool) (w : World) :
    th ∈ threads w ->
    thread_station (target th) = Some station_name ->
    step cfg env w (snd (update_station_status station_name is_online w)).

(** The worlds the script can be in once [main] has started its threads. *)
Definition reachable (cfg : Config) (env : Env) (stations : list (string * string))
           (now : datetime) (files : gmap string N) (w : World) : Prop :=
  rtc (step cfg env) (snd (main stations (initial_world now files))) w.

(** One step of the script from the first statement of [main] on.  A
    configuration holds the statements [main] has still to run and the
    world: [main] runs its next statement, or a thread that is already
    started takes a step. *)
Inductive main_step (cfg : Config) (env : Env)
  : list (M unit) * World -> list (M unit) * World -> Prop :=
| main_step_next (statement : M unit) (rest : list (M unit)) (w w' : World) :
    statement w = (Returned tt, w') ->
    main_step cfg env (statement :: rest, w) (rest, w')
| main_step_thread (rest : list (M unit)) (w w' : World) :
    step cfg env w w' ->
    main_step cfg env (rest, w) (rest, w').

(** The configurations the script can be in from the first statement of
    [main] on. *)
Definition starting (cfg : Config) (env : Env) (stations : list (string * string))
           (now : datetime) (files : gmap string N) (c : list (M unit) * World) : Prop :=
  rtc (main_step cfg env) (main_statements stations, initial_world now files) c.

(** The keys of [station_status] are exactly the known stations, each
    once. *)
Definition board_complete (stations : list (string * string)) (w : World) : Prop :=
  (forall k : string, k ∈ dict_keys (station_status w) <-> k ∈ map fst stations) /\
  NoDup (dict_keys (station_status w)).

(** [station_status] has exactly the known stations as keys, each once,
    and every started thread of a station works for a known station. *)
Definition status_board_ok (stations : list (string * string)) (w : World) : Prop :=
  (forall k : string, k ∈ dict_keys (station_status w) <-> k ∈ map fst stations) /\
  NoDup (dict_keys (station_status w)) /\
  (forall (th : Thread) (station_name : string),
     th ∈ threads w -> thread_station (target th) = Some station_name ->
     station_name ∈ map fst stations).

(** The statement [m] keeps the property [P] of the world, however it
    ends. *)
Definition keeps (P : World -> Prop) {A : Type} (m : M A) : Prop :=
  forall w : World, P w -> P (snd (m w)).

(** A thread is started and the board is complete. *)
Definition board_started (stations : list (string * string)) (w : World) : Prop :=
  status_board_ok stations w /\ threads w <> [].

(** While [main] is at work.  Before the reporter is started, no thread is
    there, the stations [done] are stored as offline and [main] has the
    other assignments and all the starts to run.  From the start of the
    reporter on, the board is complete and every statement left keeps it
    so. *)
Definition main_progress (stations : list (string * string))
           (c : list (M unit) * World) : Prop :=
  (exists done todo : list (string * string),
     stations = done ++ todo /\
     fst c = drop (length done) (main_statements stations) /\
     threads (snd c) = [] /\
     station_status (snd c)
     = fold_left (fun d st => dict_set (fst st) false d) done []) \/
  (board_started stations (snd c) /\
   Forall (keeps (board_started stations)) (fst c)).

(** ** Definitions for the further properties *)

(** [name] is an absolute path. *)
Definition is_absolute (name : string) : bool :=
  match name with
  | String "/" _ => true
  | _ => false
  end.

(** The window is not empty. *)
Definition window_nonempty (cfg : Config) : Prop :=
  0 <= START_HOUR cfg < 24 /\ (END_HOUR cfg = 0 \/ START_HOUR cfg < END_HOUR cfg).

(** The captures that the loop of [record_station] has started, the first
    not before [lo] (microseconds): each inside the window, each at least
    [OVERLAP_START] seconds after the one before. *)
Inductive launched (cfg : Config) (station_name station_url : string)
  : Z -> list Thread -> Prop :=
| launched_nil (lo : Z) : launched cfg station_name station_url lo []
| launched_cons (lo : Z) (c : Thread) (l : list Thread) :
    c = capture cfg station_name station_url (started c) ->
    on_calendar (started c) ->
    within_recording_window cfg (started c) = true ->
    lo <= timestamp_us (started c) ->
    launched cfg station_name station_url
             (timestamp_us (started c) + OVERLAP_START cfg * US_PER_SECOND) l ->
    launched cfg station_name station_url lo (c :: l).

(** The lines of one report on the dictionary [d]. *)
Definition report_lines (d : dict) : list string :=
  let online_names := map fst (filter (fun kv => snd kv = true) d) in
  let offline_names := map fst (filter (fun kv => snd kv = false) d) in
  ["==="; "Online Radios: " +:+ pretty (length online_names) +:+ "/" +:+ pretty (length d)]
  ++ online_names
  ++ [""; "Offline Radios: " +:+ pretty (length offline_names) +:+ "/"
            +:+ pretty (length d)]
  ++ offline_names.

(** The board is complete and its keys are in the order [keys]. *)
Definition board_ordered (stations : list (string * string)) (keys : list string)
           (w : World) : Prop :=
  status_board_ok stations w /\ dict_keys (station_status w) = keys.

(** ** Reading the station list *)

(** [c.isspace()] on the UTF-8 bytes of a character: the one-byte, two-byte
    and three-byte encodings of the white space of [str.strip()]. *)
Definition space1 (c : ascii) : bool :=
  let n := N_of_ascii c in
  ((9 <=? n) && (n <=? 13) || (28 <=? n) && (n <=? 32))%N.

Definition space2 (c1 c2 : ascii) : bool :=
  let n1 := N_of_ascii c1 in
  let n2 := N_of_ascii c2 in
  ((n1 =? 194) && ((n2 =? 133) || (n2 =? 160)))%N.

Definition space3 (c1 c2 c3 : ascii) : bool :=
  let n1 := N_of_ascii c1 in
  let n2 := N_of_ascii c2 in
  let n3 := N_of_ascii c3 in
  ((n1 =? 225) && (n2 =? 154) && (n3 =? 128)
   || (n1 =? 226) && (n2 =? 128)
      && ((128 <=? n3) && (n3 <=? 138) || (n3 =? 168) || (n3 =? 169) || (n3 =? 175))
   || (n1 =? 226) && (n2 =? 129) && (n3 =? 159)
   || (n1 =? 227) && (n2 =? 128) && (n3 =? 128))%N.

(** [s.lstrip()] *)
Fixpoint lstrip (s : string) : string :=
  match s with
  | EmptyString => s
  | String c1 s1 =>
      if space1 c1 then lstrip s1
      else match s1 with
           | EmptyString => s
           | String c2 s2 =>
               if space2 c1 c2 then lstrip s2
               else match s2 with
                    | EmptyString => s
                    | String c3 s3 => if space3 c1 c2 c3 then lstrip s3 else s
                    end
           end
  end.

(** [lstrip] on the reversed string: the bytes of a character come last
    byte first. *)
Fixpoint lstrip_reversed (s : string) : string :=
  match s with
  | EmptyString => s
  | String c1 s1 =>
      if space1 c1 then lstrip_reversed s1
      else match s1 with
           | EmptyString => s
           | String c2 s2 =>
               if space2 c2 c1 then lstrip_reversed s2
               else match s2 with
                    | EmptyString => s
                    | String c3 s3 =>
                        if space3 c3 c2 c1 then lstrip_reversed s3 else s
                    end
           end
  end.

(** [s.strip()] *)
Definition str_strip (s : string) : string :=
  String.rev (lstrip_reversed (String.rev (lstrip s))).

(** [range(0, n, 2)] *)
Definition range_by_2 (n : nat) : list nat :=
  map (fun k => (2 * k)%nat) (seq 0 (Nat.div2 (S n))).

(** The loop [for i in range(0, len(lines), 2)] of [load_stations];
    [None] stands for the [IndexError] of [lines[i]] or [lines[i+1]]. *)
Fixpoint stations_at (lines : list string) (indices : list nat)
  : option (list (string * string)) :=
  match indices with
  | [] => Some []
  | i :: indices' =>
      match lines !! i, lines !! (i + 1)%nat with
      | Some name, Some url =>
          match stations_at lines indices' with
          | Some stations => Some ((name, url) :: stations)
          | None => None
          end
      | _, _ => None
      end
  end.

(** How one pass of the loop of [load_stations] ends. *)
Inductive Attempt :=
| Loaded (stations : list (string * string))   (* [return stations] *)
| Retry (message : string).                    (* print, sleep 60 s, [continue] *)

(** One pass on the result [r] of opening the file and reading its lines:
    an exception, or the lines as the iteration over the file gives
    them. *)
Definition load_attempt (filename : string) (r : Exn + list string) : Attempt :=
  match r with
  | inl (FileNotFoundError _) =>
      Retry ("Error: '" +:+ filename +:+ "' not found. Retrying in 60s...")
  | inl e =>
      Retry ("Error loading stations: " +:+ str_exn e +:+ ". Retrying in 60s...")
  | inr raw =>
      let lines := map str_strip (filter (fun line => str_strip line <> "") raw) in
      if (length lines <? 2)%nat || negb (length lines mod 2 =? 0)%nat then
        Retry ("Error: '" +:+ filename +:+ "' not properly formatted. Retrying in 60s...")
      else
        match stations_at lines (range_by_2 (length lines)) with
        | None =>
            Retry "Error loading stations: list index out of range. Retrying in 60s..."
        | Some [] => Retry "No stations found. Retrying in 60s..."
        | Some stations => Loaded stations
        end
  end.

Section Loading.
(** What opening [filename] and reading its lines gives at a time of the
    clock: the file can change between two tries. *)
Variable read_lines : string -> datetime -> Exn + list string.

Fixpoint load_stations (fuel : nat) (filename : string) : M (list (string * string)) :=
  match fuel with
  | O => running
  | S fuel' =>
      let* now := datetime_now in
      match load_attempt filename (read_lines filename now) with
      | Loaded stations => ret stations
      | Retry message =>
          print message >>
          time_sleep (60 * US_PER_SECOND) >>
          load_stations fuel' filename
      end
  end.

(** The whole of [main]: the station list is loaded first. *)
Definition main_script (fuel : nat) : M unit :=
  let* stations := load_stations fuel STREAM_LIST_FILE in
  main stations.
End Loading.

(** The stations in the order of the lines, two lines each. *)
Fixpoint pairs (lines : list string) : list (string * string) :=
  match lines with
  | name :: url :: lines' => (name, url) :: pairs lines'
  | _ => []
  end.

(** The clock after [n] failed tries. *)
Definition retry_clock (t : datetime) (n : nat) : datetime :=
  Nat.iter n (fun t => add_us t (60 * US_PER_SECOND)) t.


(** * Properties *)

(** ** The recording window *)

(** C2: [within_recording_window] is true exactly when the hour of [now]
    lies in [[START_HOUR, 24)] if [END_HOUR] is 0 and in
    [[START_HOUR, END_HOUR)] otherwise, and it depends on nothing but that
    hour: two timestamps with the same hour get the same answer. *)
Theorem within_recording_window_iff (cfg : Config) (now : datetime) :
  (within_recording_window cfg now = true <->
   if END_HOUR cfg =? 0
   then START_HOUR cfg <= hour now < 24
   else START_HOUR cfg <= hour now < END_HOUR cfg) /\
  (forall now' : datetime,
     hour now' = hour now ->
     within_recording_window cfg now' = within_recording_window cfg now).
Proof.
  split.
  - unfold within_recording_window.
    destruct (END_HOUR cfg =? 0); rewrite andb_true_iff; lia.
  - intros now' Hh. unfold within_recording_window. now rewrite Hh.
Qed.

Lemma within_recording_window_iff_witness :
  (within_recording_window configured (mkdatetime 2024 3 1 23 59 59 999999) = true <->
   5 <= 23 < 24) /\
  within_recording_window configured (mkdatetime 1999 12 31 23 0 0 0)
  = within_recording_window configured (mkdatetime 2024 3 1 23 59 59 999999).
Proof.
  split.
  - exact (proj1 (within_recording_window_iff configured
                    (mkdatetime 2024 3 1 23 59 59 999999))).
  - apply (proj2 (within_recording_window_iff configured
                    (mkdatetime 2024 3 1 23 59 59 999999))).
    reflexivity.
Defined.

(** C10: when [END_HOUR] equals [START_HOUR] and is not 0 the window is
    empty: the check is false at every hour. *)
Theorem within_recording_window_degenerate (cfg : Config) (now : datetime) :
  END_HOUR cfg = START_HOUR cfg ->
  END_HOUR cfg <> 0 ->
  within_recording_window cfg now = false.
Proof.
  intros Heq Hnz. unfold within_recording_window.
  destruct (END_HOUR cfg =? 0) eqn:E; [lia|].
  rewrite Heq. apply andb_false_iff. lia.
Qed.

Lemma within_recording_window_degenerate_witness :
  within_recording_window (mkConfig 900 840 5 5 60)
                          (mkdatetime 2024 3 1 5 0 0 0) = false.
Proof.
  apply within_recording_window_degenerate; simpl; lia.
Defined.

(** ** The dictionary *)

Lemma dict_get_set_eq k v d : dict_get k (dict_set k v d) = Some v.
Proof.
  induction d as [|[k' v'] d IH]; simpl.
  - now rewrite String.eqb_refl.
  - destruct (String.eqb k' k) eqn:E; simpl; rewrite E; auto.
Qed.

Lemma dict_get_set_ne k k' v d :
  k' <> k -> dict_get k' (dict_set k v d) = dict_get k' d.
Proof.
  intros Hne. induction d as [|[k0 v0] d IH]; simpl.
  - destruct (String.eqb k k') eqn:E; auto. apply String.eqb_eq in E. congruence.
  - destruct (String.eqb k0 k) eqn:E; simpl.
    + apply String.eqb_eq in E. subst k0.
      destruct (String.eqb k k') eqn:E'; auto. apply String.eqb_eq in E'. congruence.
    + now rewrite IH.
Qed.

(** ** The calendar *)

Lemma is_leap_cases y :
  (is_leap y = true /\ y mod 4 = 0 /\ (y mod 100 <> 0 \/ y mod 400 = 0)) \/
  (is_leap y = false /\ (y mod 4 <> 0 \/ (y mod 100 = 0 /\ y mod 400 <> 0))).
Proof.
  unfold is_leap.
  destruct (Z.eqb_spec (y mod 4) 0), (Z.eqb_spec (y mod 100) 0),
    (Z.eqb_spec (y mod 400) 0); cbn; lia.
Qed.

Lemma days_before_year_succ y :
  days_before_year (y + 1) = days_before_year y + (if is_leap y then 366 else 365).
Proof.
  unfold days_before_year. cbv zeta. replace (y + 1 - 1) with y by lia.
  destruct (is_leap_cases y) as [[-> H]|[-> H]];
    Z.to_euclidean_division_equations; lia.
Qed.

Ltac month_cases m :=
  let H := fresh "Hc" in
  assert (H : m = 1 \/ m = 2 \/ m = 3 \/ m = 4 \/ m = 5 \/ m = 6 \/ m = 7 \/
              m = 8 \/ m = 9 \/ m = 10 \/ m = 11 \/ m = 12) by lia;
  repeat destruct H as [H|H]; subst m.

Lemma days_before_month_succ y m :
  1 <= m < 12 ->
  days_before_month y (m + 1) = days_before_month y m + days_in_month y m.
Proof.
  intros Hm. unfold days_before_month, days_in_month.
  destruct (is_leap y); month_cases m; try lia; reflexivity.
Qed.

Lemma days_in_month_bounds y m : 1 <= m <= 12 -> 28 <= days_in_month y m <= 31.
Proof.
  intros Hm. unfold days_in_month.
  destruct (is_leap y); month_cases m; cbn; lia.
Qed.

Lemma toordinal_tomorrow t :
  1 <= month t <= 12 -> 1 <= day t <= days_in_month (year t) (month t) ->
  toordinal (tomorrow t) = toordinal t + 1.
Proof.
  destruct t as [y m d h mi s us]; cbn [year month day hour minute second microsecond].
  intros Hm Hd. unfold tomorrow, toordinal;
    cbn [year month day hour minute second microsecond].
  destruct (Z.ltb_spec d (days_in_month y m)) as [Hlt|Hge];
    cbn [year month day hour minute second microsecond].
  - lia.
  - assert (Hday : d = days_in_month y m) by lia.
    destruct (Z.ltb_spec m 12) as [Hlt12|Hge12];
      cbn [year month day hour minute second microsecond].
    + rewrite days_before_month_succ by lia. lia.
    + assert (Hm12 : m = 12) by lia. subst m.
      rewrite days_before_year_succ, Hday.
      unfold days_before_month, days_in_month.
      destruct (is_leap y); cbn; lia.
Qed.

Lemma on_calendar_tomorrow t : on_calendar t -> on_calendar (tomorrow t).
Proof.
  destruct t as [y m d h mi s us].
  unfold on_calendar, tomorrow; cbn [year month day hour minute second microsecond].
  unfold valid_time. intros (Hm & Hd & Ht).
  destruct (Z.ltb_spec d (days_in_month y m));
    cbn [year month day hour minute second microsecond].
  - lia.
  - destruct (Z.ltb_spec m 12); cbn [year month day hour minute second microsecond].
    + pose proof (days_in_month_bounds y (m + 1)). lia.
    + pose proof (days_in_month_bounds (y + 1) 1). lia.
Qed.

Lemma toordinal_iter_tomorrow n t :
  on_calendar t ->
  on_calendar (Nat.iter n tomorrow t) /\
  toordinal (Nat.iter n tomorrow t) = toordinal t + Z.of_nat n.
Proof.
  intros Ht. induction n as [|n [IHc IHo]].
  - cbn. split; [assumption|lia].
  - rewrite Nat.iter_succ. split.
    + now apply on_calendar_tomorrow.
    + rewrite toordinal_tomorrow; [lia| |]; apply IHc.
Qed.

Lemma timestamp_add_us t us :
  on_calendar t -> 0 <= us ->
  on_calendar (add_us t us) /\
  timestamp_us (add_us t us) = timestamp_us t + us.
Proof.
  intros Ht Hus.
  assert (H0 : 0 <= us_of_day t).
  { destruct Ht as (_ & _ & Hh & Hmi & Hs & Hu). unfold us_of_day, US_PER_SECOND. nia. }
  set (total := us_of_day t + us).
  assert (Htot : 0 <= total) by (unfold total; lia).
  destruct (toordinal_iter_tomorrow (Z.to_nat (total / US_PER_DAY)) t Ht) as [Hc Ho].
  assert (Hq : 0 <= total / US_PER_DAY) by (apply Z.div_pos; [lia|reflexivity]).
  rewrite Z2Nat.id in Ho by assumption.
  assert (Hr : 0 <= total mod US_PER_DAY < US_PER_DAY)
    by (apply Z.mod_pos_bound; reflexivity).
  pose proof (Z.div_mod total US_PER_DAY ltac:(discriminate)) as Hdm.
  unfold add_us. fold total.
  set (d := Nat.iter _ tomorrow t) in *.
  set (r := total mod US_PER_DAY) in *.
  split.
  - destruct Hc as (Hm & Hd & _). unfold on_calendar, valid_time. cbn.
    unfold US_PER_DAY, US_PER_SECOND in *.
    repeat split; try lia; Z.to_euclidean_division_equations; lia.
  - unfold timestamp_us at 1. unfold toordinal, us_of_day at 1. cbn.
    fold (toordinal d). rewrite Ho.
    unfold timestamp_us. fold total.
    unfold US_PER_DAY, US_PER_SECOND in *.
    Z.to_euclidean_division_equations; lia.
Qed.

Lemma valid_on_calendar t : valid_datetime t -> on_calendar t.
Proof. intros [(_ & Hm & Hd) Ht]. repeat split; try apply Hm; try apply Hd; apply Ht. Qed.

Lemma replace_time_start (cfg : Config) (t : datetime) :
  0 <= START_HOUR cfg < 24 ->
  replace_time t (START_HOUR cfg) 0 0 0
  = inr (mkdatetime (year t) (month t) (day t) (START_HOUR cfg) 0 0 0).
Proof.
  intros H. unfold replace_time.
  destruct (Z.leb_spec 0 (START_HOUR cfg)); [|lia].
  destruct (Z.ltb_spec (START_HOUR cfg) 24); [|lia].
  reflexivity.
Qed.

Lemma tomorrow_year_max t :
  valid_datetime t -> (year t, month t, day t) <> (MAXYEAR, 12, 31) ->
  year (tomorrow t) <= MAXYEAR.
Proof.
  destruct t as [y m d h mi s us]. unfold valid_datetime, valid_date, tomorrow.
  cbn [year month day hour minute second microsecond].
  intros [(Hy & Hm & Hd) _] Hne.
  destruct (Z.ltb_spec d (days_in_month y m)); cbn; [lia|].
  destruct (Z.ltb_spec m 12); cbn; [lia|].
  assert (m = 12) by lia. subst m.
  assert (Hd31 : d = 31) by (unfold days_in_month in *; cbn in *; lia).
  assert (y <> MAXYEAR) by congruence. lia.
Qed.


(** ** Waiting for the window *)

(** Sleeping for [t - now] from [now] ends at [t] when [t] is a full hour
    [k] days after the day of [now]. *)
Lemma add_us_sub_us (now : datetime) (k : nat) (h : Z) :
  on_calendar now -> 0 <= h < 24 ->
  let d := Nat.iter k tomorrow now in
  let t := mkdatetime (year d) (month d) (day d) h 0 0 0 in
  0 <= sub_us t now ->
  add_us now (sub_us t now) = t.
Proof.
  intros Hcal Hh d t Hpos.
  destruct (toordinal_iter_tomorrow k now Hcal) as [_ Hord]. fold d in Hord.
  assert (Ht : toordinal t = toordinal now + Z.of_nat k) by exact Hord.
  assert (Hday : us_of_day t = h * 3600 * US_PER_SECOND)
    by (unfold us_of_day; cbn; lia).
  assert (Htot : us_of_day now + sub_us t now
                 = Z.of_nat k * US_PER_DAY + h * 3600 * US_PER_SECOND).
  { unfold sub_us, timestamp_us. rewrite Ht, Hday. lia. }
  unfold add_us. rewrite Htot.
  assert (Hq : (Z.of_nat k * US_PER_DAY + h * 3600 * US_PER_SECOND) / US_PER_DAY
               = Z.of_nat k).
  { unfold US_PER_DAY, US_PER_SECOND. Z.to_euclidean_division_equations; lia. }
  assert (Hr : (Z.of_nat k * US_PER_DAY + h * 3600 * US_PER_SECOND) mod US_PER_DAY
               = h * 3600 * US_PER_SECOND).
  { unfold US_PER_DAY, US_PER_SECOND. Z.to_euclidean_division_equations; lia. }
  rewrite Hq, Hr, Nat2Z.id. fold d. unfold t, US_PER_SECOND.
  f_equal; Z.to_euclidean_division_equations; lia.
Qed.

Lemma us_of_day_bounds t :
  valid_time (hour t) (minute t) (second t) (microsecond t) ->
  hour t * 3600 * US_PER_SECOND <= us_of_day t < (hour t + 1) * 3600 * US_PER_SECOND.
Proof. unfold valid_time, us_of_day, US_PER_SECOND. lia. Qed.

(** C3: outside the window, [wait_until_start] sleeps until [next_start]:
    [START_HOUR]:00:00 of the same day when the hour of [now] is below
    [START_HOUR], and [START_HOUR]:00:00 of the day after (day number plus
    one) otherwise, for every [now] whose next day is still a date of the
    library.  With the configured hours, 04:59:59 is outside the window
    with 05:00:00 of that day as target, and 05:00:00 is inside. *)
Theorem wait_until_start_target (cfg : Config) (now : datetime) :
  (0 <= START_HOUR cfg < 24 ->
   valid_datetime now ->
   within_recording_window cfg now = false ->
   hour now < START_HOUR cfg \/ (year now, month now, day now) <> (MAXYEAR, 12, 31) ->
   exists t : datetime,
     next_start cfg now = inr t /\
     valid_datetime t /\
     hour t = START_HOUR cfg /\ minute t = 0 /\ second t = 0 /\ microsecond t = 0 /\
     (if hour now <? START_HOUR cfg
      then year t = year now /\ month t = month now /\ day t = day now
      else toordinal t = toordinal now + 1) /\
     (forall (fuel : nat) (w : World),
        clock w = now ->
        exists line : string,
          wait_until_start cfg (S fuel) w
          = wait_until_start cfg fuel
              (mkWorld t (fs w) (station_status w) (stdout w ++ [line]) (threads w)))) /\
  (forall y m d us : Z,
     within_recording_window configured (mkdatetime y m d 4 59 59 us) = false /\
     next_start configured (mkdatetime y m d 4 59 59 us) = inr (mkdatetime y m d 5 0 0 0) /\
     within_recording_window configured (mkdatetime y m d 5 0 0 0) = true).
Proof.
  split; [|intros y m d us; repeat split; reflexivity].
  intros Hcfg Hvalid Hout Hday.
  pose proof (valid_on_calendar now Hvalid) as Hcal.
  pose proof (us_of_day_bounds now (proj2 Hvalid)) as Hus.
  (* the target, [k] days after today *)
  assert (Htarget : exists k : nat,
    let d := Nat.iter k tomorrow now in
    let t := mkdatetime (year d) (month d) (day d) (START_HOUR cfg) 0 0 0 in
    next_start cfg now = inr t /\ valid_datetime t /\
    (if hour now <? START_HOUR cfg then k = 0%nat else k = 1%nat)).
  { unfold next_start. destruct (Z.ltb_spec (hour now) (START_HOUR cfg)) as [Hlt|Hge].
    - exists 0%nat. cbn [Nat.iter nat_rect]. split; [now apply replace_time_start|].
      split; [|reflexivity].
      destruct Hvalid as [Hd Ht]. split; [exact Hd|]. unfold valid_time; cbn. lia.
    - destruct Hday as [Hlt|Hlast]; [lia|].
      exists 1%nat. cbn [Nat.iter nat_rect]. unfold add_one_day.
      pose proof (tomorrow_year_max now Hvalid Hlast) as Hy.
      destruct (Z.leb_spec (year (tomorrow now)) MAXYEAR); [|lia].
      split; [now apply replace_time_start|]. split; [|reflexivity].
      pose proof (on_calendar_tomorrow now Hcal) as (Hm & Hd & _).
      assert (Hy1 : MINYEAR <= year (tomorrow now)).
      { destruct Hvalid as [(Hy1 & _) _]. unfold tomorrow.
        destruct (day now <? _); [|destruct (month now <? 12)];
          cbn [year month day]; unfold MINYEAR in *; lia. }
      unfold valid_datetime, valid_date, valid_time.
      cbn [year month day hour minute second microsecond]. lia. }
  destruct Htarget as (k & Hnext & Hvalid_t & Hk).
  cbv zeta in Hnext, Hvalid_t.
  set (d := Nat.iter k tomorrow now) in *.
  set (t := mkdatetime (year d) (month d) (day d) (START_HOUR cfg) 0 0 0) in *.
  destruct (toordinal_iter_tomorrow k now Hcal) as [_ Hord]. fold d in Hord.
  assert (Hord_t : toordinal t = toordinal now + Z.of_nat k) by exact Hord.
  assert (Hwait : 0 <= sub_us t now).
  { unfold sub_us, timestamp_us. rewrite Hord_t.
    assert (Hust : us_of_day t = START_HOUR cfg * 3600 * US_PER_SECOND)
      by (unfold us_of_day; cbn; lia).
    rewrite Hust. unfold US_PER_DAY, US_PER_SECOND in *.
    destruct (Z.ltb_spec (hour now) (START_HOUR cfg)); subst k; simpl Z.of_nat.
    - lia.
    - destruct Hvalid as [_ (Hh & _)]. lia. }
  exists t. split; [exact Hnext|]. split; [exact Hvalid_t|].
  do 4 (split; [reflexivity|]). split.
  - destruct (hour now <? START_HOUR cfg); subst k.
    + cbn. auto.
    + rewrite Hord_t. reflexivity.
  - intros fuel w Hclock. eexists.
    cbn [wait_until_start]. unfold bind at 1, datetime_now at 1.
    rewrite Hclock, Hout. unfold bind at 1. rewrite Hnext. cbn [lift ret].
    unfold bind at 1, print at 1, bind at 1, time_sleep at 1.
    cbn [clock with_stdout].
    destruct (Z.ltb_spec (sub_us t now) 0) as [Hneg|_]; [lia|].
    assert (Hadd : add_us now (sub_us t now) = t)
      by exact (add_us_sub_us now k (START_HOUR cfg) Hcal Hcfg Hwait).
    rewrite Hclock, Hadd. reflexivity.
Qed.

Lemma wait_until_start_target_witness :
  exists t : datetime,
    next_start (mkConfig 900 840 5 22 60) (mkdatetime 2024 2 28 22 30 15 250000) = inr t /\
    valid_datetime t /\
    hour t = 5 /\ minute t = 0 /\ second t = 0 /\ microsecond t = 0 /\
    toordinal t = toordinal (mkdatetime 2024 2 28 22 30 15 250000) + 1 /\
    (forall (fuel : nat) (w : World),
        clock w = mkdatetime 2024 2 28 22 30 15 250000 ->
        exists line : string,
          wait_until_start (mkConfig 900 840 5 22 60) (S fuel) w
          = wait_until_start (mkConfig 900 840 5 22 60) fuel
              (mkWorld t (fs w) (station_status w) (stdout w ++ [line]) (threads w))).
Proof.
  apply (proj1 (wait_until_start_target (mkConfig 900 840 5 22 60)
                  (mkdatetime 2024 2 28 22 30 15 250000))).
  - simpl. lia.
  - unfold valid_datetime, valid_date, valid_time, MINYEAR, MAXYEAR. simpl.
    change (days_in_month 2024 2) with 29. lia.
  - reflexivity.
  - right. discriminate.
Defined.

(** ** Formatting and file names *)

Lemma append_inj_length (a b x y : string) :
  String.length a = String.length b -> a +:+ x = b +:+ y -> a = b /\ x = y.
Proof.
  revert b. induction a as [|c a IH]; intros [|c' b] Hlen Heq; try discriminate.
  - auto.
  - cbn in Hlen, Heq. injection Heq as -> Heq. injection Hlen as Hlen.
    destruct (IH b Hlen Heq) as [-> ->]. auto.
Qed.

Lemma length_append (a b : string) :
  String.length (a +:+ b) = (String.length a + String.length b)%nat.
Proof. induction a as [|c a IH]; simpl; [reflexivity|]. f_equal. exact IH. Qed.

Lemma length_fmt_digits k n : String.length (fmt_digits k n) = k.
Proof.
  revert n. induction k as [|k IH]; intros n; cbn; auto.
  rewrite length_append, IH. cbn. lia.
Qed.

Lemma digit_char_inj a b :
  0 <= a < 10 -> 0 <= b < 10 -> digit_char a = digit_char b -> a = b.
Proof.
  intros Ha Hb H. unfold digit_char in H.
  apply (f_equal N_of_ascii) in H.
  rewrite !N_ascii_embedding in H by lia. lia.
Qed.

Lemma fmt_digits_inj k a b :
  0 <= a < 10 ^ Z.of_nat k -> 0 <= b < 10 ^ Z.of_nat k ->
  fmt_digits k a = fmt_digits k b -> a = b.
Proof.
  revert a b. induction k as [|k IH]; intros a b Ha Hb H.
  - cbn in Ha, Hb. lia.
  - cbn [fmt_digits] in H.
    apply append_inj_length in H; [|now rewrite !length_fmt_digits].
    destruct H as [Hq Hr]. injection Hr as Hr.
    rewrite Nat2Z.inj_succ, Z.pow_succ_r in Ha, Hb by lia.
    apply IH in Hq; [| Z.to_euclidean_division_equations; nia ..].
    apply digit_char_inj in Hr; [| apply Z.mod_pos_bound; lia ..].
    rewrite (Z.div_mod a 10), (Z.div_mod b 10) by lia. congruence.
Qed.

Lemma string_forallb_append p a b :
  string_forallb p (a +:+ b) = string_forallb p a && string_forallb p b.
Proof.
  induction a as [|c a IH]; simpl; [reflexivity|].
  now rewrite IH, andb_assoc.
Qed.

Lemma safe_digit_char n : is_safe (digit_char (n mod 10)) = true.
Proof.
  pose proof (Z.mod_pos_bound n 10 ltac:(lia)) as H.
  assert (Hc : n mod 10 = 0 \/ n mod 10 = 1 \/ n mod 10 = 2 \/ n mod 10 = 3 \/
               n mod 10 = 4 \/ n mod 10 = 5 \/ n mod 10 = 6 \/ n mod 10 = 7 \/
               n mod 10 = 8 \/ n mod 10 = 9) by lia.
  repeat destruct Hc as [Hc|Hc]; rewrite Hc; reflexivity.
Qed.

Lemma safe_fmt_digits k n : string_forallb is_safe (fmt_digits k n) = true.
Proof.
  revert n. induction k as [|k IH]; intros n; simpl; [reflexivity|].
  rewrite string_forallb_append, IH. simpl. now rewrite safe_digit_char.
Qed.

Lemma safe_safe_name s : string_forallb is_safe (safe_name s) = true.
Proof.
  induction s as [|c s IH]; simpl; [reflexivity|].
  fold (safe_name s). rewrite IH, andb_true_r.
  destruct (is_unsafe c) eqn:E; simpl; [reflexivity|].
  unfold is_safe. now rewrite E.
Qed.

Lemma safe_filename_at name now : string_forallb is_safe (filename_at name now) = true.
Proof.
  unfold filename_at, strftime_date, strftime_time.
  repeat (rewrite string_forallb_append || rewrite safe_fmt_digits
          || rewrite safe_safe_name).
  reflexivity.
Qed.

Lemma chars_safe_name s :
  list_ascii_of_string (safe_name s)
  = map (fun c => if is_unsafe c then "_"%char else c) (list_ascii_of_string s).
Proof.
  induction s as [|c s IH]; simpl; [reflexivity|].
  fold (safe_name s). rewrite IH. now destruct (is_unsafe c).
Qed.

Lemma is_unsafe_iff c :
  is_unsafe c = true <-> In c ["<"; ">"; ":"; "034"; "/"; "\"; "|"; "?"; "*"]%char.
Proof.
  unfold is_unsafe. rewrite existsb_exists. split.
  - intros [x [Hin Heq]]. apply Ascii.eqb_eq in Heq. now subst.
  - intros Hin. exists c. split; [assumption|apply Ascii.eqb_refl].
Qed.

Lemma length_strftime_date t : String.length (strftime_date t) = 10%nat.
Proof. unfold strftime_date. now rewrite !length_append, !length_fmt_digits. Qed.

Lemma length_strftime_time sep t :
  String.length (strftime_time sep t) = (6 + 2 * String.length sep)%nat.
Proof.
  unfold strftime_time. rewrite !length_append, !length_fmt_digits. lia.
Qed.

Lemma strftime_date_inj t1 t2 :
  valid_datetime t1 -> valid_datetime t2 ->
  strftime_date t1 = strftime_date t2 ->
  year t1 = year t2 /\ month t1 = month t2 /\ day t1 = day t2.
Proof.
  intros [(Hy1 & Hm1 & Hd1) _] [(Hy2 & Hm2 & Hd2) _] H.
  pose proof (days_in_month_bounds (year t1) (month t1) Hm1).
  pose proof (days_in_month_bounds (year t2) (month t2) Hm2).
  unfold MINYEAR, MAXYEAR in *.
  unfold strftime_date in H.
  apply append_inj_length in H; [|now rewrite !length_fmt_digits].
  destruct H as [Hy H]. apply String.app_inj in H.
  apply append_inj_length in H; [|now rewrite !length_fmt_digits].
  destruct H as [Hm H]. apply String.app_inj in H.
  apply fmt_digits_inj in Hy, Hm, H; simpl; try lia.
Qed.

Lemma strftime_time_inj sep t1 t2 :
  valid_datetime t1 -> valid_datetime t2 ->
  strftime_time sep t1 +:+ "]" = strftime_time sep t2 +:+ "]" ->
  hour t1 = hour t2 /\ minute t1 = minute t2 /\ second t1 = second t2.
Proof.
  intros [_ (Hh1 & Hm1 & Hs1 & _)] [_ (Hh2 & Hm2 & Hs2 & _)] H.
  unfold strftime_time in H.
  apply append_inj_length in H; [|now rewrite !length_append, !length_fmt_digits].
  destruct H as [H _].
  apply append_inj_length in H; [|now rewrite !length_fmt_digits].
  destruct H as [Hh H].
  apply String.app_inj in H.
  apply append_inj_length in H; [|now rewrite !length_fmt_digits].
  destruct H as [Hm H].
  apply String.app_inj in H.
  apply fmt_digits_inj in Hh, Hm, H; simpl; try lia.
Qed.

Lemma filename_at_fields (station_name : string) (t1 t2 : datetime) :
  valid_datetime t1 -> valid_datetime t2 ->
  filename_at station_name t1 = filename_at station_name t2 ->
  (year t1 = year t2 /\ month t1 = month t2 /\ day t1 = day t2) /\
  (hour t1 = hour t2 /\ minute t1 = minute t2 /\ second t1 = second t2).
Proof.
  intros H1 H2 H. unfold filename_at in H. cbv zeta in H.
  apply String.app_inj in H.
  apply append_inj_length in H; [|now rewrite !length_strftime_date].
  destruct H as [Hdate H]. split; [now apply strftime_date_inj|].
  apply String.app_inj in H.
  apply append_inj_length in H; [|now rewrite !length_strftime_time].
  destruct H as [Htime _].
  apply (strftime_time_inj "-"); [assumption..|]. now rewrite Htime.
Qed.

(** C7: [generate_filename] returns a function of the station name and
    the clock reading alone and changes nothing; in the name each of the
    nine characters [<], [>], [:], double quote, [/], [\], [|], [?], [*]
    is replaced by an underscore and every other character is kept, so the
    file name holds none of them; and two readings of valid timestamps at
    least one second apart give different file names for the same
    station. *)
Theorem generate_filename_spec (station_name : string) :
  (forall w : World,
     generate_filename station_name w
     = (Returned (filename_at station_name (clock w)), w)) /\
  (forall now : datetime,
     filename_at station_name now
     = "[" +:+ strftime_date now +:+ "]-[" +:+ strftime_time "-" now +:+ "]-"
           +:+ safe_name station_name +:+ ".mp3") /\
  (forall c : ascii,
     is_unsafe c = true <->
     In c ["<"; ">"; ":"; "034"; "/"; "\"; "|"; "?"; "*"]%char) /\
  list_ascii_of_string (safe_name station_name)
  = map (fun c => if is_unsafe c then "_"%char else c)
        (list_ascii_of_string station_name) /\
  (forall now : datetime,
     string_forallb is_safe (filename_at station_name now) = true) /\
  (forall t1 t2 : datetime,
     valid_datetime t1 -> valid_datetime t2 ->
     US_PER_SECOND <= Z.abs (timestamp_us t1 - timestamp_us t2) ->
     filename_at station_name t1 <> filename_at station_name t2).
Proof.
  split; [reflexivity|]. split; [reflexivity|].
  split; [apply is_unsafe_iff|]. split; [apply chars_safe_name|].
  split; [apply safe_filename_at|].
  intros t1 t2 H1 H2 Hapart Heq.
  destruct (filename_at_fields station_name t1 t2 H1 H2 Heq)
    as [(Hy & Hm & Hd) (Hh & Hmi & Hs)].
  destruct H1 as [_ (_ & _ & _ & Hu1)], H2 as [_ (_ & _ & _ & Hu2)].
  unfold timestamp_us, toordinal, us_of_day, US_PER_SECOND in Hapart.
  rewrite Hy, Hm, Hd, Hh, Hmi, Hs in Hapart. lia.
Qed.

Lemma generate_filename_spec_witness :
  filename_at "DZ:MM" (mkdatetime 2024 2 28 23 59 59 900000)
  <> filename_at "DZ:MM" (mkdatetime 2024 2 29 0 0 0 900000).
Proof.
  apply (proj2 (proj2 (proj2 (proj2 (proj2 (generate_filename_spec "DZ:MM")))))).
  - unfold valid_datetime, valid_date, valid_time, MINYEAR, MAXYEAR. simpl.
    change (days_in_month 2024 2) with 29. lia.
  - unfold valid_datetime, valid_date, valid_time, MINYEAR, MAXYEAR. simpl.
    change (days_in_month 2024 2) with 29. lia.
  - vm_compute. discriminate.
Defined.

(** ** One capture: [record_chunk_ffmpeg] *)

Section Chunk.
Context (env : Env) (station_name station_url filename : string) (duration : Z).
Let live_path := path_join LIVE_DIR filename.
Let rec_path := path_join REC_DIR filename.

(** Once the external command has run, the four ways through the
    function. *)
Lemma record_chunk_ffmpeg_run (w : World) (files : gmap string N) :
  run_process env (ffmpeg_command station_url duration live_path) (fs w) = Some files ->
  record_chunk_ffmpeg env station_name station_url filename duration w =
  let online := dict_set station_name true (station_status w) in
  let offline := dict_set station_name false (station_status w) in
  match files !! live_path with
  | Some size =>
      if (0 <? size)%N then
        match move_fault env live_path rec_path files with
        | Some (e, files') =>
            (Returned tt,
             mkWorld (clock w) files' online
               (stdout w ++ ["[" +:+ station_name +:+ "]: Error moving file: "
                               +:+ str_exn e])
               (threads w))
        | None =>
            (Returned tt,
             mkWorld (clock w) (<[rec_path := size]> (delete live_path files))
                     online (stdout w) (threads w))
        end
      else
        (Returned tt,
         mkWorld (clock w) (delete live_path files) offline (stdout w) (threads w))
  | None =>
      (Returned tt, mkWorld (clock w) files offline (stdout w) (threads w))
  end.
Proof.
  intros Hrun.
  unfold record_chunk_ffmpeg, bind, subprocess_run.
  fold live_path rec_path. rewrite Hrun.
  unfold path_exists, stat_size, ret, update_station_status, try_except,
    shutil_move, os_remove, print. cbn.
  destruct (files !! live_path) as [size|] eqn:Hf; cbn.
  - rewrite Hf. destruct (0 <? size)%N; cbn.
    + destruct (move_fault env live_path rec_path files) as [[e files']|]; cbn.
      * reflexivity.
      * rewrite Hf. reflexivity.
    + rewrite Hf. cbn. rewrite Hf. reflexivity.
  - rewrite Hf. cbn. reflexivity.
Qed.

(** When the external command cannot be started its exception leaves the
    function before anything is classified. *)
Lemma record_chunk_ffmpeg_not_started (w : World) :
  run_process env (ffmpeg_command station_url duration live_path) (fs w) = None ->
  record_chunk_ffmpeg env station_name station_url filename duration w
  = (Raised (FileNotFoundError "ffmpeg"), w).
Proof.
  intros Hrun. unfold record_chunk_ffmpeg, bind, subprocess_run.
  fold live_path. now rewrite Hrun.
Qed.
End Chunk.

(** The entry written by a capture that completed. *)
Lemma record_chunk_ffmpeg_status
    (env : Env) (station_name station_url filename : string) (duration : Z)
    (w : World) (files : gmap string N) :
  run_process env (ffmpeg_command station_url duration (path_join LIVE_DIR filename))
              (fs w) = Some files ->
  station_status
    (snd (record_chunk_ffmpeg env station_name station_url filename duration w))
  = dict_set station_name
      match files !! path_join LIVE_DIR filename with
      | Some size => (0 <? size)%N
      | None => false
      end
      (station_status w).
Proof.
  intros Hrun. rewrite (record_chunk_ffmpeg_run _ _ _ _ _ _ _ Hrun). cbv zeta.
  destruct (files !! _) as [size|]; [|reflexivity].
  destruct (0 <? size)%N; [|reflexivity].
  now destruct (move_fault env _ _ files) as [[e files']|].
Qed.

(** C1: after a capture that completed, [record_chunk_ffmpeg] returns and
    has stored one boolean under [station_name] in [station_status]; that
    boolean is [true] exactly when the file at the live path exists with a
    size above zero.  It is fixed by the state of that file alone: two
    calls, in any two worlds and environments, that find the same state of
    the file store the same value. *)
Theorem record_chunk_ffmpeg_classifies :
  (forall (env : Env) (station_name station_url filename : string) (duration : Z)
          (w : World) (files : gmap string N),
     let live_path := path_join LIVE_DIR filename in
     run_process env (ffmpeg_command station_url duration live_path) (fs w)
     = Some files ->
     exists (online : bool) (w' : World),
       record_chunk_ffmpeg env station_name station_url filename duration w
       = (Returned tt, w') /\
       (online = true <->
        exists size : N, files !! live_path = Some size /\ (0 < size)%N) /\
       station_status w' = dict_set station_name online (station_status w) /\
       dict_get station_name (station_status w') = Some online) /\
  (forall (env1 env2 : Env) (station_name url1 url2 filename : string)
          (duration1 duration2 : Z) (w1 w2 : World) (files1 files2 : gmap string N),
     let live_path := path_join LIVE_DIR filename in
     run_process env1 (ffmpeg_command url1 duration1 live_path) (fs w1)
     = Some files1 ->
     run_process env2 (ffmpeg_command url2 duration2 live_path) (fs w2)
     = Some files2 ->
     files1 !! live_path = files2 !! live_path ->
     dict_get station_name
       (station_status
          (snd (record_chunk_ffmpeg env1 station_name url1 filename duration1 w1)))
     = dict_get station_name
         (station_status
            (snd (record_chunk_ffmpeg env2 station_name url2 filename duration2 w2)))).
Proof.
  split.
  - intros env station_name station_url filename duration w files live_path Hrun.
    rewrite (record_chunk_ffmpeg_run _ _ _ _ _ _ _ Hrun). fold live_path. cbv zeta.
    destruct (files !! live_path) as [size|] eqn:Hf.
    + destruct (0 <? size)%N eqn:Hs.
      * apply N.ltb_lt in Hs.
        destruct (move_fault env live_path _ files) as [[e files']|];
          exists true; eexists; (split; [reflexivity|]); cbn;
          rewrite dict_get_set_eq; (split; [|split; reflexivity]);
          (split; [intros _; exists size; auto | reflexivity]).
      * apply N.ltb_ge in Hs.
        exists false; eexists; (split; [reflexivity|]); cbn.
        rewrite dict_get_set_eq. split; [|split; reflexivity].
        split; [discriminate|]. intros [n [Hn Hpos]]. inversion Hn; subst. lia.
    + exists false; eexists; (split; [reflexivity|]); cbn.
      rewrite dict_get_set_eq. split; [|split; reflexivity].
      split; [discriminate|]. intros [n [Hn _]]. discriminate.
  - intros env1 env2 station_name url1 url2 filename duration1 duration2 w1 w2
           files1 files2 live_path Hrun1 Hrun2 Hsame.
    rewrite (record_chunk_ffmpeg_status _ _ _ _ _ _ _ Hrun1),
            (record_chunk_ffmpeg_status _ _ _ _ _ _ _ Hrun2).
    fold live_path. rewrite Hsame, !dict_get_set_eq. reflexivity.
Qed.

Lemma record_chunk_ffmpeg_classifies_witness :
  exists (online : bool) (w' : World),
    record_chunk_ffmpeg (env_capture 500000 None) "DZMM" "http://dzmm/live"
        "[2024-03-01]-[05-00-00]-DZMM.mp3" 900
        (initial_world (mkdatetime 2024 3 1 5 15 0 0) ∅)
      = (Returned tt, w') /\
    (online = true <->
     exists size : N,
       (<[path_join LIVE_DIR "[2024-03-01]-[05-00-00]-DZMM.mp3" := 500000%N]>
          (∅ : gmap string N))
         !! path_join LIVE_DIR "[2024-03-01]-[05-00-00]-DZMM.mp3" = Some size /\
       (0 < size)%N) /\
    station_status w' = dict_set "DZMM" online [] /\
    dict_get "DZMM" (station_status w') = Some online.
Proof.
  apply (proj1 record_chunk_ffmpeg_classifies (env_capture 500000 None) "DZMM"
           "http://dzmm/live" "[2024-03-01]-[05-00-00]-DZMM.mp3" 900
           (initial_world (mkdatetime 2024 3 1 5 15 0 0) ∅)).
  reflexivity.
Defined.

(** C4: when the capture leaves no file or an empty file at the live path,
    the station is stored as offline and afterwards no file is at the live
    path (an empty one has been removed; the other files are untouched). *)
Theorem record_chunk_ffmpeg_offline
    (env : Env) (station_name station_url filename : string) (duration : Z)
    (w : World) (files : gmap string N) :
  let live_path := path_join LIVE_DIR filename in
  run_process env (ffmpeg_command station_url duration live_path) (fs w) = Some files ->
  files !! live_path = None \/ files !! live_path = Some 0%N ->
  exists w' : World,
    record_chunk_ffmpeg env station_name station_url filename duration w
      = (Returned tt, w') /\
    dict_get station_name (station_status w') = Some false /\
    fs w' !! live_path = None /\
    fs w' = delete live_path files.
Proof.
  intros live_path Hrun Hart.
  rewrite (record_chunk_ffmpeg_run _ _ _ _ _ _ _ Hrun). fold live_path. cbv zeta.
  destruct Hart as [Hf|Hf]; rewrite Hf; cbn;
    eexists; (split; [reflexivity|]); cbn; rewrite dict_get_set_eq;
    (split; [reflexivity|]).
  - split; [assumption|]. symmetry. now apply delete_id.
  - split; [apply lookup_delete_eq | reflexivity].
Qed.

Lemma record_chunk_ffmpeg_offline_witness :
  exists w' : World,
    record_chunk_ffmpeg (env_capture 0 None) "DZMM" "http://dzmm/live"
        "[2024-03-01]-[05-00-00]-DZMM.mp3" 900
        (initial_world (mkdatetime 2024 3 1 5 15 0 0) ∅)
      = (Returned tt, w') /\
    dict_get "DZMM" (station_status w') = Some false /\
    fs w' !! path_join LIVE_DIR "[2024-03-01]-[05-00-00]-DZMM.mp3" = None /\
    fs w' = delete (path_join LIVE_DIR "[2024-03-01]-[05-00-00]-DZMM.mp3")
              (<[path_join LIVE_DIR "[2024-03-01]-[05-00-00]-DZMM.mp3" := 0%N]>
                 (∅ : gmap string N)).
Proof.
  apply (record_chunk_ffmpeg_offline (env_capture 0 None) "DZMM"
           "http://dzmm/live" "[2024-03-01]-[05-00-00]-DZMM.mp3" 900
           (initial_world (mkdatetime 2024 3 1 5 15 0 0) ∅)).
  - reflexivity.
  - right. apply lookup_insert_eq.
Defined.

(** C5: when the capture left data and moving it fails with [e], the
    function still returns (the exception does not leave it); the line
    about the failed move is printed, the station stays stored as online,
    and the files are as the failed move left them: nothing is tried
    again. *)
Theorem record_chunk_ffmpeg_move_failure
    (env : Env) (station_name station_url filename : string) (duration : Z)
    (w : World) (files files' : gmap string N) (size : N) (e : Exn) :
  let live_path := path_join LIVE_DIR filename in
  let rec_path := path_join REC_DIR filename in
  run_process env (ffmpeg_command station_url duration live_path) (fs w) = Some files ->
  files !! live_path = Some size ->
  (0 < size)%N ->
  move_fault env live_path rec_path files = Some (e, files') ->
  exists w' : World,
    record_chunk_ffmpeg env station_name station_url filename duration w
      = (Returned tt, w') /\
    stdout w' = (stdout w ++ ["[" +:+ station_name +:+ "]: Error moving file: "
                                +:+ str_exn e])%list /\
    station_status w' = dict_set station_name true (station_status w) /\
    dict_get station_name (station_status w') = Some true /\
    fs w' = files'.
Proof.
  intros live_path rec_path Hrun Hf Hsize Hmove.
  rewrite (record_chunk_ffmpeg_run _ _ _ _ _ _ _ Hrun).
  fold live_path rec_path. cbv zeta. rewrite Hf.
  apply N.ltb_lt in Hsize. rewrite Hsize, Hmove.
  eexists. split; [reflexivity|]. cbn. rewrite dict_get_set_eq. auto.
Qed.

Lemma record_chunk_ffmpeg_move_failure_witness :
  exists w' : World,
    record_chunk_ffmpeg (env_capture 500000 (Some (OSError "Permission denied")))
        "DZMM" "http://dzmm/live" "[2024-03-01]-[05-00-00]-DZMM.mp3" 900
        (initial_world (mkdatetime 2024 3 1 5 15 0 0) ∅)
      = (Returned tt, w') /\
    stdout w' = ([] ++ ["[" +:+ "DZMM" +:+ "]: Error moving file: "
                          +:+ str_exn (OSError "Permission denied")])%list /\
    station_status w' = dict_set "DZMM" true [] /\
    dict_get "DZMM" (station_status w') = Some true /\
    fs w' = <[path_join LIVE_DIR "[2024-03-01]-[05-00-00]-DZMM.mp3" := 500000%N]>
              (∅ : gmap string N).
Proof.
  apply (record_chunk_ffmpeg_move_failure
           (env_capture 500000 (Some (OSError "Permission denied")))
           "DZMM" "http://dzmm/live" "[2024-03-01]-[05-00-00]-DZMM.mp3" 900
           (initial_world (mkdatetime 2024 3 1 5 15 0 0) ∅)
           (<[path_join LIVE_DIR "[2024-03-01]-[05-00-00]-DZMM.mp3" := 500000%N]> ∅)
           (<[path_join LIVE_DIR "[2024-03-01]-[05-00-00]-DZMM.mp3" := 500000%N]> ∅)
           500000%N).
  - reflexivity.
  - apply lookup_insert_eq.
  - reflexivity.
  - reflexivity.
Defined.

(** ** The report *)

Lemma dict_get_elem_of (k : string) (v : bool) (d : dict) :
  NoDup (dict_keys d) -> dict_get k d = Some v <-> (k, v) ∈ d.
Proof.
  induction d as [|[k0 v0] d IH]; simpl; intros Hnd.
  - split; [discriminate|]. intros H. inversion H.
  - apply NoDup_cons in Hnd as [Hnotin Hnd]. specialize (IH Hnd).
    rewrite elem_of_cons. destruct (String.eqb k0 k) eqn:E.
    + apply String.eqb_eq in E. subst k0. split.
      * intros [= ->]. now left.
      * intros [[= ->]|Hin]; [reflexivity|].
        exfalso. apply Hnotin. unfold dict_keys.
        apply list_elem_of_fmap. now exists (k, v).
    + apply String.eqb_neq in E. rewrite IH. split; [now right|].
      intros [[= -> ->]|Hin]; [congruence|assumption].
Qed.

Lemma names_with_status (b : bool) (k : string) (d : dict) :
  NoDup (dict_keys d) ->
  k ∈ map fst (filter (fun kv => snd kv = b) d) <-> dict_get k d = Some b.
Proof.
  intros Hnd. rewrite (dict_get_elem_of k b d Hnd), list_elem_of_fmap. split.
  - intros [[k' v'] [-> Hin]]. apply list_elem_of_filter in Hin as [Hv Hin].
    simpl in *. now subst.
  - intros Hin. exists (k, b). split; [reflexivity|].
    apply list_elem_of_filter. auto.
Qed.

Lemma online_offline_partition (d : dict) :
  map fst (filter (fun kv => snd kv = true) d)
    ++ map fst (filter (fun kv => snd kv = false) d) ≡ₚ dict_keys d.
Proof.
  induction d as [|[k v] d IH]; [reflexivity|].
  rewrite !filter_cons. destruct v; simpl.
  - destruct (decide (true = true)); [|congruence].
    destruct (decide (true = false)); [congruence|].
    simpl. now rewrite IH.
  - destruct (decide (false = true)); [congruence|].
    destruct (decide (false = false)); [|congruence].
    simpl. rewrite <- Permutation_middle. now rewrite IH.
Qed.

Lemma for_each_print (l : list string) (w : World) :
  for_each l print w = (Returned tt, with_stdout (stdout w ++ l) w).
Proof.
  revert w. induction l as [|x l IH]; intros w.
  - cbn. rewrite app_nil_r. now destruct w.
  - cbn [for_each]. unfold bind, print at 1. rewrite IH.
    unfold with_stdout. cbn. now rewrite <- app_assoc.
Qed.

(** C8: on a dictionary (keys without repetition) [print_status_report]
    prints, after what was printed before: the line [===], the line
    [Online Radios: count/total], the online names one per line, an empty
    line, the line [Offline Radios: count/total] and the offline names one
    per line.  The online names are the keys stored as [true], the offline
    names the keys stored as [false]; together they are the keys of the
    dictionary, each once, and the two counts add up to the total.  For
    A: true, B: false, C: true the lines are [===], [Online Radios: 2/3],
    [A], [C], an empty line, [Offline Radios: 1/3], [B]. *)
Theorem print_status_report_format (w : World) :
  (NoDup (dict_keys (station_status w)) ->
   exists online_names offline_names : list string,
     let total := length (station_status w) in
     print_status_report w
     = (Returned tt,
        with_stdout
          (stdout w
             ++ ["===";
                 "Online Radios: " +:+ pretty (length online_names) +:+ "/"
                                   +:+ pretty total]
             ++ online_names
             ++ [""; "Offline Radios: " +:+ pretty (length offline_names) +:+ "/"
                                        +:+ pretty total]
             ++ offline_names) w) /\
     (forall name : string,
        name ∈ online_names <-> dict_get name (station_status w) = Some true) /\
     (forall name : string,
        name ∈ offline_names <-> dict_get name (station_status w) = Some false) /\
     NoDup (online_names ++ offline_names) /\
     online_names ++ offline_names ≡ₚ dict_keys (station_status w) /\
     (length online_names + length offline_names = total)%nat) /\
  (forall (t : datetime) (files : gmap string N) (l : list Thread),
     stdout (snd (print_status_report
                    (mkWorld t files [("A", true); ("B", false); ("C", true)] [] l)))
     = ["==="; "Online Radios: 2/3"; "A"; "C"; ""; "Offline Radios: 1/3"; "B"]).
Proof.
  split; [|reflexivity].
  intros Hnd.
  exists (map fst (filter (fun kv => snd kv = true) (station_status w))),
         (map fst (filter (fun kv => snd kv = false) (station_status w))).
  cbv zeta.
  pose proof (online_offline_partition (station_status w)) as Hperm.
  split; [|split; [|split; [|split; [|split]]]].
  - unfold print_status_report, bind, read_station_status, print at 1 2 3 4.
    cbn [with_stdout stdout fs clock station_status threads].
    rewrite !for_each_print. unfold print.
    rewrite for_each_print.
    unfold with_stdout. cbn [with_stdout stdout fs clock station_status threads].
    repeat rewrite <- app_assoc. reflexivity.
  - intros name. now apply names_with_status.
  - intros name. now apply names_with_status.
  - rewrite Hperm. exact Hnd.
  - exact Hperm.
  - apply Permutation_length in Hperm. rewrite length_app in Hperm.
    unfold dict_keys in Hperm. rewrite !length_map in *. exact Hperm.
Qed.

Lemma print_status_report_format_witness :
  exists online_names offline_names : list string,
    print_status_report (mkWorld (mkdatetime 2024 3 1 5 0 0 0) ∅
                                 [("A", true); ("B", false); ("C", true)] [] [])
    = (Returned tt,
       with_stdout
         ([] ++ ["===";
                 "Online Radios: " +:+ pretty (length online_names) +:+ "/"
                                   +:+ pretty 3%nat]
             ++ online_names
             ++ [""; "Offline Radios: " +:+ pretty (length offline_names) +:+ "/"
                                        +:+ pretty 3%nat]
             ++ offline_names)
         (mkWorld (mkdatetime 2024 3 1 5 0 0 0) ∅
                  [("A", true); ("B", false); ("C", true)] [] [])) /\
    (forall name : string,
       name ∈ online_names <->
       dict_get name [("A", true); ("B", false); ("C", true)] = Some true) /\
    (forall name : string,
       name ∈ offline_names <->
       dict_get name [("A", true); ("B", false); ("C", true)] = Some false) /\
    NoDup (online_names ++ offline_names) /\
    online_names ++ offline_names ≡ₚ ["A"; "B"; "C"] /\
    (length online_names + length offline_names = 3)%nat.
Proof.
  apply (proj1 (print_status_report_format
                  (mkWorld (mkdatetime 2024 3 1 5 0 0 0) ∅
                           [("A", true); ("B", false); ("C", true)] [] []))).
  apply (bool_decide_unpack _). reflexivity.
Defined.

(** ** What the statements leave alone *)

Create HintDb frame discriminated.

Section Frame.
Context (cfg : Config) (env : Env).
Variable P : World -> Prop.
Variable ok_name : string -> Prop.
Hypothesis P_stdout : forall o w, P w -> P (with_stdout o w).
Hypothesis P_clock :
  forall us w, 0 <= us -> P w -> P (with_clock (add_us (clock w) us) w).
Hypothesis P_fs : forall f w, P w -> P (with_fs f w).
Hypothesis P_status :
  forall n b w, ok_name n -> P w ->
    P (with_station_status (dict_set n b (station_status w)) w).
Hypothesis P_thread :
  forall n u f d w, ok_name n -> P w ->
    P (with_threads (threads w ++ [mkThread (T_record_chunk_ffmpeg n u f d) (clock w)]) w).

Lemma keeps_ret {A} (a : A) : keeps P (ret a).
Proof. intros w Hw. exact Hw. Qed.

Lemma keeps_running {A} : keeps P (@running A).
Proof. intros w Hw. exact Hw. Qed.

Lemma keeps_lift {A} (r : Exn + A) : keeps P (lift r).
Proof. intros w Hw. destruct r; exact Hw. Qed.

Lemma keeps_bind {A B} (m : M A) (k : A -> M B) :
  keeps P m -> (forall a, keeps P (k a)) -> keeps P (bind m k).
Proof.
  intros Hm Hk w Hw. unfold bind. specialize (Hm w Hw).
  destruct (m w) as [[a|e|] w1]; cbn [snd] in *; auto. now apply Hk.
Qed.

Lemma keeps_try_except {A} (m : M A) (h : Exn -> M A) :
  keeps P m -> (forall e, keeps P (h e)) -> keeps P (try_except m h).
Proof.
  intros Hm Hh w Hw. unfold try_except. specialize (Hm w Hw).
  destruct (m w) as [[a|e|] w1]; cbn [snd] in *; auto. now apply Hh.
Qed.

Lemma keeps_for_each {A} (l : list A) (body : A -> M unit) :
  (forall x, x ∈ l -> keeps P (body x)) -> keeps P (for_each l body).
Proof.
  induction l as [|x l IH]; intros Hb; cbn [for_each]; [apply keeps_ret|].
  apply keeps_bind; [apply Hb; left|].
  intros _. apply IH. intros y Hy. apply Hb. now right.
Qed.

Lemma keeps_datetime_now : keeps P datetime_now.
Proof. intros w Hw. exact Hw. Qed.

Lemma keeps_print line : keeps P (print line).
Proof. intros w Hw. now apply P_stdout. Qed.

Lemma keeps_time_sleep us : keeps P (time_sleep us).
Proof.
  intros w Hw. unfold time_sleep. destruct (Z.ltb_spec us 0); cbn; auto.
Qed.

Lemma keeps_path_exists p : keeps P (path_exists p).
Proof. intros w Hw. exact Hw. Qed.

Lemma keeps_stat_size p : keeps P (stat_size p).
Proof. intros w Hw. unfold stat_size. now destruct (fs w !! p). Qed.

Lemma keeps_os_remove p : keeps P (os_remove p).
Proof.
  intros w Hw. unfold os_remove. destruct (fs w !! p); cbn; auto.
Qed.

Lemma keeps_subprocess_run cmd : keeps P (subprocess_run env cmd).
Proof.
  intros w Hw. unfold subprocess_run. destruct (run_process env cmd (fs w)); cbn; auto.
Qed.

Lemma keeps_shutil_move src dst : keeps P (shutil_move env src dst).
Proof.
  intros w Hw. unfold shutil_move.
  destruct (move_fault env src dst (fs w)) as [[e files]|]; cbn; auto.
  destruct (fs w !! src); cbn; auto.
Qed.

Lemma keeps_update_station_status n b :
  ok_name n -> keeps P (update_station_status n b).
Proof. intros Hn w Hw. now apply P_status. Qed.

Lemma keeps_thread_start n u f d :
  ok_name n -> keeps P (thread_start (T_record_chunk_ffmpeg n u f d)).
Proof. intros Hn w Hw. now apply P_thread. Qed.

#[local] Hint Resolve keeps_ret keeps_running keeps_lift keeps_datetime_now
  keeps_print keeps_time_sleep keeps_path_exists keeps_stat_size keeps_os_remove
  keeps_subprocess_run keeps_shutil_move keeps_update_station_status
  keeps_thread_start keeps_try_except : frame.
#[local] Hint Extern 2 (keeps _ (bind _ _)) =>
  apply keeps_bind; [|intros ?] : frame.
#[local] Hint Extern 2 (keeps _ (for_each _ _)) =>
  apply keeps_for_each; intros ? _ : frame.
#[local] Hint Extern 3 (keeps _ (if ?b then _ else _)) => destruct b : frame.

Lemma keeps_wait_until_start fuel : keeps P (wait_until_start cfg fuel).
Proof.
  induction fuel as [|fuel IH]; cbn [wait_until_start]; auto 10 with frame.
Qed.

Lemma keeps_generate_filename n : keeps P (generate_filename n).
Proof. unfold generate_filename. auto with frame. Qed.

#[local] Hint Resolve keeps_wait_until_start keeps_generate_filename : frame.

Lemma keeps_record_station_loop wfuel fuel n u :
  ok_name n -> keeps P (record_station_loop cfg wfuel fuel n u).
Proof.
  intros Hn. induction fuel as [|fuel IH]; cbn [record_station_loop];
    auto 12 with frame.
Qed.

Lemma keeps_record_station wfuel fuel n u :
  ok_name n -> keeps P (record_station cfg wfuel fuel n u).
Proof.
  intros Hn. pose proof (keeps_record_station_loop wfuel fuel n u Hn).
  unfold record_station. auto with frame.
Qed.

Lemma keeps_record_chunk_ffmpeg n u f d :
  ok_name n -> keeps P (record_chunk_ffmpeg env n u f d).
Proof.
  intros Hn. unfold record_chunk_ffmpeg. auto 10 with frame.
Qed.

Lemma keeps_print_status_report : keeps P print_status_report.
Proof.
  unfold print_status_report.
  apply keeps_bind; [intros w Hw; exact Hw|]. intros d. cbv zeta.
  auto 12 with frame.
Qed.

Lemma keeps_reporting_loop fuel : keeps P (reporting_loop cfg fuel).
Proof.
  pose proof keeps_print_status_report.
  induction fuel as [|fuel IH]; cbn [reporting_loop]; auto with frame.
Qed.
End Frame.

(** ** The status board *)

Lemma dict_keys_set (k : string) (v : bool) (d : dict) :
  dict_keys (dict_set k v d)
  = if bool_decide (k ∈ dict_keys d) then dict_keys d else (dict_keys d ++ [k])%list.
Proof.
  unfold dict_keys. induction d as [|[k0 v0] d IH]; [reflexivity|].
  cbn [dict_set]. destruct (String.eqb k0 k) eqn:E.
  - apply String.eqb_eq in E. subst k0. cbn [map fst].
    rewrite bool_decide_true; [reflexivity|left].
  - apply String.eqb_neq in E. cbn [map fst]. rewrite IH.
    destruct (bool_decide (k ∈ map fst d)) eqn:B.
    + apply bool_decide_eq_true in B. rewrite bool_decide_true; [reflexivity|now right].
    + apply bool_decide_eq_false in B. rewrite bool_decide_false; [reflexivity|].
      intros Hin. apply elem_of_cons in Hin as [->|Hin]; contradiction.
Qed.

Lemma elem_of_dict_keys_set (k k' : string) (v : bool) (d : dict) :
  k' ∈ dict_keys (dict_set k v d) <-> k' = k \/ k' ∈ dict_keys d.
Proof.
  rewrite dict_keys_set. destruct (bool_decide (k ∈ dict_keys d)) eqn:B.
  - apply bool_decide_eq_true in B. split; [now right|]. now intros [->|H].
  - rewrite elem_of_app, list_elem_of_singleton. tauto.
Qed.

Lemma NoDup_dict_keys_set (k : string) (v : bool) (d : dict) :
  NoDup (dict_keys d) -> NoDup (dict_keys (dict_set k v d)).
Proof.
  intros Hnd. rewrite dict_keys_set. destruct (bool_decide (k ∈ dict_keys d)) eqn:B.
  - exact Hnd.
  - apply bool_decide_eq_false in B. apply NoDup_app. split; [exact Hnd|].
    split; [|apply NoDup_singleton].
    intros x Hx Hk. apply list_elem_of_singleton in Hk. now subst.
Qed.

(** What [main] leaves behind: every station stored as offline, then the
    reporter and one supervisor per station started. *)
Lemma run_assignments (l : list (string * string)) (rest : list (M unit)) (w : World) :
  for_each (map (fun st => update_station_status (fst st) false) l ++ rest)
           (fun statement => statement) w
  = for_each rest (fun statement => statement)
      (with_station_status
         (fold_left (fun d st => dict_set (fst st) false d) l (station_status w)) w).
Proof.
  revert w. induction l as [|st l IH]; intros w; [now destruct w|].
  cbn [map app for_each]. unfold bind, update_station_status at 1. rewrite IH.
  reflexivity.
Qed.

Lemma run_thread_starts (l : list (string * string)) (w : World) :
  for_each (flat_map (fun st =>
              [thread_start (T_record_station (fst st) (snd st));
               print ("[" +:+ fst st +:+ "]: Recording thread started.")]) l)
           (fun statement => statement) w
  = (Returned tt,
     mkWorld (clock w) (fs w) (station_status w)
       (stdout w ++ map (fun st => "[" +:+ fst st +:+ "]: Recording thread started.") l)
       (threads w ++ map (fun st => mkThread (T_record_station (fst st) (snd st))
                                             (clock w)) l)).
Proof.
  revert w. induction l as [|st l IH]; intros w.
  - cbn. rewrite !app_nil_r. now destruct w.
  - cbn [flat_map app for_each]. unfold bind, thread_start at 1, print at 1. rewrite IH.
    cbn. now rewrite <- !app_assoc.
Qed.

Lemma main_run (stations : list (string * string)) (w : World) :
  main stations w
  = (Returned tt,
     mkWorld (clock w) (fs w)
       (fold_left (fun d st => dict_set (fst st) false d) stations (station_status w))
       (stdout w ++ map (fun st => "[" +:+ fst st +:+ "]: Recording thread started.")
                        stations)
       (threads w ++ mkThread T_reporting_loop (clock w)
          :: map (fun st => mkThread (T_record_station (fst st) (snd st)) (clock w))
                 stations)).
Proof.
  unfold main, main_statements. rewrite run_assignments.
  cbn [for_each]. unfold bind, thread_start at 1.
  rewrite run_thread_starts. cbn. now rewrite <- app_assoc.
Qed.

Lemma fold_dict_set_false (l : list (string * string)) (d : dict) :
  (forall k, k ∈ dict_keys (fold_left (fun d st => dict_set (fst st) false d) l d)
             <-> k ∈ dict_keys d \/ k ∈ map fst l) /\
  (NoDup (dict_keys d) ->
   NoDup (dict_keys (fold_left (fun d st => dict_set (fst st) false d) l d))) /\
  (forall k, k ∈ map fst l ->
     dict_get k (fold_left (fun d st => dict_set (fst st) false d) l d) = Some false).
Proof.
  revert d. induction l as [|st l IH]; intros d; cbn [fold_left map].
  - split; [|split]; [|auto|].
    + intros k. split; [now left|]. intros [H|H]; [exact H|inversion H].
    + intros k H. inversion H.
  - destruct (IH (dict_set (fst st) false d)) as (Hk & Hnd & Hget).
    split; [|split].
    + intros k. rewrite Hk, elem_of_dict_keys_set, elem_of_cons. tauto.
    + intros H. apply Hnd. now apply NoDup_dict_keys_set.
    + intros k Hin. destruct (decide (k ∈ map fst l)) as [Hl|Hl]; [now apply Hget|].
      apply elem_of_cons in Hin as [->|Hin]; [|contradiction].
      clear -Hl. revert d. induction l as [|st' l IH]; intros d; cbn [fold_left].
      * apply dict_get_set_eq.
      * cbn [map] in Hl. apply not_elem_of_cons in Hl as [Hne Hl].
        specialize (IH Hl (dict_set (fst st') false d)).
        rewrite <- IH. clear IH.
        assert (Hswap : forall d0,
          dict_get (fst st) (fold_left (fun d st => dict_set (fst st) false d) l d0)
          = dict_get (fst st) d0).
        { clear -Hl. induction l as [|x l IHl]; intros d0; [reflexivity|].
          cbn [map] in Hl. apply not_elem_of_cons in Hl as [Hne Hl].
          cbn [fold_left]. rewrite (IHl Hl). now apply dict_get_set_ne. }
        rewrite !Hswap, dict_get_set_eq.
        rewrite dict_get_set_ne by assumption. now rewrite dict_get_set_eq.
Qed.

Section StatusBoard.
Context (cfg : Config) (env : Env) (stations : list (string * string)).

Lemma status_board_ok_main (now : datetime) (files : gmap string N) :
  status_board_ok stations (snd (main stations (initial_world now files))).
Proof.
  rewrite main_run. cbn [snd initial_world clock fs station_status stdout threads].
  destruct (fold_dict_set_false stations []) as (Hk & Hnd & _).
  split; [|split]; cbn [station_status threads].
  - intros k. rewrite Hk. split; [intros [H|H]; [inversion H|exact H]|now right].
  - apply Hnd. constructor.
  - intros th n Hin Hst. cbn [app] in Hin.
    apply elem_of_cons in Hin as [->|Hin]; [discriminate|].
    apply list_elem_of_fmap in Hin as [st [-> Hin]]. cbn in Hst.
    injection Hst as <-. apply list_elem_of_fmap. now exists st.
Qed.

Lemma status_board_ok_step (w w' : World) :
  step cfg env w w' -> status_board_ok stations w -> status_board_ok stations w'.
Proof.
  intros Hstep Hok.
  assert (Hstatus : forall n b w0, n ∈ map fst stations -> status_board_ok stations w0 ->
            status_board_ok stations
              (with_station_status (dict_set n b (station_status w0)) w0)).
  { intros n b w0 Hn (Hk & Hnd & Hth). split; [|split]; cbn.
    - intros k. rewrite elem_of_dict_keys_set, Hk. split; [|now right].
      now intros [->|H].
    - now apply NoDup_dict_keys_set.
    - exact Hth. }
  assert (Hthread : forall n u f d w0, n ∈ map fst stations ->
            status_board_ok stations w0 ->
            status_board_ok stations
              (with_threads
                 (threads w0 ++ [mkThread (T_record_chunk_ffmpeg n u f d) (clock w0)])
                 w0)).
  { intros n u f d w0 Hn (Hk & Hnd & Hth). split; [|split]; cbn; auto.
    intros th n' Hin Hst. apply elem_of_app in Hin as [Hin|Hin]; [eauto|].
    apply list_elem_of_singleton in Hin. subst th. cbn in Hst. congruence. }
  destruct Hstep as [th wfuel fuel w Hin | th n b w Hin Hst].
  - destruct Hok as (Hk & Hnd & Hth).
    pose proof (Hth th) as Hname.
    destruct (target th) as [|n u|n u f d]; cbn [run_target].
    + apply (keeps_reporting_loop cfg (status_board_ok stations));
        [auto| |split; [|split]; assumption].
      intros us w0 _ H. exact H.
    + apply (keeps_record_station cfg (status_board_ok stations)
               (fun n => n ∈ map fst stations));
        [auto| |auto|auto|auto|split; [|split]; assumption].
      intros us w0 _ H. exact H.
    + apply (keeps_record_chunk_ffmpeg env (status_board_ok stations)
               (fun n => n ∈ map fst stations));
        [auto|auto|auto|auto|split; [|split]; assumption].
  - cbn [snd update_station_status]. apply Hstatus; [|exact Hok].
    destruct Hok as (_ & _ & Hth). eauto.
Qed.

Lemma status_board_ok_reachable (now : datetime) (files : gmap string N) (w : World) :
  reachable cfg env stations now files w -> status_board_ok stations w.
Proof.
  unfold reachable. intros Hr.
  refine (rtc_ind_r (status_board_ok stations) _
            (status_board_ok_main now files) _ w Hr).
  intros w1 w2 _ Hstep Hok. now apply (status_board_ok_step w1).
Qed.
End StatusBoard.

(** *** The board while [main] starts the threads *)

Section Starting.
Context (cfg : Config) (env : Env) (stations : list (string * string)).

(** What [main] has still to run after the assignments for [done]. *)
Lemma main_statements_drop (done todo : list (string * string)) :
  drop (length done) (main_statements (done ++ todo))
  = map (fun st => update_station_status (fst st) false) todo ++
    thread_start T_reporting_loop ::
    flat_map (fun st =>
      [thread_start (T_record_station (fst st) (snd st));
       print ("[" +:+ fst st +:+ "]: Recording thread started.")]) (done ++ todo).
Proof.
  unfold main_statements. rewrite map_app, <- app_assoc.
  rewrite <- (length_map (fun st => update_station_status (fst st) false) done).
  now rewrite drop_app_length.
Qed.

Lemma board_started_step (w w' : World) :
  step cfg env w w' -> board_started stations w -> board_started stations w'.
Proof.
  intros Hstep [Hok Hth]. split; [now apply (status_board_ok_step cfg env stations w)|].
  assert (Hgrow : forall l w0, threads w0 <> [] -> threads w0 ++ l <> []).
  { intros l w0 H0 Happ. apply app_eq_nil in Happ as [? _]. contradiction. }
  destruct Hstep as [th wfuel fuel w Hin | th n b w Hin Hst]; [|exact Hth].
  destruct (target th) as [|n u|n u f d]; cbn [run_target].
  - apply (keeps_reporting_loop cfg (fun w0 => threads w0 <> []));
      intros; cbn; auto.
  - apply (keeps_record_station cfg (fun w0 => threads w0 <> []) (fun _ => True));
      intros; cbn; auto.
  - apply (keeps_record_chunk_ffmpeg env (fun w0 => threads w0 <> []) (fun _ => True));
      intros; cbn; auto.
Qed.

Lemma keeps_board_started_starts (l : list (string * string)) :
  (forall st, st ∈ l -> fst st ∈ map fst stations) ->
  Forall (keeps (board_started stations))
    (flat_map (fun st =>
       [thread_start (T_record_station (fst st) (snd st));
        print ("[" +:+ fst st +:+ "]: Recording thread started.")]) l).
Proof.
  induction l as [|st l IH]; intros Hl; cbn [flat_map app]; [constructor|].
  constructor; [|constructor; [|apply IH; intros; apply Hl; now right]].
  - intros w [(Hk & Hnd & Hth) Hne]. split; [split; [|split]|]; cbn; auto.
    + intros th n Hin Hst. apply elem_of_app in Hin as [Hin|Hin]; [eauto|].
      apply list_elem_of_singleton in Hin. subst th. cbn in Hst.
      injection Hst as <-. apply Hl. left.
    + intros Happ. apply app_eq_nil in Happ as [? _]. contradiction.
  - intros w H. exact H.
Qed.

Lemma main_progress_step (c c' : list (M unit) * World) :
  main_step cfg env c c' -> main_progress stations c -> main_progress stations c'.
Proof.
  intros Hstep [(done & todo & Hst & Hrest & Hth & Hd)|[Hb Hk]].
  - destruct Hstep as [s rest w w' Hs|rest w w' Hs]; cbn [fst snd] in *.
    + rewrite Hst, main_statements_drop in Hrest. rewrite <- Hst in Hrest.
      destruct todo as [|st todo]; cbn [map app] in Hrest; injection Hrest as -> ->.
      * right. injection Hs as <-. cbn [fst snd]. rewrite app_nil_r in Hst. subst done.
        split; [|apply keeps_board_started_starts; intros st Hin;
                  apply list_elem_of_fmap; now exists st].
        destruct (fold_dict_set_false stations []) as (Hkeys & Hnd & _).
        split; [split; [|split]|]; cbn [station_status threads with_threads].
        -- intros k. rewrite Hd, Hkeys. split; [intros [H|H]; [inversion H|exact H]|now right].
        -- rewrite Hd. apply Hnd. constructor.
        -- rewrite Hth. intros th n Hin Htg. apply list_elem_of_singleton in Hin.
           subst th. discriminate.
        -- rewrite Hth. discriminate.
      * left. exists (done ++ [st]), todo. injection Hs as <-.
        cbn [fst snd threads station_status with_station_status].
        split; [now rewrite <- app_assoc|].
        split; [|split; [exact Hth|]].
        -- rewrite Hst. replace (done ++ st :: todo) with ((done ++ [st]) ++ todo)
             by now rewrite <- app_assoc.
           now rewrite main_statements_drop.
        -- rewrite Hd, fold_left_app. reflexivity.
    + exfalso. destruct Hs as [th wfuel fuel w Hin|th n b w Hin _];
        rewrite Hth in Hin; inversion Hin.
  - right. destruct Hstep as [s rest w w' Hs|rest w w' Hs]; cbn [fst snd] in *.
    + apply Forall_cons in Hk as [Hs' Hk]. split; [|exact Hk].
      specialize (Hs' w Hb). now rewrite Hs in Hs'.
    + split; [|exact Hk]. now apply (board_started_step w).
Qed.

Lemma main_progress_starting (now : datetime) (files : gmap string N)
      (c : list (M unit) * World) :
  starting cfg env stations now files c -> main_progress stations c.
Proof.
  unfold starting. intros Hr.
  refine (rtc_ind_r (main_progress stations) _ _ _ c Hr).
  - left. exists [], stations. cbn. auto.
  - intros c1 c2 _ Hstep Hp. now apply (main_progress_step c1).
Qed.

(** [main] without a step of another thread in between is one of the runs,
    and the steps of the threads after it are steps of the script. *)
Lemma starting_reachable (now : datetime) (files : gmap string N) (w : World) :
  reachable cfg env stations now files w -> starting cfg env stations now files ([], w).
Proof.
  unfold reachable, starting, main. intros Hr.
  assert (Hmain : forall l w0,
            Forall (fun s : M unit => forall w1, fst (s w1) = Returned tt) l ->
            rtc (main_step cfg env) (l, w0)
                ([], snd (for_each l (fun statement => statement) w0))).
  { induction l as [|s l IH]; intros w0 Hl; [apply rtc_refl|].
    apply Forall_cons in Hl as [Hs Hl]. cbn [for_each]. unfold bind.
    specialize (Hs w0). destruct (s w0) as [o w1] eqn:Hrun. cbn in Hs. subst o.
    eapply rtc_l; [apply main_step_next; exact Hrun|]. now apply IH. }
  etrans.
  - apply Hmain. unfold main_statements. apply Forall_app. split.
    + apply Forall_fmap, Forall_forall. intros st _ w1. reflexivity.
    + constructor; [reflexivity|]. apply Forall_flat_map, Forall_forall.
      intros st _. repeat constructor.
  - clear Hmain. induction Hr as [|w1 w2 w3 Hs _ IH]; [apply rtc_refl|].
    eapply rtc_l; [apply main_step_thread; exact Hs|exact IH].
Qed.
End Starting.

(** C9: [update_station_status] stores the value under its station and
    changes the entry of no other station.  From the first statement of
    [main] on, whatever started thread runs or stores a status between two
    statements of [main] or after them: as soon as a thread is started, and
    when [main] has run all its statements, the keys of [station_status]
    are exactly the names of the station list, each once; and when [main]
    runs the statement that starts the first thread, the board is complete
    and every station of the list is stored as offline.  The worlds the
    script can reach after [main] are among these. *)
Theorem station_status_entries :
  (forall (station_name : string) (is_online : bool) (w : World),
     dict_get station_name
       (station_status (snd (update_station_status station_name is_online w)))
     = Some is_online /\
     forall other : string,
       other <> station_name ->
       dict_get other
         (station_status (snd (update_station_status station_name is_online w)))
       = dict_get other (station_status w)) /\
  (forall (cfg : Config) (env : Env) (stations : list (string * string))
          (now : datetime) (files : gmap string N) (rest : list (M unit)) (w : World),
     starting cfg env stations now files (rest, w) ->
     (threads w <> [] \/ rest = [] -> board_complete stations w) /\
     (forall (statement : M unit) (rest' : list (M unit)) (w' : World),
        rest = statement :: rest' ->
        threads w = [] ->
        statement w = (Returned tt, w') ->
        threads w' <> [] ->
        board_complete stations w /\
        forall station_name : string,
          station_name ∈ map fst stations ->
          dict_get station_name (station_status w) = Some false)) /\
  (forall (cfg : Config) (env : Env) (stations : list (string * string))
          (now : datetime) (files : gmap string N) (w : World),
     reachable cfg env stations now files w ->
     starting cfg env stations now files ([], w) /\
     board_complete stations w).
Proof.
  split; [|split].
  - intros n b w. cbn. split; [apply dict_get_set_eq|].
    intros other Hne. now apply dict_get_set_ne.
  - intros cfg env stations now files rest w Hr.
    destruct (main_progress_starting cfg env stations now files _ Hr)
      as [(done & todo & Hst & Hrest & Hth & Hd)|[[(Hk & Hnd & _) Hne] _]];
      cbn [fst snd] in *.
    + rewrite Hst, main_statements_drop in Hrest. rewrite <- Hst in Hrest.
      split.
      * intros [H|H]; [contradiction|]. subst rest.
        destruct todo; discriminate.
      * intros s rest' w' -> _ Hs Hne.
        destruct todo as [|st todo]; cbn [map app] in Hrest; injection Hrest as -> ->.
        -- rewrite app_nil_r in Hst. subst done.
           destruct (fold_dict_set_false stations []) as (Hkeys & Hnd & Hget).
           unfold board_complete. rewrite Hd. split; [split|exact Hget].
           ++ intros k. rewrite Hkeys.
              split; [intros [H|H]; [inversion H|exact H]|now right].
           ++ apply Hnd. constructor.
        -- injection Hs as <-. contradiction.
    + split; [intros _; split; assumption|]. intros s rest' w' _ Hth. contradiction.
  - intros cfg env stations now files w Hr.
    split; [now apply starting_reachable|].
    destruct (status_board_ok_reachable cfg env stations now files w Hr) as (Hk & Hnd & _).
    split; assumption.
Qed.

Lemma station_status_entries_witness :
  let stations := [("DZMM", "http://dzmm/live"); ("DZRH", "http://dzrh/live")] in
  let w0 := initial_world (mkdatetime 2024 2 28 5 0 0 0) ∅ in
  let w1 := snd (update_station_status "DZMM" false w0) in
  let w2 := snd (update_station_status "DZRH" false w1) in
  let w3 := snd (thread_start T_reporting_loop w2) in
  let w4 := snd (reporting_loop configured 1 w3) in
  let w5 := snd (thread_start (T_record_station "DZMM" "http://dzmm/live") w4) in
  let w6 := snd (record_station configured 1 1 "DZMM" "http://dzmm/live" w5) in
  let w7 := snd (update_station_status "DZMM" true w6) in
  (board_complete stations w2 /\
   forall station_name : string,
     station_name ∈ map fst stations ->
     dict_get station_name (station_status w2) = Some false) /\
  length (stdout w4) = 6%nat /\
  length (threads w7) = 3%nat /\
  board_complete stations w7.
Proof.
  intros stations w0 w1 w2 w3 w4 w5 w6 w7.
  pose (env := env_capture 500000 None).
  assert (H2 : starting configured env stations (mkdatetime 2024 2 28 5 0 0 0) ∅
                 (drop 2 (main_statements stations), w2)).
  { unfold starting.
    eapply rtc_l; [apply (main_step_next _ _ _ _ w0 w1); reflexivity|].
    eapply rtc_l; [apply (main_step_next _ _ _ _ w1 w2); reflexivity|].
    apply rtc_refl. }
  assert (H7 : starting configured env stations (mkdatetime 2024 2 28 5 0 0 0) ∅
                 (drop 4 (main_statements stations), w7)).
  { unfold starting. etrans; [exact H2|].
    eapply rtc_l; [apply (main_step_next _ _ _ _ w2 w3); reflexivity|].
    eapply rtc_l.
    { apply main_step_thread.
      apply (step_run configured env (mkThread T_reporting_loop (clock w2)) 0 1 w3).
      apply (list_elem_of_lookup_2 _ 0%nat). reflexivity. }
    eapply rtc_l; [apply (main_step_next _ _ _ _ w4 w5); reflexivity|].
    eapply rtc_l.
    { apply main_step_thread.
      apply (step_run configured env
               (mkThread (T_record_station "DZMM" "http://dzmm/live") (clock w4)) 1 1 w5).
      apply (list_elem_of_lookup_2 _ 1%nat). reflexivity. }
    eapply rtc_l; [|apply rtc_refl].
    apply main_step_thread.
    apply (step_update configured env
             (mkThread (T_record_chunk_ffmpeg "DZMM" "http://dzmm/live"
                          "[2024-02-28]-[05-01-00]-DZMM.mp3" 900) (clock w5))
             "DZMM" true w6); [|reflexivity].
    apply (list_elem_of_lookup_2 _ 2%nat). reflexivity. }
  split.
  - apply (proj2 (proj1 (proj2 station_status_entries) configured env stations
                   (mkdatetime 2024 2 28 5 0 0 0) ∅ _ w2 H2)
             (thread_start T_reporting_loop) (drop 3 (main_statements stations)) w3);
      [reflexivity|reflexivity|reflexivity|discriminate].
  - split; [reflexivity|]. split; [reflexivity|].
    apply (proj1 (proj1 (proj2 station_status_entries) configured env stations
                   (mkdatetime 2024 2 28 5 0 0 0) ∅ _ w7 H7)).
    left. discriminate.
Defined.

(** ** The schedule of one station *)

Section Schedule.
Context (cfg : Config) (wfuel : nat) (station_name station_url : string).

(** Waiting for the window starts no thread and leaves the clock on the
    calendar. *)
Lemma wait_until_start_threads (fuel : nat) (w : World) :
  on_calendar (clock w) ->
  on_calendar (clock (snd (wait_until_start cfg fuel w))) /\
  threads (snd (wait_until_start cfg fuel w)) = threads w.
Proof.
  intros Hcal.
  apply (keeps_wait_until_start cfg
           (fun w' => on_calendar (clock w') /\ threads w' = threads w)).
  - intros o w' H. exact H.
  - intros us w' Hus [Hc Ht]. split; [|exact Ht].
    cbn. now apply timestamp_add_us.
  - auto.
Qed.

(** The end of a pass, from the file name on. *)
Lemma record_station_loop_launch (fuel : nat) (w : World) :
  on_calendar (clock w) ->
  (forall w1 : World,
     on_calendar (clock w1) ->
     exists l : list Thread,
       threads (snd (record_station_loop cfg wfuel fuel station_name station_url w1))
       = threads w1 ++ l /\
       scheduled cfg station_name station_url (clock w1) l) ->
  exists l : list Thread,
    threads (snd ((let* filename := generate_filename station_name in
                   thread_start (T_record_chunk_ffmpeg station_name station_url filename
                                                       (RECORD_DURATION cfg)) >>
                   time_sleep (OVERLAP_START cfg * US_PER_SECOND) >>
                   record_station_loop cfg wfuel fuel station_name station_url) w))
    = threads w ++ capture cfg station_name station_url (clock w) :: l /\
    scheduled cfg station_name station_url
              (add_us (clock w) (OVERLAP_START cfg * US_PER_SECOND)) l.
Proof.
  intros Hcal IH.
  unfold generate_filename, bind, datetime_now, ret, thread_start, time_sleep.
  destruct (Z.ltb_spec (OVERLAP_START cfg * US_PER_SECOND) 0) as [Hneg|Hpos];
    cbn [snd threads with_threads clock].
  - exists []. split; [reflexivity|constructor].
  - set (w2 := with_clock _ _).
    destruct (IH w2) as (l & Hl & Hs).
    { cbn. now apply timestamp_add_us. }
    exists l. split; [|exact Hs].
    destruct (record_station_loop _ _ _ _ _ w2) as [[[]|e|] w3]; cbn [snd] in *;
      rewrite Hl; cbn; now rewrite <- app_assoc.
Qed.

Lemma record_station_loop_scheduled (fuel : nat) (w : World) :
  on_calendar (clock w) ->
  exists l : list Thread,
    threads (snd (record_station_loop cfg wfuel fuel station_name station_url w))
    = threads w ++ l /\
    scheduled cfg station_name station_url (clock w) l.
Proof.
  revert w. induction fuel as [|fuel IH]; intros w Hcal.
  - exists []. cbn. rewrite app_nil_r. split; [reflexivity|constructor].
  - cbn [record_station_loop]. unfold bind at 1, datetime_now at 1.
    unfold bind at 1.
    destruct (within_recording_window cfg (clock w)) eqn:Hwin; cbn [negb].
    + unfold ret at 1.
      destruct (record_station_loop_launch fuel w Hcal IH) as (l & Hl & Hs).
      exists (capture cfg station_name station_url (clock w) :: l). split; [exact Hl|].
      constructor; auto.
    + unfold bind at 1.
      destruct (wait_until_start_threads wfuel w Hcal) as [Hcal1 Hth1].
      destruct (wait_until_start cfg wfuel w) as [[[]|e|] w1]; cbn [snd] in *.
      * unfold datetime_now at 1.
        destruct (record_station_loop_launch fuel w1 Hcal1 IH) as (l & Hl & Hs).
        exists (capture cfg station_name station_url (clock w1) :: l). rewrite <- Hth1. split; [exact Hl|].
        constructor; auto. congruence.
      * exists []. rewrite app_nil_r. split; [assumption|constructor].
      * exists []. rewrite app_nil_r. split; [assumption|constructor].
Qed.

(** Two captures in a row of a schedule. *)
Lemma scheduled_consecutive (t : datetime) (l : list Thread) (i : nat) (c1 c2 : Thread) :
  scheduled cfg station_name station_url t l ->
  l !! i = Some c1 -> l !! S i = Some c2 ->
  c1 = capture cfg station_name station_url (started c1) /\
  c2 = capture cfg station_name station_url (started c2) /\
  on_calendar (started c1) /\
  (within_recording_window cfg
     (add_us (started c1) (OVERLAP_START cfg * US_PER_SECOND)) = true ->
   started c2 = add_us (started c1) (OVERLAP_START cfg * US_PER_SECOND)).
Proof.
  intros Hs. revert i. induction Hs as [t|t c l Htg Hcal Hwin Hs IH]; intros i H1 H2.
  - discriminate.
  - destruct i as [|i].
    + injection H1 as <-. cbn in H2.
      inversion Hs as [|t' c' l' Htg' Hcal' Hwin' Hs']; subst; [discriminate|].
      injection H2 as <-. auto.
    + cbn in H1, H2. eauto.
Qed.
End Schedule.

Section Single.
Context (cfg : Config) (wfuel : nat) (station_name station_url : string).

(** With a negative [OVERLAP_START] the sleep after the first capture
    raises: the loop starts one thread at most. *)
Lemma record_station_loop_single (fuel : nat) (w : World) :
  on_calendar (clock w) ->
  OVERLAP_START cfg * US_PER_SECOND < 0 ->
  exists l : list Thread,
    threads (snd (record_station_loop cfg wfuel fuel station_name station_url w))
    = threads w ++ l /\
    (length l <= 1)%nat.
Proof.
  intros Hcal Hneg.
  assert (Hlaunch : forall w1 : World,
            threads (snd ((let* filename := generate_filename station_name in
                           thread_start (T_record_chunk_ffmpeg station_name station_url
                                           filename (RECORD_DURATION cfg)) >>
                           time_sleep (OVERLAP_START cfg * US_PER_SECOND) >>
                           record_station_loop cfg wfuel (Nat.pred fuel)
                                               station_name station_url) w1))
            = threads w1 ++ [capture cfg station_name station_url (clock w1)]).
  { intros w1.
    unfold generate_filename, bind, datetime_now, ret, thread_start, time_sleep.
    apply Z.ltb_lt in Hneg. cbn [snd threads with_threads clock]. rewrite Hneg.
    reflexivity. }
  destruct fuel as [|fuel].
  - exists []. cbn. rewrite app_nil_r. split; [reflexivity|lia].
  - cbn [record_station_loop Nat.pred] in *. unfold bind at 1, datetime_now at 1.
    unfold bind at 1.
    destruct (within_recording_window cfg (clock w)) eqn:Hwin; cbn [negb].
    + unfold ret at 1. rewrite Hlaunch. eexists. split; [reflexivity|cbn; lia].
    + unfold bind at 1.
      destruct (wait_until_start_threads cfg wfuel w Hcal) as [_ Hth1].
      destruct (wait_until_start cfg wfuel w) as [[[]|e|] w1]; cbn [snd] in *.
      * unfold datetime_now at 1. rewrite Hlaunch, Hth1.
        eexists. split; [reflexivity|cbn; lia].
      * exists []. rewrite app_nil_r. split; [assumption|cbn; lia].
      * exists []. rewrite app_nil_r. split; [assumption|cbn; lia].
Qed.
End Single.

(** C6, as the script has it: with [OVERLAP_START < RECORD_DURATION], when
    [record_station] starts two threads in a row and the window is open
    [OVERLAP_START] seconds after the start of the first (so the supervisor
    did not wait for the window in between), both are captures of the
    station for [RECORD_DURATION] seconds, the second starts exactly
    [OVERLAP_START] seconds after the first and the two are active together
    for exactly [RECORD_DURATION - OVERLAP_START] seconds.  The configured
    values satisfy the condition: 840 < 900. *)
Theorem consecutive_chunks_overlap :
  (forall (cfg : Config) (wfuel fuel : nat) (station_name station_url : string)
          (w : World) (i : nat) (c1 c2 : Thread),
     OVERLAP_START cfg < RECORD_DURATION cfg ->
     on_calendar (clock w) ->
     let w' := snd (record_station cfg wfuel fuel station_name station_url w) in
     threads w' !! (length (threads w) + i)%nat = Some c1 ->
     threads w' !! (length (threads w) + S i)%nat = Some c2 ->
     within_recording_window cfg
       (add_us (started c1) (OVERLAP_START cfg * US_PER_SECOND)) = true ->
     c1 = capture cfg station_name station_url (started c1) /\
     c2 = capture cfg station_name station_url (started c2) /\
     started c2 = add_us (started c1) (OVERLAP_START cfg * US_PER_SECOND) /\
     active_from c2 = active_from c1 + OVERLAP_START cfg * US_PER_SECOND /\
     overlap_us c1 c2 = (RECORD_DURATION cfg - OVERLAP_START cfg) * US_PER_SECOND) /\
  OVERLAP_START configured < RECORD_DURATION configured.
Proof.
  split; [|reflexivity].
  intros cfg wfuel fuel station_name station_url w i c1 c2 HSD Hcal w' H1 H2 Hwin.
  unfold w', record_station, bind, update_station_status in H1, H2.
  set (w0 := with_station_status _ w) in *.
  destruct (Z.lt_ge_cases (OVERLAP_START cfg * US_PER_SECOND) 0) as [Hneg|Hpos].
  { exfalso.
    destruct (record_station_loop_single cfg wfuel station_name station_url fuel w0
                Hcal Hneg) as (l & Hl & Hlen).
    change (threads w0) with (threads w) in Hl. rewrite Hl in H2.
    apply lookup_lt_Some in H2. rewrite length_app in H2. lia. }
  destruct (record_station_loop_scheduled cfg wfuel station_name station_url fuel w0 Hcal)
    as (l & Hl & Hs).
  change (threads w0) with (threads w) in Hl. rewrite Hl in H1, H2.
  rewrite lookup_app_r in H1, H2 by lia.
  replace (length (threads w) + i - length (threads w))%nat with i in H1 by lia.
  replace (length (threads w) + S i - length (threads w))%nat with (S i) in H2 by lia.
  destruct (scheduled_consecutive cfg station_name station_url _ l i c1 c2 Hs H1 H2)
    as (Hc1 & Hc2 & Hcal1 & Hnext).
  specialize (Hnext Hwin).
  assert (Hd1 : chunk_duration c1 = RECORD_DURATION cfg) by now rewrite Hc1.
  assert (Hd2 : chunk_duration c2 = RECORD_DURATION cfg) by now rewrite Hc2.
  destruct (timestamp_add_us (started c1) (OVERLAP_START cfg * US_PER_SECOND) Hcal1)
    as [_ Hts]; [exact Hpos|].
  assert (Hfrom : active_from c2 = active_from c1 + OVERLAP_START cfg * US_PER_SECOND).
  { unfold active_from. now rewrite Hnext. }
  do 2 (split; [assumption|]). split; [exact Hnext|]. split; [exact Hfrom|].
  unfold overlap_us, active_until. rewrite Hfrom, Hd1, Hd2.
  unfold US_PER_SECOND in *. lia.
Qed.

Lemma consecutive_chunks_overlap_witness :
  let cfg := configured in
  let w := initial_world (mkdatetime 2024 2 28 5 0 0 0) ∅ in
  let w' := snd (record_station cfg 2 3 "DZMM" "http://dzmm/live" w) in
  exists c1 c2 : Thread,
    threads w' !! 1%nat = Some c1 /\ threads w' !! 2%nat = Some c2 /\
    started c1 = mkdatetime 2024 2 28 5 14 0 0 /\
    c1 = capture cfg "DZMM" "http://dzmm/live" (started c1) /\
    c2 = capture cfg "DZMM" "http://dzmm/live" (started c2) /\
    started c2 = add_us (started c1) (OVERLAP_START cfg * US_PER_SECOND) /\
    active_from c2 = active_from c1 + OVERLAP_START cfg * US_PER_SECOND /\
    overlap_us c1 c2 = (RECORD_DURATION cfg - OVERLAP_START cfg) * US_PER_SECOND.
Proof.
  intros cfg w w'.
  assert (H1 : exists c1, threads w' !! (length (threads w) + 1)%nat = Some c1 /\
                          started c1 = mkdatetime 2024 2 28 5 14 0 0)
    by (eexists; split; reflexivity).
  assert (H2 : exists c2, threads w' !! (length (threads w) + 2)%nat = Some c2)
    by (eexists; reflexivity).
  destruct H1 as (c1 & H1 & Hstart), H2 as (c2 & H2).
  exists c1, c2. split; [exact H1|]. split; [exact H2|]. split; [exact Hstart|].
  apply (proj1 consecutive_chunks_overlap cfg 2%nat 3%nat "DZMM" "http://dzmm/live"
           w 1%nat c1 c2).
  - reflexivity.
  - unfold on_calendar, valid_time. vm_compute. intuition discriminate.
  - exact H1.
  - exact H2.
  - rewrite Hstart. reflexivity.
Defined.

(** Without the condition on the window the two captures need not overlap:
    with the configured values a capture started at 23:50:00 is followed by
    the one started at 05:00:00 of the next day, five hours after the first
    has ended. *)
Lemma consecutive_chunks_apart :
  let w := initial_world (mkdatetime 2024 2 28 23 50 0 0) ∅ in
  let w' := snd (record_station configured 2 2 "DZMM" "http://dzmm/live" w) in
  0 <= OVERLAP_START configured < RECORD_DURATION configured /\
  exists c1 c2 : Thread,
    threads w' !! 0%nat = Some c1 /\ threads w' !! 1%nat = Some c2 /\
    started c1 = mkdatetime 2024 2 28 23 50 0 0 /\
    started c2 = mkdatetime 2024 2 29 5 0 0 0 /\
    overlap_us c1 c2 = 0 /\
    overlap_us c1 c2
    <> (RECORD_DURATION configured - OVERLAP_START configured) * US_PER_SECOND.
Proof.
  intros w w'. split; [vm_compute; split; [discriminate|reflexivity]|].
  eexists. eexists. split; [reflexivity|]. split; [reflexivity|].
  split; [reflexivity|]. split; [reflexivity|].
  split; [reflexivity|]. vm_compute. discriminate.
Qed.

(** * Further properties of the script *)

Lemma path_join_relative (dir name : string) :
  is_absolute name = false -> path_join dir name = dir +:+ "/" +:+ name.
Proof.
  unfold is_absolute, path_join. destruct name as [|c name]; [reflexivity|].
  destruct (Ascii.eqb_spec c "/"%char) as [->|Hne]; [discriminate|].
  intros _. destruct c as [[] [] [] [] [] [] [] []]; try reflexivity. congruence.
Qed.

Lemma live_rec_paths_differ (filename : string) :
  is_absolute filename = false ->
  path_join LIVE_DIR filename <> path_join REC_DIR filename.
Proof.
  intros Hrel. rewrite !path_join_relative by assumption. discriminate.
Qed.

(** X1: when the capture left data at the live path of a relative file
    name and the move does not fail, [record_chunk_ffmpeg] returns with the
    file of that size at the path under [REC_DIR] and none at the live
    path; every other file is as the capture left it, the station is stored
    as online and nothing is printed. *)
Theorem record_chunk_ffmpeg_handoff
    (env : Env) (station_name station_url filename : string) (duration : Z)
    (w : World) (files : gmap string N) (size : N) :
  let live_path := path_join LIVE_DIR filename in
  let rec_path := path_join REC_DIR filename in
  is_absolute filename = false ->
  run_process env (ffmpeg_command station_url duration live_path) (fs w) = Some files ->
  files !! live_path = Some size ->
  (0 < size)%N ->
  move_fault env live_path rec_path files = None ->
  exists w' : World,
    record_chunk_ffmpeg env station_name station_url filename duration w
    = (Returned tt, w') /\
    fs w' !! rec_path = Some size /\
    fs w' !! live_path = None /\
    (forall p : string, p <> live_path -> p <> rec_path -> fs w' !! p = files !! p) /\
    dict_get station_name (station_status w') = Some true /\
    stdout w' = stdout w.
Proof.
  intros live_path rec_path Hrel Hrun Hf Hsize Hmove.
  pose proof (live_rec_paths_differ filename Hrel) as Hne. fold live_path rec_path in Hne.
  rewrite (record_chunk_ffmpeg_run _ _ _ _ _ _ _ Hrun).
  fold live_path rec_path. cbv zeta. rewrite Hf.
  apply N.ltb_lt in Hsize. rewrite Hsize, Hmove.
  eexists. split; [reflexivity|]. cbn [fs station_status stdout].
  split; [apply lookup_insert_eq|].
  split; [rewrite lookup_insert_ne by congruence; apply lookup_delete_eq|].
  split; [|split; [apply dict_get_set_eq|reflexivity]].
  intros p Hl Hr. rewrite lookup_insert_ne by congruence.
  now rewrite lookup_delete_ne by congruence.
Qed.

Lemma record_chunk_ffmpeg_handoff_witness :
  exists w' : World,
    record_chunk_ffmpeg (env_capture 500000 None) "DZMM" "http://dzmm/live"
        "[2024-03-01]-[05-00-00]-DZMM.mp3" 900
        (initial_world (mkdatetime 2024 3 1 5 15 0 0) ∅)
    = (Returned tt, w') /\
    fs w' !! path_join REC_DIR "[2024-03-01]-[05-00-00]-DZMM.mp3" = Some 500000%N /\
    fs w' !! path_join LIVE_DIR "[2024-03-01]-[05-00-00]-DZMM.mp3" = None /\
    (forall p : string,
       p <> path_join LIVE_DIR "[2024-03-01]-[05-00-00]-DZMM.mp3" ->
       p <> path_join REC_DIR "[2024-03-01]-[05-00-00]-DZMM.mp3" ->
       fs w' !! p
       = (<[path_join LIVE_DIR "[2024-03-01]-[05-00-00]-DZMM.mp3" := 500000%N]>
            (∅ : gmap string N)) !! p) /\
    dict_get "DZMM" (station_status w') = Some true /\
    stdout w' = [].
Proof.
  apply (record_chunk_ffmpeg_handoff (env_capture 500000 None) "DZMM"
           "http://dzmm/live" "[2024-03-01]-[05-00-00]-DZMM.mp3" 900
           (initial_world (mkdatetime 2024 3 1 5 15 0 0) ∅)
           (<[path_join LIVE_DIR "[2024-03-01]-[05-00-00]-DZMM.mp3" := 500000%N]> ∅)
           500000%N).
  - reflexivity.
  - reflexivity.
  - apply lookup_insert_eq.
  - reflexivity.
  - reflexivity.
Defined.

(** X2: when the external command cannot be started ([subprocess.run]
    raises), the exception leaves [record_chunk_ffmpeg] and nothing has
    changed: no status is stored for the station, nothing is printed and no
    file is touched. *)
Theorem record_chunk_ffmpeg_raises
    (env : Env) (station_name station_url filename : string) (duration : Z)
    (w : World) :
  run_process env (ffmpeg_command station_url duration (path_join LIVE_DIR filename))
              (fs w) = None ->
  exists e : Exn,
    record_chunk_ffmpeg env station_name station_url filename duration w = (Raised e, w).
Proof.
  intros Hrun. eexists. now apply record_chunk_ffmpeg_not_started.
Qed.

Lemma record_chunk_ffmpeg_raises_witness :
  let env := mkEnv (fun _ _ => None) (fun _ _ _ => None) in
  let w := snd (update_station_status "DZMM" true
                  (initial_world (mkdatetime 2024 3 1 5 15 0 0) ∅)) in
  exists e : Exn,
    record_chunk_ffmpeg env "DZMM" "http://dzmm/live"
      "[2024-03-01]-[05-15-00]-DZMM.mp3" 900 w = (Raised e, w).
Proof.
  intros env w.
  apply (record_chunk_ffmpeg_raises env "DZMM" "http://dzmm/live"
           "[2024-03-01]-[05-15-00]-DZMM.mp3" 900 w).
  reflexivity.
Defined.

(** X3: whatever happens in it, [record_chunk_ffmpeg] leaves the clock and
    the threads alone, changes the entry of no other station and prints at
    most one line. *)
Theorem record_chunk_ffmpeg_isolated
    (env : Env) (station_name station_url filename : string) (duration : Z)
    (w : World) :
  let w' := snd (record_chunk_ffmpeg env station_name station_url filename duration w) in
  clock w' = clock w /\
  threads w' = threads w /\
  (forall other : string,
     other <> station_name ->
     dict_get other (station_status w') = dict_get other (station_status w)) /\
  (stdout w' = stdout w \/ exists line : string, stdout w' = stdout w ++ [line]).
Proof.
  intros w'. unfold w'.
  destruct (run_process env (ffmpeg_command station_url duration
                               (path_join LIVE_DIR filename)) (fs w))
    as [files|] eqn:Hrun.
  - rewrite (record_chunk_ffmpeg_run _ _ _ _ _ _ _ Hrun). cbv zeta.
    destruct (files !! _) as [size|];
      [destruct (0 <? size)%N;
       [destruct (move_fault env _ _ files) as [[e files']|]|]|];
      cbn [snd clock threads station_status stdout];
      (split; [reflexivity|]); (split; [reflexivity|]);
      (split; [intros other Hne; now apply dict_get_set_ne|]); eauto.
  - rewrite (record_chunk_ffmpeg_not_started _ _ _ _ _ _ Hrun). cbn. auto.
Qed.

(** One pass of [wait_until_start] outside the window: the target, the
    length of the sleep and where the clock is afterwards. *)
Lemma next_start_reached (cfg : Config) (now : datetime) :
  0 <= START_HOUR cfg < 24 ->
  valid_datetime now ->
  within_recording_window cfg now = false ->
  hour now < START_HOUR cfg \/ (year now, month now, day now) <> (MAXYEAR, 12, 31) ->
  exists t : datetime,
    next_start cfg now = inr t /\
    valid_datetime t /\
    hour t = START_HOUR cfg /\
    0 < sub_us t now <= US_PER_DAY /\
    add_us now (sub_us t now) = t.
Proof.
  intros Hcfg Hvalid Hout Hday.
  pose proof (valid_on_calendar now Hvalid) as Hcal.
  pose proof (us_of_day_bounds now (proj2 Hvalid)) as Hus.
  assert (Htarget : exists k : nat,
    let d := Nat.iter k tomorrow now in
    let t := mkdatetime (year d) (month d) (day d) (START_HOUR cfg) 0 0 0 in
    next_start cfg now = inr t /\ valid_datetime t /\
    (if hour now <? START_HOUR cfg then k = 0%nat else k = 1%nat)).
  { unfold next_start. destruct (Z.ltb_spec (hour now) (START_HOUR cfg)) as [Hlt|Hge].
    - exists 0%nat. cbn [Nat.iter nat_rect]. split; [now apply replace_time_start|].
      split; [|reflexivity].
      destruct Hvalid as [Hd Ht]. split; [exact Hd|]. unfold valid_time; cbn. lia.
    - destruct Hday as [Hlt|Hlast]; [lia|].
      exists 1%nat. cbn [Nat.iter nat_rect]. unfold add_one_day.
      pose proof (tomorrow_year_max now Hvalid Hlast) as Hy.
      destruct (Z.leb_spec (year (tomorrow now)) MAXYEAR); [|lia].
      split; [now apply replace_time_start|]. split; [|reflexivity].
      pose proof (on_calendar_tomorrow now Hcal) as (Hm & Hd & _).
      assert (Hy1 : MINYEAR <= year (tomorrow now)).
      { destruct Hvalid as [(Hy1 & _) _]. unfold tomorrow.
        destruct (day now <? _); [|destruct (month now <? 12)];
          cbn [year month day]; unfold MINYEAR in *; lia. }
      unfold valid_datetime, valid_date, valid_time.
      cbn [year month day hour minute second microsecond]. lia. }
  destruct Htarget as (k & Hnext & Hvalid_t & Hk).
  cbv zeta in Hnext, Hvalid_t.
  set (d := Nat.iter k tomorrow now) in *.
  set (t := mkdatetime (year d) (month d) (day d) (START_HOUR cfg) 0 0 0) in *.
  destruct (toordinal_iter_tomorrow k now Hcal) as [_ Hord]. fold d in Hord.
  assert (Hord_t : toordinal t = toordinal now + Z.of_nat k) by exact Hord.
  assert (Hwait : 0 < sub_us t now <= US_PER_DAY).
  { unfold sub_us, timestamp_us. rewrite Hord_t.
    assert (Hust : us_of_day t = START_HOUR cfg * 3600 * US_PER_SECOND)
      by (unfold us_of_day; cbn; lia).
    rewrite Hust. unfold US_PER_DAY, US_PER_SECOND in *.
    destruct Hvalid as [_ (Hh & _)].
    destruct (Z.ltb_spec (hour now) (START_HOUR cfg)); subst k; simpl Z.of_nat; lia. }
  exists t. split; [exact Hnext|]. split; [exact Hvalid_t|].
  split; [reflexivity|]. split; [exact Hwait|].
  apply (add_us_sub_us now k (START_HOUR cfg) Hcal Hcfg).
  exact (Z.lt_le_incl _ _ (proj1 Hwait)).
Qed.

(** X4: for a window that is not empty, [wait_until_start] returns within
    two passes: at once and without any effect when the clock is inside the
    window, otherwise after one printed line and one sleep that ends at
    [next_start]; on return the clock is inside the window, and files,
    board and threads are untouched. *)
Theorem wait_until_start_returns (cfg : Config) (fuel : nat) (w : World) :
  window_nonempty cfg ->
  valid_datetime (clock w) ->
  hour (clock w) < START_HOUR cfg
  \/ (year (clock w), month (clock w), day (clock w)) <> (MAXYEAR, 12, 31) ->
  exists w' : World,
    wait_until_start cfg (S (S fuel)) w = (Returned tt, w') /\
    within_recording_window cfg (clock w') = true /\
    fs w' = fs w /\ station_status w' = station_status w /\ threads w' = threads w /\
    (if within_recording_window cfg (clock w)
     then w' = w
     else next_start cfg (clock w) = inr (clock w') /\
          exists line : string, stdout w' = stdout w ++ [line]).
Proof.
  intros [Hstart Hend] Hvalid Hday.
  destruct (within_recording_window cfg (clock w)) eqn:Hwin.
  - exists w. cbn [wait_until_start]. unfold bind at 1, datetime_now at 1.
    rewrite Hwin. auto 10.
  - destruct (next_start_reached cfg (clock w) Hstart Hvalid Hwin Hday)
      as (t & Hnext & Hvalid_t & Hh & Hwait & Hadd).
    assert (Hwin_t : within_recording_window cfg t = true).
    { unfold within_recording_window. cbv zeta. rewrite Hh.
      apply andb_true_iff. split; [lia|].
      destruct (Z.eqb_spec (END_HOUR cfg) 0); lia. }
    eexists.
    change (wait_until_start cfg (S (S fuel)) w)
      with ((let* now := datetime_now in
             if within_recording_window cfg now then ret tt
             else
               let* next_start := lift (next_start cfg now) in
               let wait_us := sub_us next_start now in
               let wait_str := str_timedelta_seconds (Z.quot wait_us US_PER_SECOND) in
               print ("Outside recording window. Waiting " +:+ wait_str +:+ " until "
                       +:+ pretty (START_HOUR cfg) +:+ ":00.") >>
               time_sleep wait_us >>
               wait_until_start cfg (S fuel)) w).
    unfold bind at 1, datetime_now at 1. rewrite Hwin.
    unfold bind at 1. rewrite Hnext. cbn [lift ret].
    unfold bind at 1, print at 1, bind at 1, time_sleep at 1.
    cbn [clock with_stdout].
    destruct (Z.ltb_spec (sub_us t (clock w)) 0) as [Hneg|_]; [lia|].
    rewrite Hadd.
    cbn [wait_until_start]. unfold bind at 1, datetime_now at 1.
    cbn [clock with_clock]. rewrite Hwin_t.
    split; [reflexivity|]. cbn. eauto 10.
Qed.

Lemma wait_until_start_returns_witness :
  exists w' : World,
    wait_until_start configured 2 (initial_world (mkdatetime 2024 2 28 4 59 59 0) ∅)
    = (Returned tt, w') /\
    within_recording_window configured (clock w') = true /\
    fs w' = ∅ /\ station_status w' = [] /\ threads w' = [] /\
    next_start configured (mkdatetime 2024 2 28 4 59 59 0) = inr (clock w') /\
    exists line : string, stdout w' = [] ++ [line].
Proof.
  apply (wait_until_start_returns configured 0
           (initial_world (mkdatetime 2024 2 28 4 59 59 0) ∅)).
  - unfold window_nonempty. simpl. lia.
  - unfold valid_datetime, valid_date, valid_time, MINYEAR, MAXYEAR. simpl.
    change (days_in_month 2024 2) with 29. lia.
  - left. simpl. lia.
Defined.

(** X5: outside the window the time [wait_until_start] sleeps is above
    zero and at most one day, so [time.sleep] does not raise. *)
Theorem wait_length_bounds (cfg : Config) (now : datetime) :
  0 <= START_HOUR cfg < 24 ->
  valid_datetime now ->
  within_recording_window cfg now = false ->
  hour now < START_HOUR cfg \/ (year now, month now, day now) <> (MAXYEAR, 12, 31) ->
  exists t : datetime,
    next_start cfg now = inr t /\
    0 < sub_us t now <= US_PER_DAY /\
    forall w : World, fst (time_sleep (sub_us t now) w) = Returned tt.
Proof.
  intros Hcfg Hvalid Hout Hday.
  destruct (next_start_reached cfg now Hcfg Hvalid Hout Hday)
    as (t & Hnext & _ & _ & Hwait & _).
  exists t. split; [exact Hnext|]. split; [exact Hwait|].
  intros w. unfold time_sleep.
  destruct (Z.ltb_spec (sub_us t now) 0); [lia|reflexivity].
Qed.

Lemma wait_length_bounds_witness :
  exists t : datetime,
    next_start configured (mkdatetime 2024 2 28 0 0 0 0) = inr t /\
    0 < sub_us t (mkdatetime 2024 2 28 0 0 0 0) <= US_PER_DAY /\
    forall w : World,
      fst (time_sleep (sub_us t (mkdatetime 2024 2 28 0 0 0 0)) w) = Returned tt.
Proof.
  apply (wait_length_bounds configured (mkdatetime 2024 2 28 0 0 0 0)).
  - simpl. lia.
  - unfold valid_datetime, valid_date, valid_time, MINYEAR, MAXYEAR. simpl.
    change (days_in_month 2024 2) with 29. lia.
  - reflexivity.
  - left. simpl. lia.
Defined.

(** With an empty window every pass of [wait_until_start] sleeps again. *)
Lemma window_closed (cfg : Config) (now : datetime) :
  END_HOUR cfg <> 0 -> END_HOUR cfg <= START_HOUR cfg ->
  within_recording_window cfg now = false.
Proof.
  intros Hnz Hle. unfold within_recording_window. cbv zeta.
  destruct (Z.eqb_spec (END_HOUR cfg) 0); [contradiction|].
  apply andb_false_iff. lia.
Qed.

Lemma wait_until_start_closed (cfg : Config) (fuel : nat) (w : World) :
  (forall now, within_recording_window cfg now = false) ->
  fst (wait_until_start cfg fuel w) <> Returned tt.
Proof.
  intros Hclosed.
  revert w. induction fuel as [|fuel IH]; intros w; [discriminate|].
  cbn [wait_until_start]. unfold bind at 1, datetime_now at 1.
  rewrite Hclosed. unfold bind at 1.
  destruct (next_start cfg (clock w)) as [e|t]; cbn [lift]; [discriminate|].
  unfold ret at 1, bind at 1, print at 1, bind at 1.
  destruct (time_sleep _ _) as [[[]|e|] w1]; cbn [fst]; [apply IH|discriminate..].
Qed.

Section Supervisor.
Context (cfg : Config) (wfuel : nat) (station_name station_url : string).

Lemma wait_until_start_in_window (fuel : nat) (w w' : World) :
  wait_until_start cfg fuel w = (Returned tt, w') ->
  within_recording_window cfg (clock w') = true.
Proof.
  revert w. induction fuel as [|fuel IH]; intros w; [discriminate|].
  cbn [wait_until_start]. unfold bind at 1, datetime_now at 1.
  destruct (within_recording_window cfg (clock w)) eqn:Hwin.
  - intros [= <-]. exact Hwin.
  - unfold bind at 1. destruct (next_start cfg (clock w)) as [e|t]; cbn [lift];
      [discriminate|].
    unfold ret at 1, bind at 1, print at 1, bind at 1.
    destruct (time_sleep _ _) as [[[]|e|] w1]; [apply IH|discriminate..].
Qed.

(** Waiting moves the clock forward only and touches nothing else but
    the output. *)
Lemma wait_until_start_forward (fuel : nat) (w : World) :
  on_calendar (clock w) ->
  let w' := snd (wait_until_start cfg fuel w) in
  on_calendar (clock w') /\
  timestamp_us (clock w) <= timestamp_us (clock w') /\
  threads w' = threads w /\ station_status w' = station_status w /\ fs w' = fs w.
Proof.
  intros Hcal.
  apply (keeps_wait_until_start cfg
           (fun w' => on_calendar (clock w') /\
                      timestamp_us (clock w) <= timestamp_us (clock w') /\
                      threads w' = threads w /\ station_status w' = station_status w /\
                      fs w' = fs w)).
  - intros o w' H. exact H.
  - intros us w' Hus (Hc & Hts & Hrest).
    destruct (timestamp_add_us (clock w') us Hc Hus) as [Hc' Hts'].
    cbn. split; [exact Hc'|]. split; [lia|exact Hrest].
  - split; [exact Hcal|]. split; [lia|auto].
Qed.

Lemma record_station_loop_launched (fuel : nat) (w : World) :
  on_calendar (clock w) ->
  exists l : list Thread,
    threads (snd (record_station_loop cfg wfuel fuel station_name station_url w))
    = threads w ++ l /\
    launched cfg station_name station_url (timestamp_us (clock w)) l.
Proof.
  revert w. induction fuel as [|fuel IH]; intros w Hcal.
  - exists []. cbn. rewrite app_nil_r. split; [reflexivity|constructor].
  - (* the end of a pass, from a clock inside the window *)
    assert (Hlaunch : forall w1 : World,
      on_calendar (clock w1) -> within_recording_window cfg (clock w1) = true ->
      exists l : list Thread,
        threads (snd ((let* filename := generate_filename station_name in
                       thread_start (T_record_chunk_ffmpeg station_name station_url
                                       filename (RECORD_DURATION cfg)) >>
                       time_sleep (OVERLAP_START cfg * US_PER_SECOND) >>
                       record_station_loop cfg wfuel fuel station_name station_url) w1))
        = threads w1 ++ l /\
        launched cfg station_name station_url (timestamp_us (clock w1)) l).
    { intros w1 Hcal1 Hwin1.
      unfold generate_filename, bind, datetime_now, ret, thread_start, time_sleep.
      destruct (Z.ltb_spec (OVERLAP_START cfg * US_PER_SECOND) 0) as [Hneg|Hpos];
        cbn [snd threads with_threads clock].
      - exists [capture cfg station_name station_url (clock w1)].
        split; [reflexivity|].
        apply launched_cons; cbn [started capture];
          [reflexivity|assumption|assumption|lia|constructor].
      - set (w2 := with_clock _ _).
        destruct (timestamp_add_us (clock w1) _ Hcal1 Hpos) as [Hcal2 Hts2].
        destruct (IH w2 Hcal2) as (l & Hl & Hs).
        exists (capture cfg station_name station_url (clock w1) :: l). split.
        + destruct (record_station_loop _ _ _ _ _ w2) as [[[]|e|] w3]; cbn [snd] in *;
            rewrite Hl; cbn; now rewrite <- app_assoc.
        + change (clock w2) with (add_us (clock w1) (OVERLAP_START cfg * US_PER_SECOND))
            in Hs.
          rewrite Hts2 in Hs.
          apply launched_cons; cbn [started capture];
            [reflexivity|assumption|assumption|lia|exact Hs]. }
    cbn [record_station_loop]. unfold bind at 1, datetime_now at 1.
    unfold bind at 1.
    destruct (within_recording_window cfg (clock w)) eqn:Hwin; cbn [negb].
    + unfold ret at 1. exact (Hlaunch w Hcal Hwin).
    + unfold bind at 1.
      destruct (wait_until_start_forward wfuel w Hcal) as (Hcal1 & Hts1 & Hth1 & _).
      pose proof (wait_until_start_in_window wfuel w) as Hin.
      destruct (wait_until_start cfg wfuel w) as [[[]|e|] w1]; cbn [snd] in *.
      * unfold datetime_now at 1.
        destruct (Hlaunch w1 Hcal1 (Hin w1 eq_refl)) as (l & Hl & Hs).
        exists l. rewrite <- Hth1. split; [exact Hl|].
        clear -Hs Hts1. inversion Hs; subst; constructor; auto; lia.
      * exists []. rewrite app_nil_r. split; [assumption|constructor].
      * exists []. rewrite app_nil_r. split; [assumption|constructor].
Qed.

Lemma launched_weaken (lo lo' : Z) (l : list Thread) :
  lo' <= lo ->
  launched cfg station_name station_url lo l ->
  launched cfg station_name station_url lo' l.
Proof. intros Hle Hl. inversion Hl; subst; constructor; auto; lia. Qed.

Lemma launched_all (lo : Z) (l : list Thread) (c : Thread) :
  0 <= OVERLAP_START cfg ->
  launched cfg station_name station_url lo l -> c ∈ l ->
  c = capture cfg station_name station_url (started c) /\
  within_recording_window cfg (started c) = true /\
  lo <= timestamp_us (started c).
Proof.
  intros HS Hl. induction Hl as [lo|lo c0 l Hc Hcal Hwin Hlo Hl IH]; intros Hin.
  - inversion Hin.
  - apply elem_of_cons in Hin as [->|Hin]; [auto|].
    destruct (IH Hin) as (H1 & H2 & H3). unfold US_PER_SECOND in *.
    split; [exact H1|]. split; [exact H2|lia].
Qed.

Lemma launched_apart (lo : Z) (l : list Thread) (i j : nat) (c1 c2 : Thread) :
  0 <= OVERLAP_START cfg ->
  launched cfg station_name station_url lo l ->
  (i < j)%nat -> l !! i = Some c1 -> l !! j = Some c2 ->
  timestamp_us (started c1) + OVERLAP_START cfg * US_PER_SECOND
  <= timestamp_us (started c2).
Proof.
  intros HS Hl. revert i j.
  induction Hl as [lo|lo c0 l Hc Hcal Hwin Hlo Hl IH]; intros i j Hij H1 H2.
  - discriminate.
  - destruct j as [|j]; [lia|]. cbn in H2. destruct i as [|i].
    + injection H1 as <-.
      apply (launched_all _ l c2 HS Hl). eapply list_elem_of_lookup_2; eassumption.
    + cbn in H1. apply (IH i j); [lia|assumption..].
Qed.
End Supervisor.

Section SupervisorRuns.
Context (cfg : Config) (wfuel : nat) (station_name station_url : string).

Lemma wait_until_start_board (fuel : nat) (w : World) :
  let w' := snd (wait_until_start cfg fuel w) in
  station_status w' = station_status w /\ fs w' = fs w /\ threads w' = threads w.
Proof.
  apply (keeps_wait_until_start cfg
           (fun w' => station_status w' = station_status w /\ fs w' = fs w /\
                      threads w' = threads w)); auto.
Qed.

Lemma bind_not_returned {A B : Type} (m : M A) (k : A -> M B) (w : World) :
  (forall (a : A) (w1 : World) (b : B), fst (k a w1) <> Returned b) ->
  forall b : B, fst (bind m k w) <> Returned b.
Proof.
  intros Hk b. unfold bind. destruct (m w) as [[a|e|] w1]; [apply Hk|discriminate..].
Qed.

Lemma record_station_loop_board (fuel : nat) (w : World) :
  let r := record_station_loop cfg wfuel fuel station_name station_url w in
  fst r <> Returned tt /\
  station_status (snd r) = station_status w /\ fs (snd r) = fs w.
Proof.
  split.
  - revert w. induction fuel as [|fuel IH]; intros w; [discriminate|].
    cbn [record_station_loop].
    do 5 (apply bind_not_returned; intros ? ? ?).
    match goal with |- _ <> Returned ?u => destruct u end. apply IH.
  - apply (keeps_record_station_loop cfg
             (fun w' => station_status w' = station_status w /\ fs w' = fs w)
             (fun _ => True)); auto.
Qed.
End SupervisorRuns.

(** X7: [record_station] never returns, stores its station as offline
    once and changes [station_status] and the files in no other way: a
    station becomes online through its captures only. *)
Theorem record_station_board
    (cfg : Config) (wfuel fuel : nat) (station_name station_url : string) (w : World) :
  let r := record_station cfg wfuel fuel station_name station_url w in
  fst r <> Returned tt /\
  station_status (snd r) = dict_set station_name false (station_status w) /\
  fs (snd r) = fs w.
Proof.
  cbv zeta. unfold record_station, bind, update_station_status.
  exact (record_station_loop_board cfg wfuel station_name station_url fuel
           (with_station_status (dict_set station_name false (station_status w)) w)).
Qed.



(** X9: with [OVERLAP_START] of at least one second, two captures that one
    run of [record_station] starts (at valid timestamps) have different
    file names, hence different paths in both directories: overlapping
    captures never write to the same file. *)
Theorem record_station_filenames_distinct
    (cfg : Config) (wfuel fuel : nat) (station_name station_url : string)
    (w : World) (i j : nat) (c1 c2 : Thread) :
  on_calendar (clock w) ->
  1 <= OVERLAP_START cfg ->
  let w' := snd (record_station cfg wfuel fuel station_name station_url w) in
  (i < j)%nat ->
  threads w' !! (length (threads w) + i)%nat = Some c1 ->
  threads w' !! (length (threads w) + j)%nat = Some c2 ->
  valid_datetime (started c1) -> valid_datetime (started c2) ->
  exists f1 f2 : string,
    target c1 = T_record_chunk_ffmpeg station_name station_url f1 (RECORD_DURATION cfg) /\
    target c2 = T_record_chunk_ffmpeg station_name station_url f2 (RECORD_DURATION cfg) /\
    f1 <> f2 /\
    path_join LIVE_DIR f1 <> path_join LIVE_DIR f2 /\
    path_join REC_DIR f1 <> path_join REC_DIR f2.
Proof.
  intros Hcal HS w' Hij H1 H2 Hv1 Hv2.
  unfold w', record_station, bind, update_station_status in H1, H2.
  set (w0 := with_station_status _ w) in *.
  destruct (record_station_loop_launched cfg wfuel station_name station_url fuel w0 Hcal)
    as (l & Hl & Hs).
  change (threads w0) with (threads w) in Hl. rewrite Hl in H1, H2.
  rewrite lookup_app_r in H1, H2 by lia.
  replace (length (threads w) + i - length (threads w))%nat with i in H1 by lia.
  replace (length (threads w) + j - length (threads w))%nat with j in H2 by lia.
  assert (HS0 : 0 <= OVERLAP_START cfg) by lia.
  pose proof (launched_apart cfg station_name station_url _ l i j c1 c2 HS0 Hs Hij H1 H2)
    as Hapart.
  destruct (launched_all cfg station_name station_url _ l c1 HS0 Hs
              (list_elem_of_lookup_2 _ _ _ H1)) as (Hc1 & _).
  destruct (launched_all cfg station_name station_url _ l c2 HS0 Hs
              (list_elem_of_lookup_2 _ _ _ H2)) as (Hc2 & _).
  assert (Hne : filename_at station_name (started c1)
                <> filename_at station_name (started c2)).
  { intros Heq.
    destruct (filename_at_fields station_name _ _ Hv1 Hv2 Heq)
      as [(Hy & Hm & Hd) (Hh & Hmi & Hsec)].
    destruct Hv1 as [_ (_ & _ & _ & Hu1)], Hv2 as [_ (_ & _ & _ & Hu2)].
    unfold timestamp_us, toordinal, us_of_day, US_PER_SECOND in Hapart.
    rewrite Hy, Hm, Hd, Hh, Hmi, Hsec in Hapart. lia. }
  exists (filename_at station_name (started c1)), (filename_at station_name (started c2)).
  split; [now rewrite Hc1 at 1|]. split; [now rewrite Hc2 at 1|].
  split; [exact Hne|].
  assert (Hrel : forall t, is_absolute (filename_at station_name t) = false)
    by reflexivity.
  rewrite !path_join_relative by apply Hrel.
  split; intros Heq; apply String.app_inj in Heq; now apply String.app_inj in Heq.
Qed.

Lemma record_station_filenames_distinct_witness :
  exists f1 f2 : string,
    T_record_chunk_ffmpeg "DZMM" "http://dzmm/live" "[2024-02-28]-[23-50-00]-DZMM.mp3" 900
    = T_record_chunk_ffmpeg "DZMM" "http://dzmm/live" f1 (RECORD_DURATION configured) /\
    T_record_chunk_ffmpeg "DZMM" "http://dzmm/live" "[2024-02-29]-[05-00-00]-DZMM.mp3" 900
    = T_record_chunk_ffmpeg "DZMM" "http://dzmm/live" f2 (RECORD_DURATION configured) /\
    f1 <> f2 /\
    path_join LIVE_DIR f1 <> path_join LIVE_DIR f2 /\
    path_join REC_DIR f1 <> path_join REC_DIR f2.
Proof.
  apply (record_station_filenames_distinct configured 2 3 "DZMM" "http://dzmm/live"
           (initial_world (mkdatetime 2024 2 28 23 50 0 0) ∅) 0 1
           (mkThread (T_record_chunk_ffmpeg "DZMM" "http://dzmm/live"
                        "[2024-02-28]-[23-50-00]-DZMM.mp3" 900)
                     (mkdatetime 2024 2 28 23 50 0 0))
           (mkThread (T_record_chunk_ffmpeg "DZMM" "http://dzmm/live"
                        "[2024-02-29]-[05-00-00]-DZMM.mp3" 900)
                     (mkdatetime 2024 2 29 5 0 0 0))).
  - unfold on_calendar, valid_time. vm_compute. intuition discriminate.
  - simpl. lia.
  - lia.
  - reflexivity.
  - reflexivity.
  - unfold valid_datetime, valid_date, valid_time, MINYEAR, MAXYEAR. simpl.
    change (days_in_month 2024 2) with 29. lia.
  - unfold valid_datetime, valid_date, valid_time, MINYEAR, MAXYEAR. simpl.
    change (days_in_month 2024 2) with 29. lia.
Defined.

(** X6: with an empty window ([END_HOUR] not 0 and at most [START_HOUR])
    [wait_until_start] never returns and [record_station] starts no
    capture. *)
Theorem empty_window_never_records
    (cfg : Config) (wfuel fuel : nat) (station_name station_url : string) (w : World) :
  END_HOUR cfg <> 0 ->
  END_HOUR cfg <= START_HOUR cfg ->
  fst (wait_until_start cfg fuel w) <> Returned tt /\
  threads (snd (record_station cfg wfuel fuel station_name station_url w)) = threads w.
Proof.
  intros Hnz Hle.
  pose proof (fun now => window_closed cfg now Hnz Hle) as Hclosed.
  split; [now apply wait_until_start_closed|].
  unfold record_station, bind, update_station_status.
  set (w0 := with_station_status _ w). change (threads w) with (threads w0).
  destruct fuel as [|fuel]; [reflexivity|].
  cbn [record_station_loop]. unfold bind at 1, datetime_now at 1.
  rewrite Hclosed. cbn [negb]. unfold bind at 1, bind at 1.
  pose proof (wait_until_start_closed cfg wfuel w0 Hclosed) as Hnever.
  destruct (wait_until_start_board cfg wfuel w0) as (_ & _ & Hth).
  destruct (wait_until_start cfg wfuel w0) as [[[]|e|] w1]; cbn [fst snd] in *;
    [contradiction|exact Hth..].
Qed.

Lemma empty_window_never_records_witness :
  fst (wait_until_start (mkConfig 900 840 5 5 60) 3
         (initial_world (mkdatetime 2024 2 28 5 0 0 0) ∅)) <> Returned tt /\
  threads (snd (record_station (mkConfig 900 840 5 5 60) 3 3 "DZMM" "http://dzmm/live"
                  (initial_world (mkdatetime 2024 2 28 5 0 0 0) ∅)))
  = threads (initial_world (mkdatetime 2024 2 28 5 0 0 0) ∅).
Proof.
  apply (empty_window_never_records (mkConfig 900 840 5 5 60) 3 3 "DZMM"
           "http://dzmm/live" (initial_world (mkdatetime 2024 2 28 5 0 0 0) ∅));
    simpl; lia.
Defined.

Lemma print_status_report_run (w : World) :
  print_status_report w
  = (Returned tt, with_stdout (stdout w ++ report_lines (station_status w)) w).
Proof.
  unfold print_status_report, bind, read_station_status, print at 1 2 3 4.
  cbn [with_stdout stdout fs clock station_status threads].
  rewrite !for_each_print. unfold print. rewrite for_each_print.
  unfold with_stdout, report_lines.
  cbn [with_stdout stdout fs clock station_status threads].
  repeat rewrite <- app_assoc. reflexivity.
Qed.

Lemma length_report_lines (d : dict) : length (report_lines d) = (4 + length d)%nat.
Proof.
  unfold report_lines. cbv zeta. rewrite !length_app. cbn [length].
  pose proof (Permutation_length (online_offline_partition d)) as H.
  rewrite length_app in H. unfold dict_keys in H. rewrite !length_map in *. lia.
Qed.

(** X10: [reporting_loop] never returns and changes neither the board, the
    files nor the threads; with a non-negative interval each pass prints
    the number of stations plus four lines. *)
Theorem reporting_loop_reads_only (cfg : Config) (fuel : nat) (w : World) :
  let r := reporting_loop cfg fuel w in
  station_status (snd r) = station_status w /\
  fs (snd r) = fs w /\
  threads (snd r) = threads w /\
  fst r <> Returned tt /\
  (0 <= REPORT_INTERVAL cfg ->
   fst r = Running /\
   length (stdout (snd r))
   = (length (stdout w) + fuel * (4 + length (station_status w)))%nat).
Proof.
  cbv zeta. split; [|split; [|split; [|split]]].
  - apply (keeps_reporting_loop cfg (fun w' => station_status w' = station_status w)); auto.
  - apply (keeps_reporting_loop cfg (fun w' => fs w' = fs w)); auto.
  - apply (keeps_reporting_loop cfg (fun w' => threads w' = threads w)); auto.
  - revert w. induction fuel as [|fuel IH]; intros w; [discriminate|].
    cbn [reporting_loop]. unfold bind at 1. rewrite print_status_report_run.
    unfold bind at 1. destruct (time_sleep _ _) as [[[]|e|] w1]; cbn [fst];
      [apply IH|discriminate..].
  - intros Hpos. revert w. induction fuel as [|fuel IH]; intros w.
    + cbn. split; [reflexivity|lia].
    + assert (Hstep : reporting_loop cfg (S fuel) w
                      = reporting_loop cfg fuel
                          (with_clock
                             (add_us (clock w) (REPORT_INTERVAL cfg * US_PER_SECOND))
                             (with_stdout (stdout w ++ report_lines (station_status w))
                                          w))).
      { cbn [reporting_loop]. unfold bind. rewrite print_status_report_run.
        unfold time_sleep.
        destruct (Z.ltb_spec (REPORT_INTERVAL cfg * US_PER_SECOND) 0) as [Hneg|_];
          [unfold US_PER_SECOND in Hneg; lia|].
        cbn [clock with_stdout]. now destruct (reporting_loop cfg fuel _) as [[[]|e|] w2]. }
      rewrite Hstep. destruct (IH (with_clock
                             (add_us (clock w) (REPORT_INTERVAL cfg * US_PER_SECOND))
                             (with_stdout (stdout w ++ report_lines (station_status w))
                                          w))) as [Hr Hlen].
      split; [exact Hr|]. rewrite Hlen.
      cbn [stdout station_status with_clock with_stdout].
      rewrite length_app, length_report_lines. lia.
Qed.

Lemma reporting_loop_reads_only_witness :
  fst (reporting_loop configured 3
         (mkWorld (mkdatetime 2024 2 28 5 0 0 0) ∅ [("A", true); ("B", false)] [] []))
  = Running /\
  length (stdout (snd (reporting_loop configured 3
         (mkWorld (mkdatetime 2024 2 28 5 0 0 0) ∅ [("A", true); ("B", false)] [] []))))
  = (0 + 3 * (4 + 2))%nat.
Proof.
  apply (proj2 (proj2 (proj2 (proj2 (reporting_loop_reads_only configured 3
           (mkWorld (mkdatetime 2024 2 28 5 0 0 0) ∅ [("A", true); ("B", false)]
                    [] [])))))).
  simpl. lia.
Defined.


Lemma dict_keys_set_present (k : string) (v : bool) (d : dict) :
  k ∈ dict_keys d -> dict_keys (dict_set k v d) = dict_keys d.
Proof. intros Hin. rewrite dict_keys_set. now rewrite bool_decide_true. Qed.

Lemma dict_keys_fold_fresh (l : list (string * string)) (d : dict) :
  NoDup (map fst l) ->
  (forall k, k ∈ map fst l -> k ∉ dict_keys d) ->
  dict_keys (fold_left (fun d st => dict_set (fst st) false d) l d)
  = dict_keys d ++ map fst l.
Proof.
  revert d. induction l as [|st l IH]; intros d Hnd Hfresh; cbn [fold_left map].
  - now rewrite app_nil_r.
  - apply NoDup_cons in Hnd as [Hnotin Hnd].
    rewrite IH; [|exact Hnd|].
    + rewrite dict_keys_set, bool_decide_false; [now rewrite <- app_assoc|].
      apply Hfresh. left.
    + intros k Hk Hin. apply elem_of_dict_keys_set in Hin as [->|Hin].
      * contradiction.
      * apply (Hfresh k); [now right|assumption].
Qed.

Section KeyOrder.
Context (cfg : Config) (env : Env) (stations : list (string * string)).

Let ordered := board_ordered stations.

Lemma key_order_step (keys : list string) (w w' : World) :
  step cfg env w w' -> ordered keys w -> ordered keys w'.
Proof.
  intros Hstep Hord.
  assert (Hstatus : forall n b w0, n ∈ map fst stations -> ordered keys w0 ->
            ordered keys (with_station_status (dict_set n b (station_status w0)) w0)).
  { intros n b w0 Hn [(Hk & Hnd & Hth) Hkeys]. split; [split; [|split]|]; cbn.
    - intros k. rewrite elem_of_dict_keys_set, Hk. split; [|now right].
      now intros [->|H].
    - now apply NoDup_dict_keys_set.
    - exact Hth.
    - rewrite dict_keys_set_present; [exact Hkeys|]. now apply Hk. }
  assert (Hthread : forall n u f d w0, n ∈ map fst stations -> ordered keys w0 ->
            ordered keys
              (with_threads
                 (threads w0 ++ [mkThread (T_record_chunk_ffmpeg n u f d) (clock w0)])
                 w0)).
  { intros n u f d w0 Hn [(Hk & Hnd & Hth) Hkeys]. split; [split; [|split]|]; cbn; auto.
    intros th n' Hin Hst. apply elem_of_app in Hin as [Hin|Hin]; [eauto|].
    apply list_elem_of_singleton in Hin. subst th. cbn in Hst. congruence. }
  destruct Hstep as [th wfuel fuel w Hin | th n b w Hin Hst].
  - pose proof (proj2 (proj2 (proj1 Hord)) th) as Hname.
    destruct (target th) as [|n u|n u f d]; cbn [run_target].
    + apply (keeps_reporting_loop cfg (ordered keys)); auto.
    + apply (keeps_record_station cfg (ordered keys) (fun n => n ∈ map fst stations));
        auto.
    + apply (keeps_record_chunk_ffmpeg env (ordered keys)
               (fun n => n ∈ map fst stations)); auto.
  - cbn [snd update_station_status]. apply Hstatus; [|exact Hord].
    destruct Hord as [(_ & _ & Hth) _]. eauto.
Qed.

Lemma key_order_reachable (now : datetime) (files : gmap string N) (w : World) :
  reachable cfg env stations now files w ->
  dict_keys (station_status w)
  = dict_keys (station_status (snd (main stations (initial_world now files)))).
Proof.
  unfold reachable. intros Hr.
  refine (proj2 (rtc_ind_r (ordered (dict_keys (station_status
            (snd (main stations (initial_world now files)))))) _ _ _ w Hr)).
  - split; [apply status_board_ok_main|reflexivity].
  - intros w1 w2 _ Hstep Hok. now apply (key_order_step _ w1).
Qed.
End KeyOrder.

Lemma filter_ext_elem {A : Type} (P Q : A -> Prop)
      `{!forall x, Decision (P x)} `{!forall x, Decision (Q x)} (l : list A) :
  (forall x, x ∈ l -> P x <-> Q x) -> filter P l = filter Q l.
Proof.
  induction l as [|x l IH]; intros Hext; [reflexivity|].
  rewrite !filter_cons.
  assert (Hx : P x <-> Q x) by (apply Hext; left).
  rewrite IH by (intros y Hy; apply Hext; now right).
  destruct (decide (P x)), (decide (Q x)); tauto.
Qed.

(** The names stored with the status [b], in the order of the keys. *)
Lemma names_by_status (b : bool) (d : dict) :
  NoDup (dict_keys d) ->
  map fst (filter (fun kv => snd kv = b) d)
  = filter (fun n => dict_get n d = Some b) (dict_keys d).
Proof.
  unfold dict_keys. induction d as [|[k v] d IH]; intros Hnd; [reflexivity|].
  cbn [map fst] in Hnd. apply NoDup_cons in Hnd as [Hnotin Hnd].
  cbn [map fst]. rewrite !filter_cons. cbn [snd dict_get]. rewrite String.eqb_refl.
  rewrite (filter_ext_elem (fun n => dict_get n ((k, v) :: d) = Some b)
                           (fun n => dict_get n d = Some b) (map fst d)).
  - rewrite <- (IH Hnd).
    destruct (decide (v = b)), (decide (Some v = Some b)); try congruence; reflexivity.
  - intros n Hn. cbn [dict_get].
    destruct (String.eqb_spec k n) as [->|Hne]; [contradiction|reflexivity].
Qed.

(** X12: the order of the keys of [station_status] never changes once
    [main] has run.  For station names without repetition the keys are the
    names in the order of the station list in every reachable world, and
    the report lists the online and the offline stations in that
    order. *)
Theorem station_status_key_order
    (cfg : Config) (env : Env) (stations : list (string * string))
    (now : datetime) (files : gmap string N) (w : World) :
  reachable cfg env stations now files w ->
  dict_keys (station_status w)
  = dict_keys (station_status (snd (main stations (initial_world now files)))) /\
  (NoDup (map fst stations) ->
   dict_keys (station_status w) = map fst stations /\
   stdout (snd (print_status_report w))
   = stdout w
     ++ ["===";
         "Online Radios: "
           +:+ pretty (length (filter (fun n => dict_get n (station_status w) = Some true)
                                      (map fst stations)))
           +:+ "/" +:+ pretty (length stations)]
     ++ filter (fun n => dict_get n (station_status w) = Some true) (map fst stations)
     ++ [""; "Offline Radios: "
           +:+ pretty (length (filter (fun n => dict_get n (station_status w) = Some false)
                                      (map fst stations)))
           +:+ "/" +:+ pretty (length stations)]
     ++ filter (fun n => dict_get n (station_status w) = Some false) (map fst stations)).
Proof.
  intros Hr.
  pose proof (key_order_reachable cfg env stations now files w Hr) as Hkeys.
  split; [exact Hkeys|]. intros Hnd.
  assert (Hk : dict_keys (station_status w) = map fst stations).
  { rewrite Hkeys, main_run. cbn [snd station_status initial_world].
    rewrite dict_keys_fold_fresh; [reflexivity|exact Hnd|].
    intros k _ Hin. inversion Hin. }
  split; [exact Hk|].
  rewrite print_status_report_run. cbn [snd stdout with_stdout]. unfold report_lines.
  assert (Hnd' : NoDup (dict_keys (station_status w))) by now rewrite Hk.
  rewrite !names_by_status by exact Hnd'. rewrite Hk.
  replace (length (station_status w)) with (length stations); [reflexivity|].
  apply (f_equal length) in Hk. unfold dict_keys in Hk. now rewrite !length_map in Hk.
Qed.

Lemma station_status_key_order_witness :
  let stations := [("DZMM", "http://dzmm/live"); ("DZRH", "http://dzrh/live")] in
  let w0 := snd (main stations (initial_world (mkdatetime 2024 2 28 5 0 0 0) ∅)) in
  let w := snd (record_chunk_ffmpeg (env_capture 500000 None) "DZRH" "http://dzrh/live"
                  "[2024-02-28]-[05-00-00]-DZRH.mp3" 900
                  (snd (record_station configured 1 1 "DZRH" "http://dzrh/live" w0))) in
  dict_keys (station_status w) = ["DZMM"; "DZRH"] /\
  stdout (snd (print_status_report w))
  = stdout w ++ ["==="; "Online Radios: 1/2"; "DZRH"; ""; "Offline Radios: 1/2"; "DZMM"].
Proof.
  intros stations w0 w.
  refine (proj2 (station_status_key_order configured (env_capture 500000 None)
                   stations (mkdatetime 2024 2 28 5 0 0 0) ∅ w _) _).
  - unfold reachable. fold w0.
    eapply rtc_l.
    { apply (step_run configured (env_capture 500000 None)
               (mkThread (T_record_station "DZRH" "http://dzrh/live")
                         (mkdatetime 2024 2 28 5 0 0 0)) 1 1 w0).
      apply (list_elem_of_lookup_2 _ 2%nat). reflexivity. }
    eapply rtc_l; [|apply rtc_refl].
    apply (step_run configured (env_capture 500000 None)
             (mkThread (T_record_chunk_ffmpeg "DZRH" "http://dzrh/live"
                          "[2024-02-28]-[05-00-00]-DZRH.mp3" 900)
                       (mkdatetime 2024 2 28 5 0 0 0)) 0 0).
    apply (list_elem_of_lookup_2 _ 3%nat). reflexivity.
  - apply (bool_decide_unpack _). reflexivity.
Defined.

Lemma append_cancel_r (a b t : string) : a +:+ t = b +:+ t -> a = b.
Proof.
  intros H.
  assert (Hlen : String.length a = String.length b).
  { apply (f_equal String.length) in H. rewrite !length_append in H. lia. }
  now destruct (append_inj_length a b t t Hlen H).
Qed.

Lemma length_map_string (f : ascii -> ascii) (s : string) :
  String.length (map_string f s) = String.length s.
Proof. induction s as [|c s IH]; simpl; [reflexivity|]. now rewrite IH. Qed.

Lemma safe_name_fixed (s : string) :
  string_forallb is_safe s = true -> safe_name s = s.
Proof.
  induction s as [|c s IH]; intros H; [reflexivity|].
  cbn [string_forallb] in H. apply andb_true_iff in H as [Hc Hs].
  unfold safe_name in *. cbn [map_string]. rewrite (IH Hs).
  unfold is_safe in Hc. now rewrite Hc.
Qed.

(** X13: sanitising a name twice is sanitising it once, the length is
    kept, a name without unsafe characters is kept as it is, and two
    stations get the same file name at the same time exactly when their
    sanitised names are equal. *)
Theorem safe_name_laws (s : string) :
  safe_name (safe_name s) = safe_name s /\
  String.length (safe_name s) = String.length s /\
  (string_forallb is_safe s = true -> safe_name s = s) /\
  (forall (s' : string) (now : datetime),
     filename_at s now = filename_at s' now <-> safe_name s = safe_name s').
Proof.
  split; [|split; [|split]].
  - apply safe_name_fixed, safe_safe_name.
  - apply length_map_string.
  - apply safe_name_fixed.
  - intros s' now. unfold filename_at. cbv zeta. split.
    + intros H. do 5 apply String.app_inj in H. now apply append_cancel_r in H.
    + now intros ->.
Qed.

Lemma safe_name_laws_witness : safe_name "DZMM 630" = "DZMM 630".
Proof.
  apply (proj1 (proj2 (proj2 (safe_name_laws "DZMM 630")))). reflexivity.
Defined.

Lemma Returned_inj {A : Type} (a b : A) : Returned a = Returned b -> a = b.
Proof. now intros [= ->]. Qed.

(** X14: [current_time_str] returns eight characters read off the clock,
    changes nothing, and on valid timestamps its result determines hour,
    minute and second. *)
Theorem current_time_str_reads_clock (w : World) :
  current_time_str w = (Returned (strftime_time ":" (clock w)), w) /\
  String.length (strftime_time ":" (clock w)) = 8%nat /\
  (forall w2 : World,
     valid_datetime (clock w) -> valid_datetime (clock w2) ->
     fst (current_time_str w) = fst (current_time_str w2) ->
     hour (clock w) = hour (clock w2) /\ minute (clock w) = minute (clock w2) /\
     second (clock w) = second (clock w2)).
Proof.
  split; [reflexivity|]. split; [now rewrite length_strftime_time|].
  intros w2 H1 H2 Heq.
  apply (Returned_inj (strftime_time ":" (clock w)) (strftime_time ":" (clock w2)))
    in Heq.
  apply (strftime_time_inj ":"); [assumption..|]. now rewrite Heq.
Qed.

Lemma current_time_str_reads_clock_witness :
  hour (clock (initial_world (mkdatetime 2024 2 28 5 7 9 0) ∅))
  = hour (clock (initial_world (mkdatetime 2025 1 1 5 7 9 5) ∅)) /\
  minute (clock (initial_world (mkdatetime 2024 2 28 5 7 9 0) ∅))
  = minute (clock (initial_world (mkdatetime 2025 1 1 5 7 9 5) ∅)) /\
  second (clock (initial_world (mkdatetime 2024 2 28 5 7 9 0) ∅))
  = second (clock (initial_world (mkdatetime 2025 1 1 5 7 9 5) ∅)).
Proof.
  apply (proj2 (proj2 (current_time_str_reads_clock
                         (initial_world (mkdatetime 2024 2 28 5 7 9 0) ∅)))
           (initial_world (mkdatetime 2025 1 1 5 7 9 5) ∅)).
  - unfold valid_datetime, valid_date, valid_time, MINYEAR, MAXYEAR; simpl.
    change (days_in_month 2024 2) with 29. lia.
  - unfold valid_datetime, valid_date, valid_time, MINYEAR, MAXYEAR; simpl.
    change (days_in_month 2025 1) with 31. lia.
  - reflexivity.
Defined.

Lemma stations_at_pairs (pre l : list string) (m : nat) :
  length l = (2 * m)%nat ->
  stations_at (pre ++ l) (map (fun k => (length pre + 2 * k)%nat) (seq 0 m))
  = Some (pairs l).
Proof.
  revert pre l. induction m as [|m IH]; intros pre l Hlen.
  - destruct l; [reflexivity|discriminate].
  - destruct l as [|a [|b l]]; try (cbn in Hlen; lia).
    cbn [seq map stations_at pairs].
    replace (length pre + 2 * 0)%nat with (length pre) by lia.
    rewrite lookup_app_r by lia. rewrite Nat.sub_diag. cbn [lookup list_lookup].
    rewrite lookup_app_r by lia.
    replace (length pre + 1 - length pre)%nat with 1%nat by lia. cbn [lookup list_lookup].
    rewrite <- seq_shift, map_map.
    specialize (IH (pre ++ [a; b]) l ltac:(cbn in Hlen; lia)).
    rewrite <- app_assoc in IH. cbn [app] in IH.
    erewrite map_ext; [rewrite IH; reflexivity|].
    intros k. cbn beta. rewrite length_app. cbn. lia.
Qed.

Lemma stations_at_odd (pre l : list string) (m : nat) :
  length l = (2 * m + 1)%nat ->
  stations_at (pre ++ l) (map (fun k => (length pre + 2 * k)%nat) (seq 0 (S m)))
  = None.
Proof.
  revert pre l. induction m as [|m IH]; intros pre l Hlen.
  - destruct l as [|a [|b l]]; try (cbn in Hlen; lia).
    cbn [seq map stations_at].
    replace (length pre + 2 * 0)%nat with (length pre) by lia.
    rewrite lookup_app_r by lia. rewrite Nat.sub_diag. cbn [lookup list_lookup].
    rewrite lookup_ge_None_2; [reflexivity|]. rewrite length_app. cbn. lia.
  - destruct l as [|a [|b l]]; try (cbn in Hlen; lia).
    remember (S m) as m1. cbn [seq map stations_at].
    replace (length pre + 2 * 0)%nat with (length pre) by lia.
    rewrite lookup_app_r by lia. rewrite Nat.sub_diag. cbn [lookup list_lookup].
    rewrite lookup_app_r by lia.
    replace (length pre + 1 - length pre)%nat with 1%nat by lia. cbn [lookup list_lookup].
    rewrite <- seq_shift, map_map.
    specialize (IH (pre ++ [a; b]) l ltac:(cbn in Hlen; lia)).
    rewrite <- app_assoc in IH. cbn [app] in IH. subst m1.
    erewrite map_ext; [rewrite IH; reflexivity|].
    intros k. cbn beta. rewrite length_app. cbn. lia.
Qed.

Lemma div2_double (m : nat) : Nat.div2 (S (2 * m)) = m /\ Nat.div2 (S (2 * m + 1)) = S m.
Proof.
  split.
  - replace (S (2 * m)) with (S (2 * m))%nat by lia. apply Nat.div2_succ_double.
  - replace (S (2 * m + 1)) with (2 * S m)%nat by lia. apply Nat.div2_double.
Qed.

Lemma flat_pairs (l : list string) (m : nat) :
  length l = (2 * m)%nat ->
  flat_map (fun st => [fst st; snd st]) (pairs l) = l /\ length (pairs l) = m.
Proof.
  revert l. induction m as [|m IH]; intros l Hlen.
  - destruct l; [auto|discriminate].
  - destruct l as [|a [|b l]]; try (cbn in Hlen; lia).
    destruct (IH l ltac:(cbn in Hlen; lia)) as [Hf Hl].
    cbn [pairs flat_map fst snd app length]. now rewrite Hf, Hl.
Qed.

Lemma stations_at_range_by_2 (lines : list string) :
  stations_at lines (range_by_2 (length lines))
  = if Nat.even (length lines) then Some (pairs lines) else None.
Proof.
  unfold range_by_2.
  destruct (Nat.even (length lines)) eqn:E.
  - apply Nat.even_spec in E as [m Hm]. rewrite Hm.
    rewrite (proj1 (div2_double m)).
    exact (stations_at_pairs [] lines m Hm).
  - assert (Hodd : Nat.odd (length lines) = true)
      by (rewrite <- Nat.negb_even, E; reflexivity).
    apply Nat.odd_spec in Hodd as [m Hm]. rewrite Hm.
    rewrite (proj2 (div2_double m)).
    exact (stations_at_odd [] lines m Hm).
Qed.

Lemma even_mod_2 (n : nat) : (n mod 2 =? 0)%nat = Nat.even n.
Proof.
  destruct (Nat.even n) eqn:E.
  - apply Nat.even_spec in E as [m ->]. apply Nat.eqb_eq.
    rewrite Nat.mul_comm. apply Nat.Div0.mod_mul.
  - apply Nat.eqb_neq. intros H. apply Nat.Div0.mod_divides in H as [m Hm].
    assert (Nat.even n = true) by (apply Nat.even_spec; now exists m). congruence.
Qed.

(** X15: on an even number of lines the loop over
    [range(0, len(lines), 2)] reads no index past the end and returns the
    lines two by two, in order; on an odd number it would raise
    [IndexError]. *)
Theorem stations_at_range (lines : list string) :
  (Nat.even (length lines) = true ->
   exists stations : list (string * string),
     stations_at lines (range_by_2 (length lines)) = Some stations /\
     flat_map (fun st => [fst st; snd st]) stations = lines /\
     (2 * length stations)%nat = length lines) /\
  (Nat.even (length lines) = false ->
   stations_at lines (range_by_2 (length lines)) = None).
Proof.
  rewrite stations_at_range_by_2. split; intros E; rewrite E; [|reflexivity].
  apply Nat.even_spec in E as [m Hm].
  destruct (flat_pairs lines m Hm) as [Hf Hl].
  exists (pairs lines). rewrite Hl. auto.
Qed.

Lemma stations_at_range_witness :
  exists stations : list (string * string),
    stations_at ["DZMM"; "http://dzmm/live"; "DZRH"; "http://dzrh/live"]
                (range_by_2 4) = Some stations /\
    flat_map (fun st => [fst st; snd st]) stations
    = ["DZMM"; "http://dzmm/live"; "DZRH"; "http://dzrh/live"] /\
    (2 * length stations)%nat = 4%nat.
Proof.
  apply (proj1 (stations_at_range ["DZMM"; "http://dzmm/live"; "DZRH"; "http://dzrh/live"])).
  reflexivity.
Defined.

(** One pass on lines that could be read. *)
Lemma load_attempt_lines (filename : string) (raw : list string) :
  let lines := map str_strip (filter (fun line => str_strip line <> "") raw) in
  load_attempt filename (inr raw)
  = if (2 <=? length lines)%nat && Nat.even (length lines)
    then Loaded (pairs lines)
    else Retry ("Error: '" +:+ filename +:+ "' not properly formatted. Retrying in 60s...").
Proof.
  intros lines. unfold load_attempt. fold lines.
  rewrite stations_at_range_by_2, even_mod_2.
  destruct (Nat.ltb_spec (length lines) 2) as [Hlt|Hge].
  - cbn [orb]. destruct (Nat.leb_spec 2 (length lines)); [lia|reflexivity].
  - cbn [orb]. destruct (Nat.leb_spec 2 (length lines)); [|lia]. cbn [andb].
    destruct (Nat.even (length lines)); cbn [negb]; [|reflexivity].
    destruct lines as [|a [|b l]]; cbn in Hge; try lia. reflexivity.
Qed.

(** Induction on a list two elements at a time. *)
Lemma list_ind_2 {A : Type} (P : list A -> Prop) :
  P [] -> (forall a, P [a]) -> (forall a b l, P l -> P (a :: b :: l)) ->
  forall l, P l.
Proof.
  intros H0 H1 H2 l.
  assert (H : P l /\ forall a, P (a :: l)).
  { induction l as [|b l [IH IH']]; [auto|]. split; [apply IH'|]. intros a. now apply H2. }
  apply H.
Qed.

Lemma elem_of_pairs (name url : string) (lines : list string) :
  (name, url) ∈ pairs lines -> name ∈ lines /\ url ∈ lines.
Proof.
  induction lines as [|a|a b l IH] using list_ind_2; cbn [pairs]; intros Hin.
  - inversion Hin.
  - inversion Hin.
  - apply elem_of_cons in Hin as [[= -> ->]|Hin].
    + split; [left|right; left].
    + destruct (IH Hin). split; right; now right.
Qed.

(** X16: a pass of [load_stations] returns a station list exactly when the
    file could be read and has an even number, at least two, of lines that
    are not blank; the list is then those lines, stripped, taken in pairs
    of name and URL. *)
Theorem load_attempt_loaded
    (filename : string) (r : Exn + list string) (stations : list (string * string)) :
  load_attempt filename r = Loaded stations <->
  exists raw : list string,
    r = inr raw /\
    let lines := map str_strip (filter (fun line => str_strip line <> "") raw) in
    (2 <= length lines)%nat /\
    (2 * length stations)%nat = length lines /\
    flat_map (fun st => [fst st; snd st]) stations = lines.
Proof.
  split.
  - destruct r as [e|raw]; [destruct e; discriminate|].
    rewrite load_attempt_lines. cbv zeta.
    set (lines := map str_strip _).
    destruct (Nat.leb_spec 2 (length lines)) as [Hge|]; [|discriminate]. cbn [andb].
    destruct (Nat.even (length lines)) eqn:E; [|discriminate].
    intros [= <-]. exists raw. split; [reflexivity|]. fold lines.
    apply Nat.even_spec in E as [m Hm].
    destruct (flat_pairs lines m Hm) as [Hf Hl]. rewrite Hl. auto.
  - intros (raw & -> & Hge & Hlen & Hflat). rewrite load_attempt_lines. cbv zeta.
    set (lines := map str_strip _) in *.
    destruct (Nat.leb_spec 2 (length lines)); [|lia]. cbn [andb].
    assert (E : Nat.even (length lines) = true)
      by (apply Nat.even_spec; exists (length stations); lia).
    rewrite E. f_equal.
    apply Nat.even_spec in E as [m Hm].
    destruct (flat_pairs lines m Hm) as [Hf Hl].
    clear -Hflat. rewrite <- Hflat. clear Hflat.
    induction stations as [|[n u] stations IH]; [reflexivity|].
    cbn [flat_map fst snd app pairs]. now rewrite IH.
Qed.

(** X17: a station list that [load_stations] returns is not empty, and
    every name and URL in it is the non-empty stripped text of a line of
    the file. *)
Theorem load_attempt_stations
    (filename : string) (r : Exn + list string) (stations : list (string * string)) :
  load_attempt filename r = Loaded stations ->
  stations <> [] /\
  exists raw : list string,
    r = inr raw /\
    forall name url : string,
      (name, url) ∈ stations ->
      name <> "" /\ url <> "" /\
      (exists line, line ∈ raw /\ name = str_strip line) /\
      (exists line, line ∈ raw /\ url = str_strip line).
Proof.
  destruct r as [e|raw]; [destruct e; discriminate|].
  rewrite load_attempt_lines. cbv zeta.
  set (lines := map str_strip _).
  destruct (Nat.leb_spec 2 (length lines)) as [Hge|]; [|discriminate]. cbn [andb].
  destruct (Nat.even (length lines)); [|discriminate].
  intros [= <-]. split.
  - destruct lines as [|a [|b l]]; cbn in Hge; try lia. discriminate.
  - exists raw. split; [reflexivity|]. intros name url Hin.
    assert (Hline : forall x, x ∈ lines ->
              x <> "" /\ exists line, line ∈ raw /\ x = str_strip line).
    { intros x Hx. apply list_elem_of_fmap in Hx as (line & -> & Hl).
      apply list_elem_of_filter in Hl as [Hne Hl]. eauto. }
    destruct (elem_of_pairs name url lines Hin) as [Hn Hu].
    destruct (Hline name Hn) as [? ?], (Hline url Hu) as [? ?]. auto.
Qed.

Lemma load_attempt_stations_witness :
  [("DZMM", "http://dzmm/live")] <> [] /\
  exists raw : list string,
    (inr [" DZMM "; ""; "http://dzmm/live"] : Exn + list string) = inr raw /\
    forall name url : string,
      (name, url) ∈ [("DZMM", "http://dzmm/live")] ->
      name <> "" /\ url <> "" /\
      (exists line, line ∈ raw /\ name = str_strip line) /\
      (exists line, line ∈ raw /\ url = str_strip line).
Proof.
  apply (load_attempt_stations STREAM_LIST_FILE
           (inr [" DZMM "; ""; "http://dzmm/live"]) [("DZMM", "http://dzmm/live")]).
  reflexivity.
Defined.



Section LoadingRuns.
Context (read_lines : string -> datetime -> Exn + list string) (filename : string).

Lemma load_stations_pass (fuel : nat) (w : World) :
  load_stations read_lines (S fuel) filename w
  = match load_attempt filename (read_lines filename (clock w)) with
    | Loaded stations => (Returned stations, w)
    | Retry message =>
        load_stations read_lines fuel filename
          (with_clock (add_us (clock w) (60 * US_PER_SECOND))
                      (with_stdout (stdout w ++ [message]) w))
    end.
Proof.
  cbn [load_stations]. unfold bind at 1, datetime_now at 1.
  destruct (load_attempt filename (read_lines filename (clock w))) as [st|msg];
    [reflexivity|].
  unfold bind, print, time_sleep.
  change (60 * US_PER_SECOND <? 0) with false. cbv beta iota.
  cbn [clock with_stdout].
  now destruct (load_stations read_lines fuel filename _) as [[st|e|] w1].
Qed.

Lemma load_stations_account (fuel : nat) (w : World) :
  let r := load_stations read_lines fuel filename w in
  fs (snd r) = fs w /\ station_status (snd r) = station_status w /\
  threads (snd r) = threads w /\
  exists n : nat,
    (n <= fuel)%nat /\
    length (stdout (snd r)) = (length (stdout w) + n)%nat /\
    clock (snd r) = Nat.iter n (fun t => add_us t (60 * US_PER_SECOND)) (clock w) /\
    match fst r with
    | Returned stations =>
        (n < fuel)%nat /\
        load_attempt filename (read_lines filename (clock (snd r))) = Loaded stations
    | Raised _ => False
    | Running => n = fuel
    end.
Proof.
  cbv zeta. revert w. induction fuel as [|fuel IH]; intros w.
  - cbn. do 3 (split; [reflexivity|]). exists 0%nat. cbn. auto.
  - rewrite load_stations_pass.
    destruct (load_attempt filename (read_lines filename (clock w))) as [st|msg] eqn:E.
    + cbn [fst snd]. do 3 (split; [reflexivity|]). exists 0%nat. cbn.
      split; [lia|]. split; [lia|]. split; [reflexivity|]. split; [lia|exact E].
    + destruct (IH (with_clock (add_us (clock w) (60 * US_PER_SECOND))
                               (with_stdout (stdout w ++ [msg]) w)))
        as (Hf & Hs & Ht & n & Hn & Hlen & Hclock & Hres).
      split; [exact Hf|]. split; [exact Hs|]. split; [exact Ht|].
      exists (S n). split; [lia|]. split.
      { rewrite Hlen. cbn. rewrite length_app. cbn. lia. }
      split; [rewrite Hclock; cbn [clock with_clock]; now rewrite Nat.iter_succ_r|].
      destruct (fst (load_stations _ _ _ _)); [|exact Hres|lia].
      destruct Hres. split; [lia|assumption].
Qed.
End LoadingRuns.

Lemma timestamp_retry_clock (t : datetime) (n : nat) :
  on_calendar t ->
  on_calendar (retry_clock t n) /\
  timestamp_us (retry_clock t n) = timestamp_us t + Z.of_nat n * (60 * US_PER_SECOND).
Proof.
  intros Hcal. unfold retry_clock. induction n as [|n [IHc IHt]].
  - cbn. split; [assumption|lia].
  - rewrite Nat.iter_succ.
    destruct (timestamp_add_us _ (60 * US_PER_SECOND) IHc) as [Hc Ht];
      [unfold US_PER_SECOND; lia|].
    split; [exact Hc|]. rewrite Ht, IHt. lia.
Qed.

Lemma load_attempt_nonempty
    (filename : string) (r : Exn + list string) (stations : list (string * string)) :
  load_attempt filename r = Loaded stations -> stations <> [].
Proof.
  destruct r as [e|raw]; [destruct e; discriminate|].
  rewrite load_attempt_lines. cbv zeta.
  set (lines := map str_strip _).
  destruct (Nat.leb_spec 2 (length lines)) as [Hge|]; [|discriminate]. cbn [andb].
  destruct (Nat.even (length lines)); [|discriminate].
  intros [= <-]. destruct lines as [|a [|b l]]; cbn in Hge; try lia. discriminate.
Qed.

(** X19: [load_stations] never raises and changes neither files, board
    nor threads; when it has made [n] failed tries it has printed [n] lines
    and slept [n] times 60 seconds, and what it returns is a non-empty
    list loaded from the file as it is at the time of return. *)
Theorem load_stations_retries
    (read_lines : string -> datetime -> Exn + list string) (filename : string)
    (fuel : nat) (w : World) :
  let r := load_stations read_lines fuel filename w in
  (forall e : Exn, fst r <> Raised e) /\
  fs (snd r) = fs w /\ station_status (snd r) = station_status w /\
  threads (snd r) = threads w /\
  exists n : nat,
    (n <= fuel)%nat /\
    length (stdout (snd r)) = (length (stdout w) + n)%nat /\
    clock (snd r) = retry_clock (clock w) n /\
    (on_calendar (clock w) ->
     timestamp_us (clock (snd r))
     = timestamp_us (clock w) + Z.of_nat n * (60 * US_PER_SECOND)) /\
    (fst r = Running -> n = fuel) /\
    (forall stations, fst r = Returned stations ->
       stations <> [] /\
       load_attempt filename (read_lines filename (clock (snd r))) = Loaded stations).
Proof.
  cbv zeta.
  destruct (load_stations_account read_lines filename fuel w)
    as (Hf & Hs & Ht & n & Hn & Hlen & Hclock & Hres).
  split; [|split; [exact Hf|split; [exact Hs|split; [exact Ht|]]]].
  - intros e He. now rewrite He in Hres.
  - exists n. split; [exact Hn|]. split; [exact Hlen|]. split; [exact Hclock|].
    split; [|split].
    + intros Hcal. rewrite Hclock. now apply timestamp_retry_clock.
    + intros Hr. now rewrite Hr in Hres.
    + intros stations Hr. rewrite Hr in Hres. destruct Hres as [_ Hl].
      split; [|exact Hl].
      exact (load_attempt_nonempty _ _ _ Hl).
Qed.

(** X20: when the file is bad at the first [n] tries (60 seconds apart) and
    good at the next one, [load_stations] with more than [n] passes of fuel
    returns the list of that try, [n] lines and [n] sleeps later. *)
Theorem load_stations_returns
    (read_lines : string -> datetime -> Exn + list string) (filename : string)
    (n fuel : nat) (w : World) (stations : list (string * string)) :
  (forall i : nat, (i < n)%nat ->
     exists message : string,
       load_attempt filename (read_lines filename (retry_clock (clock w) i))
       = Retry message) ->
  load_attempt filename (read_lines filename (retry_clock (clock w) n))
  = Loaded stations ->
  (n < fuel)%nat ->
  exists w' : World,
    load_stations read_lines fuel filename w = (Returned stations, w') /\
    clock w' = retry_clock (clock w) n /\
    length (stdout w') = (length (stdout w) + n)%nat.
Proof.
  revert fuel w. induction n as [|n IH]; intros fuel w Hbad Hgood Hfuel.
  - destruct fuel as [|fuel]; [lia|]. rewrite load_stations_pass.
    cbn in Hgood. rewrite Hgood. exists w. cbn. split; [reflexivity|]. split; [auto|lia].
  - destruct fuel as [|fuel]; [lia|]. rewrite load_stations_pass.
    destruct (Hbad 0%nat ltac:(lia)) as [msg Hmsg]. cbn in Hmsg. rewrite Hmsg.
    set (w1 := with_clock _ _).
    assert (Hshift : forall i, retry_clock (clock w1) i = retry_clock (clock w) (S i)).
    { intros i. unfold retry_clock. now rewrite Nat.iter_succ_r. }
    destruct (IH fuel w1) as (w' & Hrun & Hclock & Hlen).
    + intros i Hi. rewrite Hshift. apply Hbad. lia.
    + now rewrite Hshift.
    + lia.
    + exists w'. split; [exact Hrun|]. split; [now rewrite Hclock, Hshift|].
      rewrite Hlen. cbn. rewrite length_app. cbn. lia.
Qed.

Lemma load_stations_returns_witness :
  let read_lines := fun (_ : string) (t : datetime) =>
    if minute t <? 2 then inl (FileNotFoundError "00-streamlist.txt")
    else inr ["DZMM"; "http://dzmm/live"] : Exn + list string in
  exists w' : World,
    load_stations read_lines 5 STREAM_LIST_FILE
                  (initial_world (mkdatetime 2024 2 28 5 0 0 0) ∅)
    = (Returned [("DZMM", "http://dzmm/live")], w') /\
    clock w' = retry_clock (mkdatetime 2024 2 28 5 0 0 0) 2 /\
    length (stdout w') = (0 + 2)%nat.
Proof.
  intros read_lines.
  apply (load_stations_returns read_lines STREAM_LIST_FILE 2 5
           (initial_world (mkdatetime 2024 2 28 5 0 0 0) ∅)).
  - intros i Hi. assert (Hc : i = 0%nat \/ i = 1%nat) by lia.
    destruct Hc as [->| ->]; eexists; reflexivity.
  - reflexivity.
  - lia.
Defined.

(** X21: when the whole of [main] returns, a non-empty station list was
    loaded, the reporter and at least one supervisor have been started
    (one per entry, all at the time of loading) and every listed station
    is stored as offline. *)
Theorem main_script_started
    (read_lines : string -> datetime -> Exn + list string) (fuel : nat) (w w' : World) :
  main_script read_lines fuel w = (Returned tt, w') ->
  exists (stations : list (string * string)) (n : nat),
    stations <> [] /\
    load_attempt STREAM_LIST_FILE (read_lines STREAM_LIST_FILE (retry_clock (clock w) n))
    = Loaded stations /\
    clock w' = retry_clock (clock w) n /\
    threads w'
    = threads w ++ mkThread T_reporting_loop (clock w')
        :: map (fun st => mkThread (T_record_station (fst st) (snd st)) (clock w'))
               stations /\
    (length (threads w) + 2 <= length (threads w'))%nat /\
    (forall k : string,
       k ∈ map fst stations -> dict_get k (station_status w') = Some false).
Proof.
  unfold main_script, bind. intros Hrun.
  destruct (load_stations_account read_lines STREAM_LIST_FILE fuel w)
    as (_ & Hs & Ht & n & _ & _ & Hclock & Hres).
  cbv zeta in *.
  destruct (load_stations read_lines fuel STREAM_LIST_FILE w) as [[stations|e|] w1];
    cbn [fst snd] in *; try discriminate.
  destruct Hres as [_ Hload].
  rewrite main_run in Hrun. injection Hrun as <-.
  exists stations, n. cbn [clock threads station_status].
  split; [exact (load_attempt_nonempty _ _ _ Hload)|].
  unfold retry_clock. split; [now rewrite <- Hclock|]. split; [exact Hclock|].
  split; [now rewrite Ht|]. split.
  - rewrite Ht, length_app. cbn [length]. rewrite length_map.
    pose proof (load_attempt_nonempty _ _ _ Hload). destruct stations; [congruence|].
    cbn [length]. lia.
  - apply (fold_dict_set_false stations (station_status w1)).
Qed.

Lemma main_script_started_witness :
  let read_lines := fun (_ : string) (t : datetime) =>
    inr [" DZMM "; "http://dzmm/live"] : Exn + list string in
  let w := initial_world (mkdatetime 2024 2 28 5 0 0 0) ∅ in
  let w' := snd (main_script read_lines 1 w) in
  exists (stations : list (string * string)) (n : nat),
    stations <> [] /\
    load_attempt STREAM_LIST_FILE (read_lines STREAM_LIST_FILE (retry_clock (clock w) n))
    = Loaded stations /\
    clock w' = retry_clock (clock w) n /\
    threads w'
    = threads w ++ mkThread T_reporting_loop (clock w')
        :: map (fun st => mkThread (T_record_station (fst st) (snd st)) (clock w'))
               stations /\
    (length (threads w) + 2 <= length (threads w'))%nat /\
    (forall k : string,
       k ∈ map fst stations -> dict_get k (station_status w') = Some false).
Proof.
  intros read_lines w w'.
  apply (main_script_started read_lines 1 w w'). reflexivity.
Defined.
